(** * pollution-exposure-viz: the exposure engine, the magnitude classifier,
      the edge-pattern detector and the distribution aggregator

    A shallow embedding of [geotiff_processor.py] and
    [edge_pattern_analyzer.py].  Raster cells are IEEE-754 binary64 values
    (Rocq's primitive floats, numpy's [float64]); NaN, the infinities and the
    two zeros behave as they do in numpy.  Python dictionaries with string
    keys are [gmap string _]; exceptions are an error monad; arrays live in
    an object store, so that "the inputs are not mutated" is a statement
    about the store. *)

From Stdlib Require Import ZArith Lia List Bool Floats Uint63.
From stdpp Require Import gmap strings sorting.
Import ListNotations.

Set Warnings "-inexact-float".
Local Open Scope nat_scope.

(* ================================================================== *)
(** * Python values, exceptions                                        *)
(* ================================================================== *)

Inductive exn :=
| ValueError (msg : string)
| RasterioIOError (path : string)
| OSError (path : string).

Inductive result (A : Type) :=
| Ok (a : A)
| Raise (e : exn).
Arguments Ok {A} a.
Arguments Raise {A} e.

(** A Python number as it appears in the emitted dictionaries. *)
Inductive pynum :=
| PyInt (z : Z)
| PyFloat (x : float).

(** [float(n)] for a Python int that is an array dimension or a pixel count:
    exact below 2^53, and numpy dimensions stay below 2^63. *)
Definition float_of_nat (n : nat) : float :=
  PrimFloat.of_uint63 (Uint63.of_Z (Z.of_nat n)).

(* ================================================================== *)
(** * numpy arrays                                                     *)
(* ================================================================== *)

(** A 2-D [np.ndarray] of floats: its [shape] and its cells.  Cells outside
    the shape are never read. *)
Record ndarray := {
  shape : nat * nat;
  item : nat -> nat -> float
}.

Definition nrows (a : ndarray) : nat := fst (shape a).
Definition ncols (a : ndarray) : nat := snd (shape a).

(** [np.array(rows)] for a literal nested list with [cols] columns. *)
Definition of_rows (cols : nat) (rows : list (list float)) : ndarray :=
  {| shape := (length rows, cols);
     item i j := nth j (nth i rows []) PrimFloat.nan |}.

(** Row [i] and column [j] as 1-D views: [a[i, :]] and [a[:, j]]. *)
Definition row_view (a : ndarray) (i : nat) : list float :=
  map (item a i) (seq 0 (ncols a)).
Definition col_view (a : ndarray) (j : nat) : list float :=
  map (fun i => item a i j) (seq 0 (nrows a)).

(** The cells in C (row-major) order, the order of [a[mask]] and of the
    reductions. *)
Definition ravel (a : ndarray) : list float :=
  flat_map (row_view a) (seq 0 (nrows a)).

(** [a[mask]] where [mask] is the element-wise test [p]. *)
Definition select (p : float -> bool) (values : list float) : list float :=
  List.filter p values.

(** [np.sum(mask)]: the number of [True] entries of a boolean array. *)
Definition np_sum_bool (mask : list bool) : nat :=
  length (List.filter (fun b => b) mask).

(** [np.all(mask)]; [True] on an empty array. *)
Definition np_all (mask : list bool) : bool := forallb (fun b => b) mask.

(** [np.where(mask, a, fill)] where [mask] is the element-wise test [p]. *)
Definition np_where (p : float -> bool) (a : ndarray) (fill : float) : ndarray :=
  {| shape := shape a;
     item i j := if p (item a i j) then item a i j else fill |}.

(** numpy broadcasting of one dimension: equal sizes, or one of them is 1. *)
Definition broadcast_dim (n m : nat) : option nat :=
  if n =? m then Some n
  else if n =? 1 then Some m
  else if m =? 1 then Some n
  else None.

(** [a * b] on 2-D arrays, with broadcasting. *)
Definition np_multiply (a b : ndarray) : result ndarray :=
  match broadcast_dim (nrows a) (nrows b), broadcast_dim (ncols a) (ncols b) with
  | Some r, Some c =>
      Ok {| shape := (r, c);
            item i j :=
              PrimFloat.mul
                (item a (if nrows a =? 1 then 0 else i) (if ncols a =? 1 then 0 else j))
                (item b (if nrows b =? 1 then 0 else i) (if ncols b =? 1 then 0 else j)) |}
  | _, _ => Raise (ValueError "operands could not be broadcast together")
  end.

(** The floating-point dtypes of an array.  A cell of a float16 or float32
    array is a binary64 value that the narrower format represents. *)
Inductive float_dtype := Float16 | Float32 | Float64.

(** Conversion of a binary64 value to the binary format with [prec] bits of
    precision and exponent bound [emax], to nearest, ties to even, with
    overflow to infinity; the result is again held as a binary64 value. *)
Definition round_to (prec emax : Z) (x : float) : float :=
  match Prim2SF x with
  | S754_finite s m e => SF2Prim (SpecFloat.binary_round prec emax s m e)
  | _ => x
  end.

(** A Python scalar in an operation with an array: numpy converts it to the
    array's dtype, so a comparison [array >= 0.01] on a float32 array
    compares with [float32(0.01)]. *)
Definition np_scalar (dtype : float_dtype) (x : float) : float :=
  match dtype with
  | Float16 => round_to 11 16 x
  | Float32 => round_to 24 128 x
  | Float64 => x
  end.

(** The floating-point reductions and elementary functions of numpy.  Their
    rounding and summation order are numpy's business; the pipeline only
    decides which values they are applied to. *)
Class Numpy := {
  np_sum : list float -> float;
  np_mean : list float -> float;
  np_std : list float -> float;
  np_amax : list float -> float;
  np_amin : list float -> float;
  np_median : list float -> float;
  np_percentile : list float -> float -> float;
  np_exp : float -> float;
  np_log : float -> float
}.

(** [np.max] and [np.min] have no identity: they raise on a zero-size array. *)
Definition np_max `{Numpy} (values : list float) : result float :=
  match values with
  | [] => Raise (ValueError "zero-size array to reduction operation maximum which has no identity")
  | _ :: _ => Ok (np_amax values)
  end.

Definition np_min `{Numpy} (values : list float) : result float :=
  match values with
  | [] => Raise (ValueError "zero-size array to reduction operation minimum which has no identity")
  | _ :: _ => Ok (np_amin values)
  end.

(* ================================================================== *)
(** * The object store and the pipeline monad                          *)
(* ================================================================== *)

(** File-system effects of the pipeline. *)
Inductive event :=
| Opened (path : string)
| MadeDirs (path : string)
| Written (path : string).

(** Arrays are Python objects held by reference.  [cells] maps a reference to
    the array's current contents, [next] is the first unused reference, [io]
    is the list of file-system effects so far (oldest first). *)
Record state := {
  cells : nat -> ndarray;
  next : nat;
  io : list event
}.

(** A computation reads and updates the state and either returns or raises;
    the effects performed before an exception stay in the state. *)
Definition M (A : Type) : Type := state -> result A * state.

Definition ret {A} (a : A) : M A := fun s => (Ok a, s).

Definition raise {A} (e : exn) : M A := fun s => (Raise e, s).

Definition bind {A B} (m : M A) (k : A -> M B) : M B :=
  fun s =>
    match m s with
    | (Ok a, s') => k a s'
    | (Raise e, s') => (Raise e, s')
    end.

Notation "'let*' x := m 'in' k" := (bind m (fun x => k))
  (at level 10, x name, m at level 100, k at level 200, only parsing).
Notation "'let*' ' pat := m 'in' k" := (bind m (fun x => match x with pat => k end))
  (at level 10, pat pattern, m at level 100, k at level 200, only parsing).

Definition lift {A} (r : result A) : M A := fun s => (r, s).

(** A numpy operation that produces an array allocates a new object. *)
Definition alloc (a : ndarray) : M nat :=
  fun s =>
    (Ok (next s),
     {| cells := fun r => if r =? next s then a else cells s r;
        next := S (next s);
        io := io s |}).

Definition load (r : nat) : M ndarray := fun s => (Ok (cells s r), s).

Definition emit (e : event) : M unit :=
  fun s => (Ok tt, {| cells := cells s; next := next s; io := io s ++ [e] |}).

(* ================================================================== *)
(** * geotiff_processor.py                                             *)
(* ================================================================== *)

(** ** Records of the pipeline *)

(** The affine geotransform of a raster: its six coefficients. *)
Record affine := {
  aff_a : float; aff_b : float; aff_c : float;
  aff_d : float; aff_e : float; aff_f : float
}.

(** [t1 == t2] on transforms: coefficient by coefficient, with float [==]. *)
Definition affine_eqb (t1 t2 : affine) : bool :=
  PrimFloat.eqb (aff_a t1) (aff_a t2) && PrimFloat.eqb (aff_b t1) (aff_b t2) &&
  PrimFloat.eqb (aff_c t1) (aff_c t2) && PrimFloat.eqb (aff_d t1) (aff_d t2) &&
  PrimFloat.eqb (aff_e t1) (aff_e t2) && PrimFloat.eqb (aff_f t1) (aff_f t2).

(** [s1 == s2] on shapes, tuples of two ints. *)
Definition shape_eqb (s1 s2 : nat * nat) : bool :=
  (fst s1 =? fst s2) && (snd s1 =? snd s2).

Record bounding_box := {
  bounds_left : float; bounds_bottom : float;
  bounds_right : float; bounds_top : float
}.

(** What [rasterio.open(path)] gives access to: band 1, the transform, the
    CRS (as [str(crs)]) and the bounds.  [src.shape] is the shape of band 1.
    [band_dtype] is [src.dtypes[0]], the dtype in which [src.read(1)] returns
    the band; the pipeline never converts it.  The arithmetic of the model
    is that of float64 arrays: a statement about computed cell values holds
    for bands whose dtype is ["float64"]. *)
Record raster_file := {
  band1 : ndarray;
  band_dtype : string;
  transform : affine;
  crs : string;
  bounds : bounding_box
}.

(** The dictionary returned by [extract_asset_info_from_filename]. *)
Record asset_info := {
  info_asset_id : string;
  info_country : string;
  info_suffix : string
}.

(** The [exposure_stats] dictionary. *)
Record exposure_stats := {
  total_person_exposure : float;
  mean_person_exposure : float;
  max_person_exposure : float;
  min_person_exposure : float;
  std_person_exposure : float;
  non_zero_pixels : nat;
  non_zero_mean : float
}.

Record asset_files := {
  file_concentration : string;
  file_population : string;
  file_person_exposure : option string
}.

(** One entry of [assets.json].  [person_exposure_stats] is [None] for an
    entry that lacks the key (the aggregator tests for it).  The type holds
    the complete entries, as [process_asset_pair] builds them: every other
    key is present and the statistics, when present, carry all their
    numbers.  A decoded entry that lacks ['country'], or whose statistics
    are [null] or lack a key, on which the code raises [KeyError] or
    [TypeError], is not a value of this type. *)
Record asset_record := {
  asset_id : string;
  country : string;
  center_lon : float;
  center_lat : float;
  total_pixels : nat;
  asset_crs : string;
  asset_bounds : bounding_box;
  concentration_pixel_counts : gmap string nat;
  population_pixel_counts : gmap string nat;
  person_exposure_pixel_counts : gmap string nat;
  person_exposure_stats : option exposure_stats;
  script_version : string;
  processed_date : string;
  files : asset_files
}.

(** The collaborators outside the core: the regular-expression engine, path
    handling, the GeoTIFF files on disk, rasterio's pixel-to-coordinate map
    and the clock.  [os_makedirs] is [os.makedirs(path, exist_ok=True)] and
    [rasterio_write] is the creation of a GeoTIFF with the given band; both
    can fail (the path is a regular file, the directory cannot be written,
    the driver refuses the array) and say with which exception. *)
Class World := {
  re_search : string -> string -> option (list (option string));
  os_path_basename : string -> string;
  os_path_join : string -> string -> string;
  rasterio_read : string -> option raster_file;
  rasterio_transform_xy : affine -> nat -> nat -> float * float;
  utcnow_isoformat : string;
  os_makedirs : string -> result unit;
  rasterio_write : string -> ndarray -> result unit
}.

Definition SCRIPT_VERSION : string := "1.1.0".

(** ** extract_asset_info_from_filename *)

(** [suffix or 'concentration'] *)
Definition suffix_or_default (suffix : option string) : string :=
  match suffix with
  | Some s => if String.eqb s "" then "concentration" else s
  | None => "concentration"
  end.

Definition extract_asset_info_from_filename `{World}
    (filename : string) (country : option string) : result asset_info :=
  let old_pattern :=
    match re_search "cmu_plumes_footprints_v2_([A-Z]{3})_(\d+)(?:-(.+?))?-v2\.tiff" filename with
    | Some [Some c; Some a; suffix] =>
        Ok {| info_asset_id := a; info_country := c;
              info_suffix := suffix_or_default suffix |}
    | _ => Raise (ValueError (String.append "Filename doesn't match expected pattern: " filename))
    end in
  match country with
  | Some c =>
      if String.eqb c "" then old_pattern
      else
        match re_search "(\d+)(?:-(.+?))?-v2\.tiff" filename with
        | Some [Some a; suffix] =>
            Ok {| info_asset_id := a; info_country := c;
                  info_suffix := suffix_or_default suffix |}
        | _ => old_pattern
        end
  | None => old_pattern
  end.

(** ** count_pixels_by_order_of_magnitude *)

(** [np.isfinite(data) & (data >= 0)] on one cell. *)
Definition is_valid (v : float) : bool :=
  PrimFloat.is_finite v && PrimFloat.leb 0 v.

Definition ranges : list (string * float * float) :=
  [ ("0", 0, 0);
    ("0.001-0.01", 0.001, 0.01);
    ("0.01-0.1", 0.01, 0.1);
    ("0.1-1", 0.1, 1);
    ("1-10", 1, 10);
    ("10-100", 10, 100);
    ("100-1000", 100, 1000);
    ("1000-10000", 1000, 10000);
    ("10000+", 10000, PrimFloat.infinity) ]%float.

Definition count_pixels_by_order_of_magnitude (data : ndarray) : gmap string nat :=
  let valid_data := select is_valid (ravel data) in
  let zero_count := np_sum_bool (map (fun v => PrimFloat.eqb v 0) valid_data) in
  let counts : gmap string nat := <["0" := zero_count]> ∅ in
  let non_zero_data := select (fun v => PrimFloat.ltb 0 v) valid_data in
  fold_left
    (fun (counts : gmap string nat) '(range_name, min_val, max_val) =>
       let count :=
         if PrimFloat.eqb max_val PrimFloat.infinity
         then np_sum_bool (map (fun v => PrimFloat.leb min_val v) non_zero_data)
         else np_sum_bool
                (map (fun v => PrimFloat.leb min_val v && PrimFloat.ltb v max_val)
                     non_zero_data) in
       <[range_name := count]> counts)
    (tl ranges) counts.

(** The array of the model does not carry its dtype.  The definition above
    is the function on a float64 array, as the pipeline of the model uses
    it; this one is the function on an array of the given dtype: the
    comparisons with [min_val] and [max_val] are made in that dtype, the
    comparisons with 0 are the same in every dtype. *)
Definition count_pixels_by_order_of_magnitude_as (dtype : float_dtype) (data : ndarray)
    : gmap string nat :=
  let valid_data := select is_valid (ravel data) in
  let zero_count := np_sum_bool (map (fun v => PrimFloat.eqb v 0) valid_data) in
  let counts : gmap string nat := <["0" := zero_count]> ∅ in
  let non_zero_data := select (fun v => PrimFloat.ltb 0 v) valid_data in
  fold_left
    (fun (counts : gmap string nat) '(range_name, min_val, max_val) =>
       let count :=
         if PrimFloat.eqb max_val PrimFloat.infinity
         then np_sum_bool
                (map (fun v => PrimFloat.leb (np_scalar dtype min_val) v) non_zero_data)
         else np_sum_bool
                (map (fun v => PrimFloat.leb (np_scalar dtype min_val) v &&
                               PrimFloat.ltb v (np_scalar dtype max_val))
                     non_zero_data) in
       <[range_name := count]> counts)
    (tl ranges) counts.

(** ** get_asset_centerpoint *)

Definition get_asset_centerpoint `{World} (t : affine) (shp : nat * nat) : float * float :=
  let '(rows, cols) := shp in
  let center_row := rows / 2 in
  let center_col := cols / 2 in
  rasterio_transform_xy t center_row center_col.

(** ** compute_person_exposure_raster *)

(** The arguments are references to the two input arrays; the result is a
    reference to the new exposure raster and the statistics. *)
Definition compute_person_exposure_raster `{Numpy}
    (conc_data pop_data : nat) : M (nat * exposure_stats) :=
  let* conc := load conc_data in
  let* conc_clean := alloc (np_where is_valid conc 0%float) in
  let* pop := load pop_data in
  let* pop_clean := alloc (np_where is_valid pop 0%float) in
  let* cc := load conc_clean in
  let* pc := load pop_clean in
  let* product := lift (np_multiply cc pc) in
  let* person_exposure_raster := alloc product in
  let values := ravel product in
  let positive := fun v => PrimFloat.ltb 0 v in
  let valid_exposure := select positive values in
  let total := np_sum values in
  let mean := np_mean values in
  let* maximum := lift (np_max values) in
  let* minimum := lift (np_min values) in
  ret (person_exposure_raster,
       {| total_person_exposure := total;
          mean_person_exposure := mean;
          max_person_exposure := maximum;
          min_person_exposure := minimum;
          std_person_exposure := np_std values;
          non_zero_pixels := np_sum_bool (map positive values);
          non_zero_mean :=
            if 0 <? length valid_exposure then np_mean valid_exposure else 0%float |}).

(** ** process_asset_pair *)

(** The error raised for a pair that is not aligned; the specification calls
    it AlignmentError. *)
Definition AlignmentError : exn :=
  ValueError "Concentration and population rasters are not spatially aligned".

(** [with rasterio.open(path) as src: data = src.read(1); ...] *)
Definition rasterio_open `{World} (path : string) : M (nat * raster_file) :=
  match rasterio_read path with
  | None => raise (RasterioIOError path)
  | Some src =>
      let* _ := emit (Opened path) in
      let* data := alloc (band1 src) in
      ret (data, src)
  end.

(** [with rasterio.open(output_file, 'w', ...) as dst: dst.write(raster, 1)].
    [Written] records a completed write; when the creation or the write
    raises, the exception goes to the caller and no write is recorded. *)
Definition save_person_exposure_geotiff `{World} (person_exposure_raster : nat)
    (output_file : string) : M unit :=
  let* data := load person_exposure_raster in
  let* _ := lift (rasterio_write output_file data) in
  emit (Written output_file).

Definition process_asset_pair `{Numpy} `{World}
    (conc_file pop_file : string) (country : option string)
    (save_exposure_tiff : bool) (output_dir : string) : M asset_record :=
  let* conc_info := lift (extract_asset_info_from_filename (os_path_basename conc_file) country) in
  let* pop_info := lift (extract_asset_info_from_filename (os_path_basename pop_file) country) in
  if negb (String.eqb (info_asset_id conc_info) (info_asset_id pop_info)) then
    raise (ValueError (String.append "Asset IDs don't match: "
             (String.append (info_asset_id conc_info)
                (String.append " vs " (info_asset_id pop_info)))))
  else if negb (String.eqb (info_country conc_info) (info_country pop_info)) then
    raise (ValueError (String.append "Countries don't match: "
             (String.append (info_country conc_info)
                (String.append " vs " (info_country pop_info)))))
  else
  let* '(conc_data, conc_src) := rasterio_open conc_file in
  let* '(pop_data, pop_src) := rasterio_open pop_file in
  let conc_transform := transform conc_src in
  let conc_shape := shape (band1 conc_src) in
  let pop_transform := transform pop_src in
  let pop_shape := shape (band1 pop_src) in
  if negb (affine_eqb conc_transform pop_transform && shape_eqb conc_shape pop_shape) then
    raise AlignmentError
  else
  let '(lon, lat) := get_asset_centerpoint conc_transform conc_shape in
  let* '(person_exposure_raster, stats) := compute_person_exposure_raster conc_data pop_data in
  let* conc_array := load conc_data in
  let* pop_array := load pop_data in
  let* exposure_array := load person_exposure_raster in
  let conc_counts := count_pixels_by_order_of_magnitude conc_array in
  let pop_counts := count_pixels_by_order_of_magnitude pop_array in
  let exposure_counts := count_pixels_by_order_of_magnitude exposure_array in
  let* exposure_filename :=
    if save_exposure_tiff then
      let name :=
        String.append (info_country conc_info)
          (String.append "_" (String.append (info_asset_id conc_info) "_person_exposure.tiff")) in
      let output_path := os_path_join output_dir name in
      let* _ := lift (os_makedirs output_dir) in
      let* _ := emit (MadeDirs output_dir) in
      let* _ := save_person_exposure_geotiff person_exposure_raster output_path in
      ret (Some name)
    else ret None in
  ret {| asset_id := info_asset_id conc_info;
         country := info_country conc_info;
         center_lon := lon;
         center_lat := lat;
         total_pixels := nrows conc_array * ncols conc_array;
         asset_crs := crs conc_src;
         asset_bounds := bounds conc_src;
         concentration_pixel_counts := conc_counts;
         population_pixel_counts := pop_counts;
         person_exposure_pixel_counts := exposure_counts;
         person_exposure_stats := Some stats;
         script_version := SCRIPT_VERSION;
         processed_date := String.append utcnow_isoformat "Z";
         files := {| file_concentration := os_path_basename conc_file;
                     file_population := os_path_basename pop_file;
                     file_person_exposure := exposure_filename |} |}.

(** ** calculate_exposure_distribution_stats *)

(** The loop that collects the per-asset values: one pair of appends for
    every asset that has a ['person_exposure_stats'] entry. *)
Definition collect_exposures (asset_results : list asset_record)
    : list float * list float :=
  fold_left
    (fun '(max_exposures, total_exposures) asset =>
       match person_exposure_stats asset with
       | Some st =>
           (max_exposures ++ [max_person_exposure st],
            total_exposures ++ [total_person_exposure st])
       | None => (max_exposures, total_exposures)
       end)
    asset_results ([], []).

(** [float(np.exp(np.mean(np.log(non_zero)))) if len(non_zero) > 0 else 0.0],
    the expression of both ["geometric_mean"] entries. *)
Definition geometric_mean `{Numpy} (non_zero : list float) : float :=
  if 0 <? length non_zero then np_exp (np_mean (map np_log non_zero)) else 0%float.

Definition calculate_exposure_distribution_stats `{Numpy}
    (asset_results : list asset_record) : result (gmap string (gmap string pynum)) :=
  let '(max_exposures, total_exposures) := collect_exposures asset_results in
  match max_exposures with
  | [] => Ok ∅
  | _ :: _ =>
      let non_zero_max := select (fun v => PrimFloat.ltb 0 v) max_exposures in
      let non_zero_total := select (fun v => PrimFloat.ltb 0 v) total_exposures in
      match np_min max_exposures, np_max max_exposures,
            np_min total_exposures, np_max total_exposures with
      | Ok min_max, Ok max_max, Ok min_total, Ok max_total =>
          let max_stats : gmap string pynum :=
            list_to_map
              [ ("count", PyInt (Z.of_nat (length max_exposures)));
                ("min", PyFloat min_max);
                ("max", PyFloat max_max);
                ("mean", PyFloat (np_mean max_exposures));
                ("median", PyFloat (np_median max_exposures));
                ("std", PyFloat (np_std max_exposures));
                ("geometric_mean", PyFloat (geometric_mean non_zero_max));
                ("percentile_90", PyFloat (np_percentile max_exposures 90));
                ("percentile_95", PyFloat (np_percentile max_exposures 95));
                ("percentile_99", PyFloat (np_percentile max_exposures 99)) ] in
          let total_stats : gmap string pynum :=
            list_to_map
              [ ("count", PyInt (Z.of_nat (length total_exposures)));
                ("min", PyFloat min_total);
                ("max", PyFloat max_total);
                ("mean", PyFloat (np_mean total_exposures));
                ("median", PyFloat (np_median total_exposures));
                ("std", PyFloat (np_std total_exposures));
                ("geometric_mean", PyFloat (geometric_mean non_zero_total));
                ("sum_all_assets", PyFloat (np_sum total_exposures)) ] in
          Ok (list_to_map
                [ ("max_person_exposure_stats", max_stats);
                  ("total_person_exposure_stats", total_stats) ])
      | Raise e, _, _, _ | _, Raise e, _, _ | _, _, Raise e, _ | _, _, _, Raise e => Raise e
      end
  end.

(** ** create_assets_json *)

(** A value of the ['metadata'] dictionary. *)
Inductive metadata_value :=
| MetaStr (s : string)
| MetaInt (n : Z)
| MetaStrings (l : list string)
| MetaStats (d : gmap string pynum).

(** The structure written to [assets.json]. *)
Record assets_json := {
  metadata : gmap string metadata_value;
  assets : list asset_record
}.

(** [sorted(list(set(names)))].  The order in which the set is listed does
    not matter: a list without duplicates has one sorted arrangement.
    Strings compare character by character, by code. *)
Definition sorted_set (names : list string) : list string :=
  merge_sort String.le (elements (list_to_set names : gset string)).

(** [d.update(other)]: the entries of [other] replace those of [d]. *)
Definition dict_update {V} (d other : gmap string V) : gmap string V := other ∪ d.

Definition create_assets_json `{Numpy} `{World}
    (asset_results : list asset_record) : result assets_json :=
  let countries := sorted_set (map country asset_results) in
  match calculate_exposure_distribution_stats asset_results with
  | Raise e => Raise e
  | Ok exposure_stats =>
      let metadata : gmap string metadata_value :=
        list_to_map
          [ ("processed_date", MetaStr (String.append utcnow_isoformat "Z"));
            ("total_assets", MetaInt (Z.of_nat (length asset_results)));
            ("countries", MetaStrings countries);
            ("data_version", MetaStr "v2");
            ("script_version", MetaStr SCRIPT_VERSION) ] in
      Ok {| metadata := dict_update metadata (MetaStats <$> exposure_stats);
            assets := asset_results |}
  end.

(** ** needs_processing *)

#[local] Set Warnings "-register-all".

(** A value decoded from [assets.json] by [json.load]. *)
Inductive json :=
| JNull
| JBool (b : bool)
| JNum (n : pynum)
| JStr (s : string)
| JList (l : list json)
| JDict (d : gmap string json).

(** The exceptions of dictionary access and of comparisons across types. *)
Inductive access_error :=
| KeyError (key : string)
| TypeError
| AttributeError.

Inductive fallible (A : Type) :=
| Returns (a : A)
| Throws (e : access_error).
Arguments Returns {A} a.
Arguments Throws {A} e.

(** Whether a path exists when [needs_processing] asks. *)
Class FileSystem := {
  os_path_exists : string -> bool
}.

(** [v[key]] for a string key: only a dictionary that has the key answers. *)
Definition subscript (v : json) (key : string) : fallible json :=
  match v with
  | JDict d =>
      match d !! key with
      | Some x => Returns x
      | None => Throws (KeyError key)
      end
  | _ => Throws TypeError
  end.

(** [v.get(key, default)]: only dictionaries have [get]. *)
Definition dict_get (v : json) (key : string) (fallback : json) : fallible json :=
  match v with
  | JDict d => Returns (default fallback (d !! key))
  | _ => Throws AttributeError
  end.

(** [v == s] for a string [s]: no other kind of value equals a string. *)
Definition eq_str (v : json) (s : string) : bool :=
  match v with
  | JStr t => String.eqb t s
  | _ => false
  end.

(** [v < s] for a string [s]: strings compare character by character, and
    no other kind of value can be ordered against a string. *)
Definition lt_str (v : json) (s : string) : fallible bool :=
  match v with
  | JStr t => Returns (String.ltb t s)
  | _ => Throws TypeError
  end.

(** [bool(v)] *)
Definition truthy (v : json) : bool :=
  match v with
  | JNull => false
  | JBool b => b
  | JNum (PyInt n) => negb (n =? 0)%Z
  | JNum (PyFloat x) => negb (PrimFloat.eqb x 0)
  | JStr s => negb (String.eqb s "")
  | JList l => match l with [] => false | _ :: _ => true end
  | JDict d => negb (bool_decide (d = ∅))
  end.

#[global] Instance fallible_ret : MRet fallible := @Returns.
#[global] Instance fallible_bind : MBind fallible :=
  fun A B k m =>
    match m with
    | Returns a => k a
    | Throws e => Throws e
    end.

(** The loop that looks for the asset: the first entry whose ['asset_id'] and
    ['country'] both equal the arguments; [and] evaluates ['country'] only
    when the identifier matched. *)
Fixpoint find_existing_asset (country asset_id : string)
    (existing_assets : list json) : fallible (option json) :=
  match existing_assets with
  | [] => mret None
  | asset :: rest =>
      id ← subscript asset "asset_id";
      if eq_str id asset_id then
        c ← subscript asset "country";
        if eq_str c country then mret (Some asset)
        else find_existing_asset country asset_id rest
      else find_existing_asset country asset_id rest
  end.

Definition needs_processing `{World} `{FileSystem}
    (country asset_id : string) (existing_assets : list json) : fallible bool :=
  existing_asset ← find_existing_asset country asset_id existing_assets;
  match existing_asset with
  | None => mret true
  | Some existing_asset =>
      if negb (truthy existing_asset) then mret true
      else
        existing_version ← dict_get existing_asset "script_version" (JStr "1.0.0");
        older ← lt_str existing_version SCRIPT_VERSION;
        if older : bool then mret true
        else
          files ← dict_get existing_asset "files" (JDict ∅);
          exposure_file ← dict_get files "person_exposure" JNull;
          if truthy exposure_file then
            match exposure_file with
            | JStr name =>
                let exposure_path := os_path_join "processed" name in
                if negb (os_path_exists exposure_path) then mret true else mret false
            | _ => Throws TypeError
            end
          else mret false
  end.

(* ================================================================== *)
(** * edge_pattern_analyzer.py                                         *)
(* ================================================================== *)

(** The [patterns] dictionary of [detect_edge_patterns]. *)
Record patterns := {
  top_zero_stripe : bool;
  bottom_zero_stripe : bool;
  left_zero_stripe : bool;
  right_zero_stripe : bool;
  top_zero_rows : nat;
  bottom_zero_rows : nat;
  left_zero_cols : nat;
  right_zero_cols : nat
}.

(** [np.all(data[i, :] <= threshold)] and [np.all(data[:, j] <= threshold)] *)
Definition row_is_zero (data : ndarray) (threshold : float) (i : nat) : bool :=
  np_all (map (fun v => PrimFloat.leb v threshold) (row_view data i)).
Definition col_is_zero (data : ndarray) (threshold : float) (j : nat) : bool :=
  np_all (map (fun v => PrimFloat.leb v threshold) (col_view data j)).

(** The four loops share one shape:
    [for i in indices: if test(i): count = new(i)  else: break]. *)
Fixpoint scan_edge (test : nat -> bool) (new : nat -> nat)
    (indices : list nat) (count : nat) : nat :=
  match indices with
  | [] => count
  | i :: rest => if test i then scan_edge test new rest (new i) else count
  end.

(** [range(n)] and [range(n-1, -1, -1)] *)
Definition range (n : nat) : list nat := seq 0 n.
Definition range_down (n : nat) : list nat := rev (seq 0 n).

(** [max(10, min(rows, cols) * 0.01)]: Python's [max] keeps its first
    argument, the int 10, unless the second is strictly greater. *)
Definition min_stripe_threshold (rows cols : nat) : pynum :=
  let scaled := PrimFloat.mul (float_of_nat (Nat.min rows cols)) 0.01%float in
  if PrimFloat.ltb 10 scaled then PyFloat scaled else PyInt 10.

(** [count > limit] for an int [count].  Python compares an int with a float
    by value; a count is far below 2^53, where [float(count)] is exact. *)
Definition exceeds (count : nat) (limit : pynum) : bool :=
  match limit with
  | PyInt z => (z <? Z.of_nat count)%Z
  | PyFloat x => PrimFloat.ltb x (float_of_nat count)
  end.

Definition detect_edge_patterns (data : ndarray) (threshold : float) : patterns :=
  let '(rows, cols) := shape data in
  let top := scan_edge (row_is_zero data threshold) (fun i => i + 1) (range rows) 0 in
  let bottom := scan_edge (row_is_zero data threshold) (fun i => rows - i) (range_down rows) 0 in
  let left := scan_edge (col_is_zero data threshold) (fun j => j + 1) (range cols) 0 in
  let right := scan_edge (col_is_zero data threshold) (fun j => cols - j) (range_down cols) 0 in
  let limit := min_stripe_threshold rows cols in
  {| top_zero_stripe := exceeds top limit;
     bottom_zero_stripe := exceeds bottom limit;
     left_zero_stripe := exceeds left limit;
     right_zero_stripe := exceeds right limit;
     top_zero_rows := top;
     bottom_zero_rows := bottom;
     left_zero_cols := left;
     right_zero_cols := right |}.

(** The ['suspicious_patterns'] entry built by [analyze_concentration_file]. *)
Definition suspicious_patterns (edge_patterns : patterns) : bool :=
  top_zero_stripe edge_patterns || bottom_zero_stripe edge_patterns ||
  left_zero_stripe edge_patterns || right_zero_stripe edge_patterns.

(** ** analyze_concentration_file *)

(** [try: body except Exception as e: handler(e)]; the effects of the body
    up to the exception stay. *)
Definition try_except {A} (body : M A) (handler : exn -> M A) : M A :=
  fun s =>
    match body s with
    | (Ok a, s') => (Ok a, s')
    | (Raise e, s') => handler e s'
    end.

(** [np.where(mask)] for the element-wise test [p] of a 2-D array: the row
    indices and the column indices of the cells that pass, in C order. *)
Definition np_where_indices (p : float -> bool) (a : ndarray) : list nat * list nat :=
  let hits :=
    flat_map
      (fun i => map (fun j => (i, j))
                    (List.filter (fun j => p (item a i j)) (seq 0 (ncols a))))
      (seq 0 (nrows a)) in
  (map fst hits, map snd hits).

(** [np.min] and [np.max] of an index array; they raise on an empty one. *)
Definition np_min_index (indices : list nat) : result nat :=
  match indices with
  | [] => Raise (ValueError "zero-size array to reduction operation minimum which has no identity")
  | i :: rest => Ok (fold_left Nat.min rest i)
  end.

Definition np_max_index (indices : list nat) : result nat :=
  match indices with
  | [] => Raise (ValueError "zero-size array to reduction operation maximum which has no identity")
  | i :: rest => Ok (fold_left Nat.max rest i)
  end.

(** The ['data_extent'] and ['reaches_edges'] dictionaries. *)
Record extent := {
  min_row : Z;
  max_row : Z;
  min_col : Z;
  max_col : Z
}.

Record edge_reach := {
  reaches_top : bool;
  reaches_bottom : bool;
  reaches_left : bool;
  reaches_right : bool
}.

(** The dictionary returned for a file that could be analysed. *)
Record file_analysis := {
  analysis_country : string;
  analysis_asset_id : string;
  analysis_file_path : string;
  analysis_shape : nat * nat;
  analysis_total_pixels : nat;
  zero_pixels : nat;
  positive_pixels : nat;
  zero_percentage : float;
  data_extent : extent;
  reaches_edges : edge_reach;
  edge_patterns : patterns;
  analysis_suspicious_patterns : bool
}.

(** The two dictionaries [analyze_concentration_file] can return: the
    analysis, or the record with an ['error'] entry (the exception stands for
    its [str]). *)
Inductive analysis :=
| Analysed (record : file_analysis)
| AnalysisFailed (country asset_id file_path : string) (error : exn).

Definition analyze_concentration_file `{World}
    (file_path country asset_id : string) : M analysis :=
  try_except
    (let* '(data_ref, src) := rasterio_open file_path in
     let* data := load data_ref in
     let total := nrows data * ncols data in
     let zeros := np_sum_bool (map (fun v => PrimFloat.eqb v 0) (ravel data)) in
     let positives := np_sum_bool (map (fun v => PrimFloat.ltb 0 v) (ravel data)) in
     let found := detect_edge_patterns data 0%float in
     let* '(box, reach) :=
       if 0 <? positives then
         let '(rows, cols) := np_where_indices (fun v => PrimFloat.ltb 0 v) data in
         let* lowest_row := lift (np_min_index rows) in
         let* highest_row := lift (np_max_index rows) in
         let* lowest_col := lift (np_min_index cols) in
         let* highest_col := lift (np_max_index cols) in
         let box :=
           {| min_row := Z.of_nat lowest_row; max_row := Z.of_nat highest_row;
              min_col := Z.of_nat lowest_col; max_col := Z.of_nat highest_col |} in
         ret (box,
              {| reaches_top := (min_row box =? 0)%Z;
                 reaches_bottom := (max_row box =? Z.of_nat (nrows data) - 1)%Z;
                 reaches_left := (min_col box =? 0)%Z;
                 reaches_right := (max_col box =? Z.of_nat (ncols data) - 1)%Z |})
       else
         ret ({| min_row := -1; max_row := -1; min_col := -1; max_col := -1 |},
              {| reaches_top := false; reaches_bottom := false;
                 reaches_left := false; reaches_right := false |}) in
     ret (Analysed
            {| analysis_country := country;
               analysis_asset_id := asset_id;
               analysis_file_path := file_path;
               analysis_shape := shape data;
               analysis_total_pixels := total;
               zero_pixels := zeros;
               positive_pixels := positives;
               zero_percentage :=
                 PrimFloat.mul (PrimFloat.div (float_of_nat zeros) (float_of_nat total)) 100;
               data_extent := box;
               reaches_edges := reach;
               edge_patterns := found;
               analysis_suspicious_patterns := suspicious_patterns found |}))
    (fun e => ret (AnalysisFailed country asset_id file_path e)).

(* ================================================================== *)
(** * Vocabulary of the statements                                     *)
(* ================================================================== *)

(** The number of cells of [data] that pass the test [p]. *)
Definition count_cells (p : float -> bool) (data : ndarray) : nat :=
  length (List.filter p (ravel data)).

(** [sum(counts.values())] *)
Definition histogram_total (counts : gmap string nat) : nat :=
  map_fold (fun _ count acc => count + acc) 0 counts.

(** The values the aggregator works on: one per asset that carries
    statistics, in the order of the assets. *)
Definition max_values (asset_results : list asset_record) : list float :=
  map max_person_exposure (omap person_exposure_stats asset_results).
Definition total_values (asset_results : list asset_record) : list float :=
  map total_person_exposure (omap person_exposure_stats asset_results).

(** ** The IEEE order, through the specification of primitive floats *)

Module Ieee.

(** The position of a non-NaN value in the order: its class (negative
    infinity, negative, zero, positive, positive infinity), then, for a
    finite value, exponent and mantissa. *)
Definition rank (x : spec_float) : Z * Z * Z :=
  match x with
  | S754_zero _ => (0, 0, 0)
  | S754_infinity s => (if s then -2 else 2, 0, 0)
  | S754_nan => (0, 0, 0)
  | S754_finite s m e => if s then (-1, - e, Z.neg m) else (1, e, Z.pos m)
  end%Z.

Definition lex (a b : Z * Z * Z) : comparison :=
  let '(a1, a2, a3) := a in
  let '(b1, b2, b3) := b in
  match (a1 ?= b1)%Z with
  | Eq => match (a2 ?= b2)%Z with Eq => (a3 ?= b3)%Z | c => c end
  | c => c
  end.

Definition lex_le (a b : Z * Z * Z) : Prop :=
  let '(a1, a2, a3) := a in
  let '(b1, b2, b3) := b in
  (a1 < b1 \/ (a1 = b1 /\ (a2 < b2 \/ (a2 = b2 /\ a3 <= b3))))%Z.

Definition lex_lt (a b : Z * Z * Z) : Prop :=
  let '(a1, a2, a3) := a in
  let '(b1, b2, b3) := b in
  (a1 < b1 \/ (a1 = b1 /\ (a2 < b2 \/ (a2 = b2 /\ a3 < b3))))%Z.

Definition sf_le (x y : spec_float) : Prop :=
  x <> S754_nan /\ y <> S754_nan /\ lex_le (rank x) (rank y).
Definition sf_lt (x y : spec_float) : Prop :=
  x <> S754_nan /\ y <> S754_nan /\ lex_lt (rank x) (rank y).

(** A zero of either sign or a positive finite value. *)
Definition nonneg_finite (x : spec_float) : Prop :=
  match x with
  | S754_zero _ => True
  | S754_finite false _ _ => True
  | _ => False
  end.

(** A zero of either sign, a positive finite value or positive infinity. *)
Definition nonneg (x : spec_float) : Prop :=
  match x with
  | S754_zero _ => True
  | S754_finite false _ _ => True
  | S754_infinity false => True
  | _ => False
  end.

End Ieee.

(* ================================================================== *)
(** * A small executable world, for running the model on examples      *)
(* ================================================================== *)

Module Example.

(** A plain evaluation of the reductions: left-to-right sums, a sort for the
    order statistics, series for [exp] and [log].  numpy's results can differ
    in the last bits; no theorem below depends on this instance. *)
Definition sum (l : list float) : float := fold_left PrimFloat.add l 0%float.

Definition mean (l : list float) : float :=
  PrimFloat.div (sum l) (float_of_nat (length l)).

Definition std (l : list float) : float :=
  let m := mean l in
  PrimFloat.sqrt (mean (map (fun x => PrimFloat.mul (PrimFloat.sub x m) (PrimFloat.sub x m)) l)).

Definition pick (better : float -> float -> bool) (l : list float) : float :=
  match l with
  | [] => PrimFloat.nan
  | x :: rest =>
      fold_left
        (fun acc y =>
           if PrimFloat.is_nan acc then acc
           else if PrimFloat.is_nan y then y
           else if better y acc then y else acc)
        rest x
  end.

Fixpoint insert_sorted (x : float) (l : list float) : list float :=
  match l with
  | [] => [x]
  | y :: rest => if PrimFloat.leb x y then x :: l else y :: insert_sorted x rest
  end.

Definition sort (l : list float) : list float := fold_right insert_sorted [] l.

Definition median (l : list float) : float :=
  let s := sort l in
  let n := length l in
  if Nat.even n
  then PrimFloat.div (PrimFloat.add (nth (n / 2 - 1) s PrimFloat.nan) (nth (n / 2) s PrimFloat.nan)) 2
  else nth (n / 2) s PrimFloat.nan.

(** Linear interpolation between closest ranks. *)
Definition percentile (l : list float) (q : float) : float :=
  let s := sort l in
  let n := length l in
  let pos := PrimFloat.mul (PrimFloat.div q 100) (float_of_nat (n - 1)) in
  let k := length (List.filter (fun i => PrimFloat.leb (float_of_nat (S i)) pos) (seq 0 (n - 1))) in
  let lo := nth k s PrimFloat.nan in
  let hi := nth (Nat.min (S k) (n - 1)) s PrimFloat.nan in
  PrimFloat.add lo (PrimFloat.mul (PrimFloat.sub pos (float_of_nat k)) (PrimFloat.sub hi lo)).

Fixpoint exp_series (n : nat) (x term acc : float) (k : float) : float :=
  match n with
  | 0 => acc
  | S n' =>
      let term' := PrimFloat.div (PrimFloat.mul term x) k in
      exp_series n' x term' (PrimFloat.add acc term') (PrimFloat.add k 1)
  end.

Definition exp (x : float) : float :=
  let small := exp_series 24 (PrimFloat.div x 1024) 1 1 1 in
  Nat.iter 10 (fun y => PrimFloat.mul y y) small.

Definition log (x : float) : float :=
  Nat.iter 60
    (fun y => let e := exp y in
              PrimFloat.add y (PrimFloat.div (PrimFloat.mul 2 (PrimFloat.sub x e)) (PrimFloat.add x e)))
    0%float.

Definition numpy : Numpy := {|
  np_sum := sum;
  np_mean := mean;
  np_std := std;
  np_amax := pick (fun y acc => PrimFloat.ltb acc y);
  np_amin := pick (fun y acc => PrimFloat.ltb y acc);
  np_median := median;
  np_percentile := percentile;
  np_exp := exp;
  np_log := log
|}.

(** Two co-registered rasters of asset 1566447 in BRA, and a population
    raster of another grid. *)
Definition grid : affine :=
  {| aff_a := 0.01; aff_b := 0; aff_c := -46.7;
     aff_d := 0; aff_e := -0.01; aff_f := -23.5 |}%float.

Definition shifted_grid : affine :=
  {| aff_a := 0.01; aff_b := 0; aff_c := -46.8;
     aff_d := 0; aff_e := -0.01; aff_f := -23.5 |}%float.

Definition box : bounding_box :=
  {| bounds_left := -46.7; bounds_bottom := -23.52;
     bounds_right := -46.68; bounds_top := -23.5 |}%float.

Definition concentration : ndarray := of_rows 2 [[10; 0]; [0; 5]]%float.
Definition population : ndarray := of_rows 2 [[2; 3]; [4; 0]]%float.

Definition conc_tiff : raster_file :=
  {| band1 := concentration; band_dtype := "float64"; transform := grid;
     crs := "EPSG:4326"; bounds := box |}.
Definition pop_tiff : raster_file :=
  {| band1 := population; band_dtype := "float64"; transform := grid;
     crs := "EPSG:4326"; bounds := box |}.
Definition shifted_pop_tiff : raster_file :=
  {| band1 := population; band_dtype := "float64"; transform := shifted_grid;
     crs := "EPSG:4326"; bounds := box |}.

Definition basename (path : string) : string :=
  if String.eqb path "BRA/1566447-v2.tiff" then "1566447-v2.tiff"
  else if String.eqb path "BRA/1566447-pop-v2.tiff" then "1566447-pop-v2.tiff"
  else path.

(** The file system of the example; the regular-expression engine is a
    table for the two file names that occur. *)
Definition world (pop : raster_file) : World := {|
  re_search pattern name :=
    if String.eqb pattern "(\d+)(?:-(.+?))?-v2\.tiff" then
      if String.eqb name "1566447-v2.tiff" then Some [Some "1566447"; None]
      else if String.eqb name "1566447-pop-v2.tiff" then Some [Some "1566447"; Some "pop"]
      else None
    else None;
  os_path_basename := basename;
  os_path_join dir name := String.append dir (String.append "/" name);
  rasterio_read path :=
    if String.eqb path "BRA/1566447-v2.tiff" then Some conc_tiff
    else if String.eqb path "BRA/1566447-pop-v2.tiff" then Some pop
    else None;
  rasterio_transform_xy t row col :=
    (PrimFloat.add (aff_c t) (PrimFloat.mul (aff_a t) (PrimFloat.add (float_of_nat col) 0.5)),
     PrimFloat.add (aff_f t) (PrimFloat.mul (aff_e t) (PrimFloat.add (float_of_nat row) 0.5)));
  utcnow_isoformat := "2024-01-01T00:00:00";
  os_makedirs _ := Ok tt;
  rasterio_write _ _ := Ok tt
|}.

(** The same files where nothing can be created under the output
    directory. *)
Definition read_only_world (pop : raster_file) : World := {|
  re_search := @re_search (world pop);
  os_path_basename := @os_path_basename (world pop);
  os_path_join := @os_path_join (world pop);
  rasterio_read := @rasterio_read (world pop);
  rasterio_transform_xy := @rasterio_transform_xy (world pop);
  utcnow_isoformat := @utcnow_isoformat (world pop);
  os_makedirs _ := Ok tt;
  rasterio_write path _ := Raise (RasterioIOError path)
|}.

(** A store that holds the two input arrays at references 0 and 1. *)
Definition store (conc pop : ndarray) : state :=
  {| cells := fun r => if r =? 0 then conc else pop; next := 2; io := [] |}.

(** An [assets.json] entry with or without statistics. *)
Definition asset (stats : option exposure_stats) : asset_record :=
  {| asset_id := "1566447"; country := "BRA";
     center_lon := (-46.69)%float; center_lat := (-23.51)%float;
     total_pixels := 4; asset_crs := "EPSG:4326"; asset_bounds := box;
     concentration_pixel_counts := ∅; population_pixel_counts := ∅;
     person_exposure_pixel_counts := ∅;
     person_exposure_stats := stats;
     script_version := "1.0.0"; processed_date := "2023-06-01T00:00:00Z";
     files := {| file_concentration := "1566447-v2.tiff";
                 file_population := "1566447-pop-v2.tiff";
                 file_person_exposure := None |} |}.

Definition stats_of (maximum total : float) : exposure_stats :=
  {| total_person_exposure := total; mean_person_exposure := 0;
     max_person_exposure := maximum; min_person_exposure := 0;
     std_person_exposure := 0; non_zero_pixels := 0; non_zero_mean := 0 |}%float.

(** The empty store of a fresh interpreter. *)
Definition empty_store : state :=
  {| cells := fun _ => of_rows 0 []; next := 0; io := [] |}.

(** Rasters without cells: no rows, and two rows of no columns. *)
Definition no_rows : ndarray := of_rows 0 [].
Definition no_columns : ndarray := of_rows 0 [[]; []].

(** The classifier scenario; a 1-D array of five values is a single row. *)
Definition magnitudes : ndarray :=
  of_rows 5 [[0; 0.0005; 0.005; 50; 50000]]%float.

(** A single cell inside the gap between 0 and 0.001. *)
Definition gap_cell : ndarray := of_rows 1 [[0.0005]]%float.


(** A float32 array with the single cell [float32(0.01)], the float32 value
    nearest to 0.01; it is slightly below the float64 value 0.01. *)
Definition float32_cell : ndarray := of_rows 1 [[round_to 24 128 0.01]].

End Example.

(** ** A catalogue for the examples of the incremental check *)

Module ExampleCatalogue.

(** The entries of one asset in [assets.json], as decoded. *)
Definition fields (asset_id country script_version : string) (person_exposure : json)
    : gmap string json :=
  list_to_map
    [ ("asset_id", JStr asset_id);
      ("country", JStr country);
      ("script_version", JStr script_version);
      ("files",
       JDict (list_to_map
                [ ("concentration", JStr (String.append asset_id "-v2.tiff"));
                  ("population", JStr (String.append asset_id "-pop-v2.tiff"));
                  ("person_exposure", person_exposure) ])) ].

Definition entry (asset_id country script_version : string) (person_exposure : json) : json :=
  JDict (fields asset_id country script_version person_exposure).

(** The same asset number in two countries, a current entry whose exposure
    file is on disk, and a stray [null]. *)
Definition catalogue : list json :=
  [ entry "1566447" "ARG" "1.0.0" JNull;
    entry "1566447" "BRA" "1.1.0" (JStr "BRA_1566447_person_exposure.tiff");
    JNull ].

Definition file_system : FileSystem := {|
  os_path_exists path := String.eqb path "processed/BRA_1566447_person_exposure.tiff"
|}.

End ExampleCatalogue.

(* ================================================================== *)
(** * Facts about IEEE comparisons and products                        *)
(* ================================================================== *)

Module IeeeFacts.
Import Ieee.

Lemma lex_spec a b :
  match lex a b with
  | Lt => lex_lt a b
  | Eq => a = b
  | Gt => lex_lt b a
  end.
Proof.
  destruct a as [[a1 a2] a3], b as [[b1 b2] b3]. unfold lex, lex_lt.
  destruct (Z.compare_spec a1 b1); [|lia|lia].
  destruct (Z.compare_spec a2 b2); [|lia|lia].
  destruct (Z.compare_spec a3 b3); [congruence|lia|lia].
Qed.

Lemma SFcompare_rank x y :
  x <> S754_nan -> y <> S754_nan ->
  SFcompare x y = Some (lex (rank x) (rank y)).
Proof.
  intros Hx Hy.
  destruct x as [sx|sx| |sx mx ex], y as [sy|sy| |sy my ey]; try congruence;
    try (destruct sx; reflexivity); try (destruct sy; reflexivity);
    try (destruct sx, sy; reflexivity).
  destruct sx, sy; try reflexivity; cbn [SFcompare rank lex].
  rewrite Z.compare_opp, (Z.compare_antisym ey ex).
  destruct (ey ?= ex)%Z; reflexivity.
Qed.


Lemma SFcompare_nan_l y : SFcompare S754_nan y = None.
Proof. reflexivity. Qed.

Lemma SFcompare_nan_r x : SFcompare x S754_nan = None.
Proof. destruct x; reflexivity. Qed.

Lemma lex_le_iff a b : lex_le a b <-> lex a b <> Gt.
Proof.
  pose proof (lex_spec a b) as H. destruct a as [[a1 a2] a3], b as [[b1 b2] b3].
  destruct (lex _ _); unfold lex_le, lex_lt in *; split; intros; try congruence; try lia.
  inversion H; subst; lia.
Qed.

Lemma lex_lt_iff a b : lex_lt a b <-> lex a b = Lt.
Proof.
  pose proof (lex_spec a b) as H. destruct a as [[a1 a2] a3], b as [[b1 b2] b3].
  destruct (lex _ _); unfold lex_lt in *; split; intros; try congruence; try lia.
  inversion H; subst; lia.
Qed.

Lemma leb_iff x y : PrimFloat.leb x y = true <-> sf_le (Prim2SF x) (Prim2SF y).
Proof.
  rewrite FloatAxioms.leb_spec. unfold SFleb, sf_le.
  destruct (Prim2SF x) eqn:Ex; try (cbn; split; [discriminate | intros [? _]; congruence]);
  destruct (Prim2SF y) eqn:Ey;
    try (rewrite SFcompare_nan_r; split; [discriminate | intros [_ [? _]]; congruence]);
    rewrite SFcompare_rank by discriminate; rewrite lex_le_iff;
    destruct (lex _ _); split; intros; try congruence; try discriminate;
    try (repeat split; congruence); try (exfalso; intuition congruence).
Qed.

Lemma ltb_iff x y : PrimFloat.ltb x y = true <-> sf_lt (Prim2SF x) (Prim2SF y).
Proof.
  rewrite FloatAxioms.ltb_spec. unfold SFltb, sf_lt.
  destruct (Prim2SF x) eqn:Ex; try (cbn; split; [discriminate | intros [? _]; congruence]);
  destruct (Prim2SF y) eqn:Ey;
    try (rewrite SFcompare_nan_r; split; [discriminate | intros [_ [? _]]; congruence]);
    rewrite SFcompare_rank by discriminate; rewrite lex_lt_iff;
    destruct (lex _ _); split; intros; try congruence; try discriminate;
    try (repeat split; congruence); try (exfalso; intuition congruence).
Qed.


Lemma eqb_iff x y :
  PrimFloat.eqb x y = true <->
  Prim2SF x <> S754_nan /\ Prim2SF y <> S754_nan /\ rank (Prim2SF x) = rank (Prim2SF y).
Proof.
  rewrite FloatAxioms.eqb_spec. unfold SFeqb.
  destruct (Prim2SF x) eqn:Ex; try (cbn; split; [discriminate | intros [? _]; congruence]);
  destruct (Prim2SF y) eqn:Ey;
    try (rewrite SFcompare_nan_r; split; [discriminate | intros [_ [? _]]; congruence]);
    rewrite SFcompare_rank by discriminate;
    match goal with |- context [lex ?a ?b] =>
      pose proof (lex_spec a b) as Hs; destruct (lex a b) end;
    (split; [ intros; try discriminate; repeat split; congruence
            | intros [_ [_ Hr]]; try reflexivity; rewrite Hr in Hs;
              exfalso; revert Hs; clear;
              match goal with |- lex_lt ?a ?a -> _ =>
                destruct a as [[? ?] ?]; unfold lex_lt; lia end ]).
Qed.

Lemma is_nan_false x : PrimFloat.is_nan x = false <-> Prim2SF x <> S754_nan.
Proof.
  unfold PrimFloat.is_nan. rewrite negb_false_iff, eqb_iff. intuition.
Qed.

Lemma lex_le_trans a b c : lex_le a b -> lex_le b c -> lex_le a c.
Proof.
  destruct a as [[? ?] ?], b as [[? ?] ?], c as [[? ?] ?]. unfold lex_le. lia.
Qed.

Lemma lex_lt_le_trans a b c : lex_lt a b -> lex_le b c -> lex_lt a c.
Proof.
  destruct a as [[? ?] ?], b as [[? ?] ?], c as [[? ?] ?]. unfold lex_le, lex_lt. lia.
Qed.

Lemma lex_le_lt_trans a b c : lex_le a b -> lex_lt b c -> lex_lt a c.
Proof.
  destruct a as [[? ?] ?], b as [[? ?] ?], c as [[? ?] ?]. unfold lex_le, lex_lt. lia.
Qed.

Lemma lex_total a b : lex_lt a b \/ lex_le b a.
Proof.
  destruct a as [[? ?] ?], b as [[? ?] ?]. unfold lex_le, lex_lt. lia.
Qed.

Lemma lex_lt_not_le a b : lex_lt a b -> ~ lex_le b a.
Proof.
  destruct a as [[? ?] ?], b as [[? ?] ?]. unfold lex_le, lex_lt. lia.
Qed.

Lemma lex_le_antisym a b : lex_le a b -> lex_le b a -> a = b.
Proof.
  destruct a as [[? ?] ?], b as [[? ?] ?]. unfold lex_le.
  intros. assert (z = z2 /\ z0 = z3 /\ z1 = z4)%Z as (-> & -> & ->) by lia. reflexivity.
Qed.

Lemma lex_le_refl a : lex_le a a.
Proof. destruct a as [[? ?] ?]. unfold lex_le. lia. Qed.

(** ** The order facts used by the classifier *)

Lemma leb_trans x y z :
  PrimFloat.leb x y = true -> PrimFloat.leb y z = true -> PrimFloat.leb x z = true.
Proof.
  rewrite !leb_iff. intros (? & ? & ?) (? & ? & ?).
  repeat split; auto. eapply lex_le_trans; eauto.
Qed.

Lemma ltb_leb_trans x y z :
  PrimFloat.ltb x y = true -> PrimFloat.leb y z = true -> PrimFloat.ltb x z = true.
Proof.
  rewrite !ltb_iff, leb_iff. intros (? & ? & ?) (? & ? & ?).
  repeat split; auto. eapply lex_lt_le_trans; eauto.
Qed.

Lemma ltb_negb_leb x y :
  PrimFloat.is_nan x = false -> PrimFloat.is_nan y = false ->
  PrimFloat.ltb x y = negb (PrimFloat.leb y x).
Proof.
  rewrite !is_nan_false. intros Hx Hy.
  destruct (PrimFloat.leb y x) eqn:E; cbn.
  - apply leb_iff in E. destruct E as (_ & _ & E).
    destruct (PrimFloat.ltb x y) eqn:F; [|reflexivity].
    apply ltb_iff in F. destruct F as (_ & _ & F).
    exfalso. eapply lex_lt_not_le; eauto.
  - apply ltb_iff. repeat split; auto.
    destruct (lex_total (rank (Prim2SF x)) (rank (Prim2SF y))) as [|L]; [assumption|].
    assert (PrimFloat.leb y x = true) by (apply leb_iff; repeat split; auto).
    congruence.
Qed.

Lemma eqb_leb x y :
  PrimFloat.eqb x y = PrimFloat.leb x y && PrimFloat.leb y x.
Proof.
  apply eq_true_iff_eq. rewrite andb_true_iff, eqb_iff, !leb_iff. unfold sf_le.
  split.
  - intros (? & ? & E). rewrite E. repeat split; auto using lex_le_refl.
  - intros ((? & ? & ?) & (_ & _ & ?)). repeat split; auto using lex_le_antisym.
Qed.

Lemma leb_not_nan x y :
  PrimFloat.leb x y = true -> PrimFloat.is_nan x = false /\ PrimFloat.is_nan y = false.
Proof. rewrite leb_iff, !is_nan_false. intros (? & ? & _). auto. Qed.

Lemma ltb_not_nan x y :
  PrimFloat.ltb x y = true -> PrimFloat.is_nan x = false /\ PrimFloat.is_nan y = false.
Proof. rewrite ltb_iff, !is_nan_false. intros (? & ? & _). auto. Qed.


(** ** Products of finite non-negative values *)

Lemma shr_1_nonneg mrs : (0 <= shr_m mrs)%Z -> (0 <= shr_m (shr_1 mrs))%Z.
Proof. destruct mrs as [[|[p|p|]|[p|p|]] r s]; cbn; lia. Qed.

Lemma iter_shr_1_nonneg p : forall mrs,
  (0 <= shr_m mrs)%Z -> (0 <= shr_m (SpecFloat.iter_pos shr_1 p mrs))%Z.
Proof.
  induction p as [p IH|p IH|]; intros mrs H; cbn.
  - apply IH, IH, shr_1_nonneg, H.
  - apply IH, IH, H.
  - apply shr_1_nonneg, H.
Qed.

Lemma shr_fexp_nonneg m e l :
  (0 <= m)%Z -> (0 <= shr_m (fst (shr_fexp prec emax m e l)))%Z.
Proof.
  intros H. unfold shr_fexp, shr.
  assert (0 <= shr_m (shr_record_of_loc m l))%Z by (destruct l as [|[]]; exact H).
  destruct (_ - e)%Z; cbn [fst]; auto using iter_shr_1_nonneg.
Qed.

Lemma round_nearest_even_nonneg m l : (0 <= m)%Z -> (0 <= round_nearest_even m l)%Z.
Proof. destruct l as [|[]]; cbn; try destruct (Z.even m); lia. Qed.

Lemma binary_round_aux_nonneg m e l :
  (0 <= m)%Z -> nonneg (binary_round_aux prec emax false m e l).
Proof.
  intros H. unfold binary_round_aux.
  pose proof (shr_fexp_nonneg m e l H) as H1.
  destruct (shr_fexp prec emax m e l) as [mrs1 e1]. cbn [fst] in H1.
  pose proof (shr_fexp_nonneg _ e1 loc_Exact
                (round_nearest_even_nonneg _ (loc_of_shr_record mrs1) H1)) as H2.
  destruct (shr_fexp prec emax _ e1 loc_Exact) as [mrs2 e2]. cbn [fst] in H2.
  destruct (shr_m mrs2); [exact I| |lia].
  destruct (e2 <=? emax - prec)%Z; exact I.
Qed.

Lemma SF64mul_nonneg x y :
  nonneg_finite x -> nonneg_finite y -> nonneg (SF64mul x y).
Proof.
  destruct x as [sx|sx| |[] mx ex], y as [sy|sy| |[] my ey]; cbn; try tauto.
  intros _ _. apply binary_round_aux_nonneg. lia.
Qed.

Lemma is_finite_leb0_nonneg_finite v :
  PrimFloat.is_finite v = true -> PrimFloat.leb 0 v = true -> nonneg_finite (Prim2SF v).
Proof.
  unfold PrimFloat.is_finite, PrimFloat.is_infinity.
  rewrite negb_true_iff, orb_false_iff. intros [_ Hinf] Hle.
  apply leb_iff in Hle. destruct Hle as (_ & Hn & Hle).
  assert (PrimFloat.eqb (abs v) infinity <> true) as Hinf' by congruence.
  rewrite eqb_iff, abs_spec in Hinf'.
  change (Prim2SF 0) with (S754_zero false) in Hle.
  change (Prim2SF infinity) with (S754_infinity false) in Hinf'.
  destruct (Prim2SF v) as [s|s| |[] m e]; cbn in *; try tauto; try lia.
  - exfalso. apply Hinf'. repeat split; discriminate.
Qed.

Lemma nonneg_not_nan_not_negative v :
  nonneg (Prim2SF v) -> PrimFloat.is_nan v = false /\ PrimFloat.ltb v 0 = false.
Proof.
  intros H. split.
  - apply is_nan_false. destruct (Prim2SF v); cbn in H; try discriminate; tauto.
  - destruct (PrimFloat.ltb v 0) eqn:E; [|reflexivity].
    apply ltb_iff in E. destruct E as (_ & _ & E).
    change (Prim2SF 0) with (S754_zero false) in E.
    destruct (Prim2SF v) as [s|[]| |[] m e]; cbn in *; try tauto; lia.
Qed.

End IeeeFacts.

(* ================================================================== *)
(** * Verification                                                     *)
(* ================================================================== *)

Import IeeeFacts.

(** ** Lists and arrays *)

Lemma np_sum_bool_map {A} (p : A -> bool) (l : list A) :
  np_sum_bool (map p l) = length (List.filter p l).
Proof.
  unfold np_sum_bool. induction l as [|x l IH]; cbn; [reflexivity|].
  destruct (p x); cbn; rewrite IH; reflexivity.
Qed.

Lemma filter_filter_andb {A} (p q : A -> bool) (l : list A) :
  List.filter p (List.filter q l) = List.filter (fun x => q x && p x) l.
Proof.
  induction l as [|x l IH]; cbn; [reflexivity|].
  destruct (q x); cbn; [destruct (p x)|]; rewrite IH; reflexivity.
Qed.

Lemma length_filter_ext {A} (p q : A -> bool) (l : list A) :
  (forall x, In x l -> p x = q x) ->
  length (List.filter p l) = length (List.filter q l).
Proof.
  intros H. f_equal. apply List.filter_ext_in. exact H.
Qed.

(** A count over a nested selection is a count over the cells. *)
Lemma count_select_select (valid keep test : float -> bool) (values : list float) :
  np_sum_bool (map test (select keep (select valid values))) =
  length (List.filter (fun v => valid v && keep v && test v) values).
Proof.
  rewrite np_sum_bool_map. unfold select. rewrite !filter_filter_andb.
  apply length_filter_ext. intros v _. destruct (valid v), (keep v); reflexivity.
Qed.

Lemma count_select (valid test : float -> bool) (values : list float) :
  np_sum_bool (map test (select valid values)) =
  length (List.filter (fun v => valid v && test v) values).
Proof.
  rewrite np_sum_bool_map. unfold select. rewrite filter_filter_andb. reflexivity.
Qed.

Lemma in_row_view a i v :
  In v (row_view a i) <-> exists j, j < ncols a /\ item a i j = v.
Proof.
  unfold row_view. rewrite in_map_iff. split.
  - intros (j & <- & Hj). apply in_seq in Hj. exists j. split; [lia|reflexivity].
  - intros (j & Hj & <-). exists j. split; [reflexivity|]. apply in_seq. lia.
Qed.

Lemma in_ravel a v :
  In v (ravel a) <-> exists i j, i < nrows a /\ j < ncols a /\ item a i j = v.
Proof.
  unfold ravel. rewrite in_flat_map. split.
  - intros (i & Hi & Hv). apply in_seq in Hi. apply in_row_view in Hv.
    destruct Hv as (j & Hj & <-). exists i, j. repeat split; [lia|exact Hj].
  - intros (i & j & Hi & Hj & <-). exists i. split; [apply in_seq; lia|].
    apply in_row_view. eauto.
Qed.

Lemma length_ravel a : length (ravel a) = nrows a * ncols a.
Proof.
  unfold ravel. generalize 0 at 1. induction (nrows a) as [|n IH]; intros k; cbn; [reflexivity|].
  rewrite length_app, IH. unfold row_view. rewrite length_map, length_seq. reflexivity.
Qed.

(** ** The magnitude classifier *)

Lemma is_valid_not_nan v : is_valid v = true -> PrimFloat.is_nan v = false.
Proof.
  unfold is_valid. rewrite andb_true_iff. intros [_ H]. apply leb_not_nan in H. tauto.
Qed.

Lemma is_valid_lt_infinity v : is_valid v = true -> PrimFloat.ltb v infinity = true.
Proof.
  unfold is_valid. rewrite andb_true_iff. intros [Hf Hle].
  pose proof (is_finite_leb0_nonneg_finite v Hf Hle) as Hv.
  apply ltb_iff. change (Prim2SF infinity) with (S754_infinity false).
  destruct (Prim2SF v) as [s|s| |[] m e]; cbn in Hv; try tauto;
    (repeat split; [discriminate|discriminate|cbn; lia]).
Qed.

(** The dictionary built by the classifier, entry by entry. *)
Lemma count_pixels_unfold data :
  let n p := count_cells p data in
  count_pixels_by_order_of_magnitude data =
  <["10000+" := n (fun v => is_valid v && PrimFloat.ltb 0 v && PrimFloat.leb 10000 v)]>
  (<["1000-10000" := n (fun v => is_valid v && PrimFloat.ltb 0 v && (PrimFloat.leb 1000 v && PrimFloat.ltb v 10000))]>
  (<["100-1000" := n (fun v => is_valid v && PrimFloat.ltb 0 v && (PrimFloat.leb 100 v && PrimFloat.ltb v 1000))]>
  (<["10-100" := n (fun v => is_valid v && PrimFloat.ltb 0 v && (PrimFloat.leb 10 v && PrimFloat.ltb v 100))]>
  (<["1-10" := n (fun v => is_valid v && PrimFloat.ltb 0 v && (PrimFloat.leb 1 v && PrimFloat.ltb v 10))]>
  (<["0.1-1" := n (fun v => is_valid v && PrimFloat.ltb 0 v && (PrimFloat.leb 0.1 v && PrimFloat.ltb v 1))]>
  (<["0.01-0.1" := n (fun v => is_valid v && PrimFloat.ltb 0 v && (PrimFloat.leb 0.01 v && PrimFloat.ltb v 0.1))]>
  (<["0.001-0.01" := n (fun v => is_valid v && PrimFloat.ltb 0 v && (PrimFloat.leb 0.001 v && PrimFloat.ltb v 0.01))]>
  (<["0" := n (fun v => is_valid v && PrimFloat.eqb v 0)]> ∅)))))))).
Proof.
  intros n. unfold count_pixels_by_order_of_magnitude, n, count_cells.
  cbn [tl ranges fold_left].
  rewrite !count_select_select, count_select. reflexivity.
Qed.

Lemma ltb_leb_false x y : PrimFloat.ltb x y = true -> PrimFloat.leb y x = false.
Proof.
  intros H. destruct (ltb_not_nan _ _ H) as [Hx Hy].
  rewrite (ltb_negb_leb x y Hx Hy) in H. apply negb_true_iff in H. exact H.
Qed.

(** A cell is dropped exactly when it is non-finite or negative. *)
Lemma is_valid_false_iff v :
  is_valid v = false <-> PrimFloat.is_finite v = false \/ PrimFloat.ltb v 0 = true.
Proof.
  unfold is_valid. rewrite andb_false_iff. split; intros [H|H]; auto.
  - destruct (PrimFloat.is_finite v) eqn:Hf; [right|left; reflexivity].
    assert (PrimFloat.is_nan v = false) as Hn.
    { unfold PrimFloat.is_finite in Hf. apply negb_true_iff, orb_false_iff in Hf. tauto. }
    rewrite (ltb_negb_leb v 0 Hn eq_refl), H. reflexivity.
  - right. apply ltb_leb_false, H.
Qed.

Lemma below_lower_bound v lo c :
  PrimFloat.ltb v c = true -> PrimFloat.leb c lo = true -> PrimFloat.leb lo v = false.
Proof.
  intros Hv Hc. destruct (PrimFloat.leb lo v) eqn:E; [|reflexivity].
  pose proof (leb_trans _ _ _ Hc E) as H. rewrite (ltb_leb_false _ _ Hv) in H. discriminate.
Qed.

Lemma positive_not_zero v : PrimFloat.ltb 0 v = true -> PrimFloat.eqb v 0 = false.
Proof.
  intros H. rewrite eqb_leb, (ltb_leb_false _ _ H). reflexivity.
Qed.

(** The dictionary built on an array of a given dtype, entry by entry. *)
Lemma count_pixels_as_unfold dtype data :
  let n p := count_cells p data in
  let b := np_scalar dtype in
  count_pixels_by_order_of_magnitude_as dtype data =
  <["10000+" := n (fun v => is_valid v && PrimFloat.ltb 0 v && PrimFloat.leb (b 10000%float) v)]>
  (<["1000-10000" := n (fun v => is_valid v && PrimFloat.ltb 0 v && (PrimFloat.leb (b 1000%float) v && PrimFloat.ltb v (b 10000%float)))]>
  (<["100-1000" := n (fun v => is_valid v && PrimFloat.ltb 0 v && (PrimFloat.leb (b 100%float) v && PrimFloat.ltb v (b 1000%float)))]>
  (<["10-100" := n (fun v => is_valid v && PrimFloat.ltb 0 v && (PrimFloat.leb (b 10%float) v && PrimFloat.ltb v (b 100%float)))]>
  (<["1-10" := n (fun v => is_valid v && PrimFloat.ltb 0 v && (PrimFloat.leb (b 1%float) v && PrimFloat.ltb v (b 10%float)))]>
  (<["0.1-1" := n (fun v => is_valid v && PrimFloat.ltb 0 v && (PrimFloat.leb (b 0.1%float) v && PrimFloat.ltb v (b 1%float)))]>
  (<["0.01-0.1" := n (fun v => is_valid v && PrimFloat.ltb 0 v && (PrimFloat.leb (b 0.01%float) v && PrimFloat.ltb v (b 0.1%float)))]>
  (<["0.001-0.01" := n (fun v => is_valid v && PrimFloat.ltb 0 v && (PrimFloat.leb (b 0.001%float) v && PrimFloat.ltb v (b 0.01%float)))]>
  (<["0" := n (fun v => is_valid v && PrimFloat.eqb v 0)]> ∅)))))))).
Proof.
  intros n b. unfold count_pixels_by_order_of_magnitude_as, n, b, count_cells.
  cbn [tl ranges fold_left].
  rewrite !count_select_select, count_select. reflexivity.
Qed.

(** On a float64 array the bounds are the table's own. *)
Lemma count_pixels_as_float64 data :
  count_pixels_by_order_of_magnitude_as Float64 data = count_pixels_by_order_of_magnitude data.
Proof. rewrite count_pixels_as_unfold, count_pixels_unfold. reflexivity. Qed.

(** The bounds keep their order when they are rounded to the array's dtype,
    and all of them stay above zero. *)
Lemma np_scalar_bounds dtype :
  Forall (fun lo => PrimFloat.leb (np_scalar dtype 0.001) (np_scalar dtype lo) = true)
         [0.001; 0.01; 0.1; 1; 10; 100; 1000; 10000]%float /\
  PrimFloat.ltb 0 (np_scalar dtype 10000) = true.
Proof. destruct dtype; split; repeat constructor. Qed.

(** C2, amended.  On an array of dtype float16, float32 or float64 the
    classifier drops exactly the cells that are non-finite or negative; the
    mapping it returns has the nine labels
    "0", "0.001-0.01", "0.01-0.1", "0.1-1", "1-10", "10-100", "100-1000",
    "1000-10000", "10000+" and no other; ["0"] counts the exact zeros;
    each of the seven bounded ranges counts the strictly positive values
    [v] with [lo <= v < hi], where [lo] and [hi] are the two numbers of its
    label converted to the dtype of the array (on a float64 array they are
    the numbers themselves; 1, 10, 100, 1000 and 10000 are the same in all
    three dtypes); ["10000+"] counts every finite value [>= 10000]; and a
    value strictly between 0 and the converted 0.001 passes the test of no
    bucket. *)
Theorem count_pixels_by_order_of_magnitude_buckets (dtype : float_dtype) (data : ndarray) :
  let counts := count_pixels_by_order_of_magnitude_as dtype data in
  let bound x :=
    match dtype with
    | Float16 => round_to 11 16 x
    | Float32 => round_to 24 128 x
    | Float64 => x
    end in
  let between lo hi :=
    count_cells (fun v => is_valid v && PrimFloat.ltb 0 v &&
                          (PrimFloat.leb (bound lo) v && PrimFloat.ltb v (bound hi))) data in
  (forall v, is_valid v = false <->
             PrimFloat.is_finite v = false \/ PrimFloat.ltb v 0 = true) /\
  dom counts =
    ({[ "0"; "0.001-0.01"; "0.01-0.1"; "0.1-1"; "1-10"; "10-100"; "100-1000";
        "1000-10000"; "10000+" ]} : gset string) /\
  counts !! "0" = Some (count_cells (fun v => is_valid v && PrimFloat.eqb v 0) data) /\
  counts !! "0.001-0.01" = Some (between 0.001 0.01)%float /\
  counts !! "0.01-0.1" = Some (between 0.01 0.1)%float /\
  counts !! "0.1-1" = Some (between 0.1 1)%float /\
  counts !! "1-10" = Some (between 1 10)%float /\
  counts !! "10-100" = Some (between 10 100)%float /\
  counts !! "100-1000" = Some (between 100 1000)%float /\
  counts !! "1000-10000" = Some (between 1000 10000)%float /\
  counts !! "10000+" =
    Some (count_cells (fun v => is_valid v && PrimFloat.leb 10000 v) data) /\
  (bound 1 = 1 /\ bound 10 = 10 /\ bound 100 = 100 /\ bound 1000 = 1000 /\
   bound 10000 = 10000)%float /\
  (forall v, PrimFloat.ltb 0 v = true -> PrimFloat.ltb v (bound 0.001%float) = true ->
     PrimFloat.eqb v 0 = false /\
     Forall (fun lo => PrimFloat.leb (bound lo) v = false)
            [0.001; 0.01; 0.1; 1; 10; 100; 1000; 10000]%float) /\
  (dtype = Float64 -> counts = count_pixels_by_order_of_magnitude data).
Proof.
  intros counts bound between. subst counts.
  change bound with (np_scalar dtype) in *.
  assert (np_scalar dtype 10000 = 10000%float) as Hten by (destruct dtype; reflexivity).
  rewrite count_pixels_as_unfold. cbv zeta.
  split; [exact is_valid_false_iff|].
  split; [rewrite !dom_insert_L, dom_empty_L; set_solver|].
  do 8 (split; [repeat (rewrite fin_maps.lookup_insert_ne by discriminate);
                rewrite fin_maps.lookup_insert_eq; reflexivity|]).
  split; [|split; [|split]].
  - rewrite fin_maps.lookup_insert_eq, Hten. f_equal. apply length_filter_ext. intros v _.
    destruct (is_valid v); [cbn|reflexivity].
    destruct (PrimFloat.leb 10000 v) eqn:E; [|apply andb_false_r].
    rewrite (ltb_leb_trans 0 10000 v eq_refl E). reflexivity.
  - destruct dtype; repeat split.
  - intros v H0 H1. split; [apply positive_not_zero, H0|].
    destruct (np_scalar_bounds dtype) as [Hbounds _].
    eapply List.Forall_impl; [|exact Hbounds].
    intros lo Hlo. apply (below_lower_bound v _ _ H1 Hlo).
  - intros ->. rewrite count_pixels_unfold. reflexivity.
Qed.

(** ** The total of a histogram *)

Lemma histogram_total_insert (k : string) (c : nat) (m : gmap string nat) :
  m !! k = None -> histogram_total (<[k := c]> m) = c + histogram_total m.
Proof.
  intros H. unfold histogram_total.
  apply (map_fold_insert_L (fun _ count acc => count + acc)); [intros; lia|exact H].
Qed.

Lemma histogram_total_empty : histogram_total ∅ = 0.
Proof. apply map_fold_empty. Qed.

(** Close a goal about a chain of thresholds: derive every comparison that
    follows from the ones known to hold, then compute. *)
Ltac settle_chain :=
  repeat match goal with
         | H : true = true -> _ |- _ => specialize (H eq_refl)
         | H : ?a = true -> _, E : ?a = true |- _ => specialize (H E)
         end;
  repeat match goal with
         | E : ?x = true |- context [?x] => rewrite E
         end;
  reflexivity.

(** The tests of the histogram, on one non-NaN value: the zero test, the gap
    and the eight ranges partition the finite non-negative values. *)
Lemma classify_exactly_once v :
  let b (p : bool) := if p then 1 else 0 in
  b (is_valid v && PrimFloat.ltb 0 v && PrimFloat.leb 10000 v) +
  (b (is_valid v && PrimFloat.ltb 0 v && (PrimFloat.leb 1000 v && PrimFloat.ltb v 10000)) +
  (b (is_valid v && PrimFloat.ltb 0 v && (PrimFloat.leb 100 v && PrimFloat.ltb v 1000)) +
  (b (is_valid v && PrimFloat.ltb 0 v && (PrimFloat.leb 10 v && PrimFloat.ltb v 100)) +
  (b (is_valid v && PrimFloat.ltb 0 v && (PrimFloat.leb 1 v && PrimFloat.ltb v 10)) +
  (b (is_valid v && PrimFloat.ltb 0 v && (PrimFloat.leb 0.1 v && PrimFloat.ltb v 1)) +
  (b (is_valid v && PrimFloat.ltb 0 v && (PrimFloat.leb 0.01 v && PrimFloat.ltb v 0.1)) +
  (b (is_valid v && PrimFloat.ltb 0 v && (PrimFloat.leb 0.001 v && PrimFloat.ltb v 0.01)) +
  (b (is_valid v && PrimFloat.eqb v 0) + 0)))))))) +
  b (is_valid v && PrimFloat.ltb 0 v && PrimFloat.ltb v 0.001) =
  b (is_valid v).
Proof.
  intros b. destruct (is_valid v) eqn:Hv; [|reflexivity].
  pose proof (is_valid_not_nan v Hv) as Hn.
  assert (PrimFloat.leb 0 v = true) as H0
    by (unfold is_valid in Hv; apply andb_true_iff in Hv; tauto).
  assert (forall c, PrimFloat.is_nan c = false ->
                    PrimFloat.ltb v c = negb (PrimFloat.leb c v)) as Hlt
    by (intros c Hc; apply ltb_negb_leb; assumption).
  rewrite !Hlt by reflexivity.
  assert (PrimFloat.eqb v 0 = negb (PrimFloat.ltb 0 v)) as ->.
  { rewrite eqb_leb, H0, andb_true_r. rewrite (ltb_negb_leb 0 v eq_refl Hn).
    symmetry. apply negb_involutive. }
  pose proof (fun H => ltb_leb_trans 0 0.001 v eq_refl H) as M0.
  pose proof (fun H => leb_trans 0.001 0.01 v eq_refl H) as M1.
  pose proof (fun H => leb_trans 0.01 0.1 v eq_refl H) as M2.
  pose proof (fun H => leb_trans 0.1 1 v eq_refl H) as M3.
  pose proof (fun H => leb_trans 1 10 v eq_refl H) as M4.
  pose proof (fun H => leb_trans 10 100 v eq_refl H) as M5.
  pose proof (fun H => leb_trans 100 1000 v eq_refl H) as M6.
  pose proof (fun H => leb_trans 1000 10000 v eq_refl H) as M7.
  destruct (PrimFloat.leb 10000 v) eqn:E8; [settle_chain|].
  destruct (PrimFloat.leb 1000 v) eqn:E7; [settle_chain|].
  destruct (PrimFloat.leb 100 v) eqn:E6; [settle_chain|].
  destruct (PrimFloat.leb 10 v) eqn:E5; [settle_chain|].
  destruct (PrimFloat.leb 1 v) eqn:E4; [settle_chain|].
  destruct (PrimFloat.leb 0.1 v) eqn:E3; [settle_chain|].
  destruct (PrimFloat.leb 0.01 v) eqn:E2; [settle_chain|].
  destruct (PrimFloat.leb 0.001 v) eqn:E1; [settle_chain|].
  destruct (PrimFloat.ltb 0 v); reflexivity.
Qed.

Lemma length_filter_cons {A} (p : A -> bool) (x : A) (l : list A) :
  length (List.filter p (x :: l)) = (if p x then 1 else 0) + length (List.filter p l).
Proof. cbn. destruct (p x); reflexivity. Qed.

(** C7, amended.  The nine counts add up to the number of finite,
    non-negative cells minus the cells that lie in the open gap between 0
    and 0.001, which belong to no bucket. *)
Theorem histogram_total_counts_valid_cells_outside_gap (data : ndarray) :
  histogram_total (count_pixels_by_order_of_magnitude data) +
  count_cells (fun v => is_valid v && PrimFloat.ltb 0 v && PrimFloat.ltb v 0.001) data =
  count_cells is_valid data.
Proof.
  rewrite count_pixels_unfold. cbv zeta.
  repeat (rewrite histogram_total_insert
            by (repeat (rewrite fin_maps.lookup_insert_ne by discriminate);
                apply lookup_empty)).
  rewrite histogram_total_empty. unfold count_cells.
  induction (ravel data) as [|v l IH]; [reflexivity|].
  rewrite !length_filter_cons. pose proof (classify_exactly_once v) as H. cbv zeta in H. lia.
Qed.

(** ** The exposure engine *)

Lemma is_valid_negb v :
  is_valid v = negb (negb (PrimFloat.is_finite v) || PrimFloat.ltb v 0).
Proof.
  destruct (is_valid v) eqn:E.
  - symmetry. apply negb_true_iff. apply not_true_is_false. intros H.
    apply orb_true_iff in H. rewrite negb_true_iff in H.
    apply is_valid_false_iff in H. congruence.
  - apply is_valid_false_iff in E. symmetry. apply negb_false_iff, orb_true_iff.
    rewrite negb_true_iff. exact E.
Qed.

Lemma cleaned_nonneg_finite v :
  Ieee.nonneg_finite (Prim2SF (if is_valid v then v else 0%float)).
Proof.
  destruct (is_valid v) eqn:E; [|exact I].
  unfold is_valid in E. apply andb_true_iff in E.
  apply is_finite_leb0_nonneg_finite; tauto.
Qed.

(** The product of two cleaned cells is neither NaN nor negative. *)
Lemma cleaned_product_sound c p :
  let x := PrimFloat.mul (if is_valid c then c else 0%float)
                         (if is_valid p then p else 0%float) in
  PrimFloat.is_nan x = false /\ PrimFloat.ltb x 0 = false.
Proof.
  intros x. apply nonneg_not_nan_not_negative. unfold x. rewrite FloatAxioms.mul_spec.
  apply SF64mul_nonneg; apply cleaned_nonneg_finite.
Qed.

Lemma broadcast_dim_same n : broadcast_dim n n = Some n.
Proof. unfold broadcast_dim. rewrite Nat.eqb_refl. reflexivity. Qed.

Lemma broadcast_index n i : i < n -> (if n =? 1 then 0 else i) = i.
Proof. intros H. destruct (Nat.eqb_spec n 1); lia. Qed.

(** On equal shapes the product is cell by cell. *)
Lemma np_multiply_same_shape a b :
  shape a = shape b ->
  exists product,
    np_multiply a b = Ok product /\
    shape product = shape a /\
    forall i j, i < nrows a -> j < ncols a ->
      item product i j = PrimFloat.mul (item a i j) (item b i j).
Proof.
  intros Hs. unfold np_multiply, nrows, ncols. rewrite <- Hs, !broadcast_dim_same.
  eexists. split; [reflexivity|]. split; [destruct (shape a); reflexivity|].
  intros i j Hi Hj. cbn. rewrite !broadcast_index by assumption. reflexivity.
Qed.

Lemma ravel_nonempty a : 0 < nrows a -> 0 < ncols a -> ravel a <> [].
Proof.
  intros Hr Hc E. apply (f_equal (@length _)) in E. rewrite length_ravel in E.
  cbn in E. nia.
Qed.

Lemma ravel_empty a : nrows a * ncols a = 0 -> ravel a = [].
Proof.
  intros H. apply length_zero_iff_nil. rewrite length_ravel. exact H.
Qed.

Lemma if_nonempty {A B} (l : list A) (x y : B) :
  (if 0 <? length l then x else y) = match l with [] => y | _ :: _ => x end.
Proof. destruct l; reflexivity. Qed.

(** The shape of a product of two arrays whose shapes broadcast. *)
Lemma np_multiply_broadcast a b rows cols :
  broadcast_dim (nrows a) (nrows b) = Some rows ->
  broadcast_dim (ncols a) (ncols b) = Some cols ->
  exists product, np_multiply a b = Ok product /\ shape product = (rows, cols).
Proof.
  intros Hr Hc. unfold np_multiply. rewrite Hr, Hc. eexists. split; reflexivity.
Qed.

(** What one call does to the store and what it returns, once the two
    cleaned copies multiply: the copies and the product are allocated,
    nothing else changes, and the statistics are reductions of the product's
    cells. *)
Lemma compute_person_exposure_raster_run `{Numpy}
    (s : state) (conc_data pop_data : nat) (product : ndarray) :
  conc_data < next s -> pop_data < next s ->
  np_multiply (np_where is_valid (cells s conc_data) 0%float)
              (np_where is_valid (cells s pop_data) 0%float) = Ok product ->
  exists s',
    (forall r, r < next s -> cells s' r = cells s r) /\
    cells s' (next s + 2) = product /\
    io s' = io s /\
    compute_person_exposure_raster conc_data pop_data s =
    (match ravel product with
     | [] => Raise (ValueError "zero-size array to reduction operation maximum which has no identity")
     | _ :: _ =>
         Ok (next s + 2,
             {| total_person_exposure := np_sum (ravel product);
                mean_person_exposure := np_mean (ravel product);
                max_person_exposure := np_amax (ravel product);
                min_person_exposure := np_amin (ravel product);
                std_person_exposure := np_std (ravel product);
                non_zero_pixels := length (List.filter (fun v => PrimFloat.ltb 0 v) (ravel product));
                non_zero_mean :=
                  match List.filter (fun v => PrimFloat.ltb 0 v) (ravel product) with
                  | [] => 0%float
                  | _ :: _ => np_mean (List.filter (fun v => PrimFloat.ltb 0 v) (ravel product))
                  end |})
     end, s').
Proof.
  intros Hc Hp Hmul.
  unfold compute_person_exposure_raster, bind, load, alloc, lift, ret.
  cbn [cells next io fst snd].
  assert ((pop_data =? next s) = false) as -> by (apply Nat.eqb_neq; lia).
  assert ((next s =? S (next s)) = false) as -> by (apply Nat.eqb_neq; lia).
  rewrite !Nat.eqb_refl, Hmul.
  rewrite np_sum_bool_map, if_nonempty. unfold select.
  replace (S (S (next s))) with (next s + 2) by lia.
  eexists. split; [|split; [|split]]; cycle 3.
  - unfold np_max, np_min. destruct (ravel product) eqn:E; reflexivity.
  - intros r Hr. cbn [cells].
    repeat match goal with
           | |- context [r =? ?k] => replace (r =? k) with false by (symmetry; apply Nat.eqb_neq; lia)
           end.
    reflexivity.
  - cbn [cells]. rewrite Nat.eqb_refl. reflexivity.
  - reflexivity.
Qed.

(** C1, amended.  For every pair of equal-shaped input arrays with at least
    one cell, the call returns a new array of the same shape whose every cell
    is the product of the two source cells after each has been replaced by
    zero when it is non-finite or negative; every array that existed before
    the call, the two inputs among them, is unchanged; no cell of the result
    is NaN or negative, and the reported total is the sum of exactly these
    cells. *)
Theorem compute_person_exposure_raster_product `{Numpy}
    (s : state) (conc_data pop_data : nat) :
  let conc := cells s conc_data in
  let pop := cells s pop_data in
  let clean v :=
    if negb (PrimFloat.is_finite v) || PrimFloat.ltb v 0 then 0%float else v in
  conc_data < next s -> pop_data < next s ->
  shape conc = shape pop ->
  0 < nrows conc -> 0 < ncols conc ->
  exists raster stats s',
    compute_person_exposure_raster conc_data pop_data s = (Ok (raster, stats), s') /\
    (forall r, r < next s -> cells s' r = cells s r) /\
    next s <= raster /\
    shape (cells s' raster) = shape conc /\
    (forall i j, i < nrows conc -> j < ncols conc ->
       item (cells s' raster) i j =
         PrimFloat.mul (clean (item conc i j)) (clean (item pop i j)) /\
       PrimFloat.is_nan (item (cells s' raster) i j) = false /\
       PrimFloat.ltb (item (cells s' raster) i j) 0 = false) /\
    total_person_exposure stats = np_sum (ravel (cells s' raster)) /\
    Forall (fun v => PrimFloat.is_nan v = false /\ PrimFloat.ltb v 0 = false)
           (ravel (cells s' raster)).
Proof.
  intros conc pop clean Hc Hp Hs Hr Hcol.
  destruct (np_multiply_same_shape
              (np_where is_valid conc 0%float) (np_where is_valid pop 0%float) Hs)
    as (product & Hmul & Hshape & Hitem).
  destruct (compute_person_exposure_raster_run s conc_data pop_data product Hc Hp Hmul)
    as (s' & Hframe & Hout & _ & Hrun).
  change (shape (np_where is_valid conc 0%float)) with (shape conc) in Hshape.
  assert (nrows product = nrows conc /\ ncols product = ncols conc) as [Hnr Hnc]
    by (unfold nrows, ncols; rewrite Hshape; auto).
  assert (forall v, clean v = if is_valid v then v else 0%float) as Hclean.
  { intros v. unfold clean. rewrite is_valid_negb.
    destruct (negb (PrimFloat.is_finite v) || PrimFloat.ltb v 0); reflexivity. }
  assert (forall i j, i < nrows conc -> j < ncols conc ->
            item product i j = PrimFloat.mul (clean (item conc i j)) (clean (item pop i j)) /\
            PrimFloat.is_nan (item product i j) = false /\
            PrimFloat.ltb (item product i j) 0 = false) as Hcells.
  { intros i j Hi Hj. rewrite (Hitem i j Hi Hj). cbn [np_where item]. rewrite !Hclean.
    split; [reflexivity|]. apply cleaned_product_sound. }
  destruct (ravel product) as [|v0 rest] eqn:E.
  { exfalso. apply (ravel_nonempty product); [lia|lia|exact E]. }
  eexists _, _, s'. split; [exact Hrun|]. rewrite Hout.
  split; [exact Hframe|]. split; [lia|]. split; [exact Hshape|].
  split; [exact Hcells|]. split; [cbn; rewrite E; reflexivity|].
  apply List.Forall_forall. intros v Hv. apply in_ravel in Hv.
  destruct Hv as (i & j & Hi & Hj & <-). apply Hcells; lia.
Qed.

(** C5, amended.  For every input pair whose shapes are equal, or broadcast
    against each other, to a raster with at least one cell, the call returns
    statistics in which the total, mean, standard deviation, maximum and
    minimum are reductions over all cells of the exposure raster,
    [non_zero_pixels] is the number of strictly positive cells and
    [non_zero_mean] is the mean of the strictly positive cells, or exactly
    0.0 when there is none. *)
Theorem compute_person_exposure_raster_stats `{Numpy}
    (s : state) (conc_data pop_data rows cols : nat) :
  let conc := cells s conc_data in
  let pop := cells s pop_data in
  conc_data < next s -> pop_data < next s ->
  broadcast_dim (nrows conc) (nrows pop) = Some rows ->
  broadcast_dim (ncols conc) (ncols pop) = Some cols ->
  0 < rows -> 0 < cols ->
  exists raster stats s',
    compute_person_exposure_raster conc_data pop_data s = (Ok (raster, stats), s') /\
    let values := ravel (cells s' raster) in
    let positive := List.filter (fun v => PrimFloat.ltb 0 v) values in
    shape (cells s' raster) = (rows, cols) /\
    length values = rows * cols /\
    total_person_exposure stats = np_sum values /\
    mean_person_exposure stats = np_mean values /\
    std_person_exposure stats = np_std values /\
    max_person_exposure stats = np_amax values /\
    min_person_exposure stats = np_amin values /\
    non_zero_pixels stats = length positive /\
    (positive = [] -> non_zero_mean stats = 0%float) /\
    (positive <> [] -> non_zero_mean stats = np_mean positive).
Proof.
  intros conc pop Hc Hp Hrows Hcols Hr Hcol.
  destruct (np_multiply_broadcast
              (np_where is_valid conc 0%float) (np_where is_valid pop 0%float)
              rows cols Hrows Hcols)
    as (product & Hmul & Hshape).
  destruct (compute_person_exposure_raster_run s conc_data pop_data product Hc Hp Hmul)
    as (s' & _ & Hout & _ & Hrun).
  assert (nrows product = rows /\ ncols product = cols) as [Hnr Hnc]
    by (unfold nrows, ncols; rewrite Hshape; auto).
  pose proof (length_ravel product) as Hlen.
  destruct (ravel product) as [|v0 rest] eqn:E.
  { exfalso. apply (ravel_nonempty product); [lia|lia|exact E]. }
  eexists _, _, s'. split; [exact Hrun|]. rewrite Hout, E. cbv zeta.
  cbn [total_person_exposure mean_person_exposure std_person_exposure
       max_person_exposure min_person_exposure non_zero_pixels non_zero_mean].
  repeat split; try reflexivity.
  - rewrite Hshape. reflexivity.
  - rewrite Hlen, Hnr, Hnc. reflexivity.
  - intros ->. reflexivity.
  - intros Hne. destruct (List.filter _ _); [contradiction|reflexivity].
Qed.

(** ** The edge-pattern detector *)

Lemma np_all_map {A} (p : A -> bool) (l : list A) :
  np_all (map p l) = true <-> forall x, In x l -> p x = true.
Proof.
  unfold np_all. rewrite forallb_forall. split.
  - intros H x Hx. apply (H (p x)). apply in_map. exact Hx.
  - intros H b Hb. apply in_map_iff in Hb. destruct Hb as (x & <- & Hx). auto.
Qed.

Lemma row_is_zero_iff data t i :
  row_is_zero data t i = true <->
  forall j, j < ncols data -> PrimFloat.leb (item data i j) t = true.
Proof.
  unfold row_is_zero. rewrite np_all_map. split.
  - intros H j Hj. apply H. apply in_row_view. eauto.
  - intros H v Hv. apply in_row_view in Hv. destruct Hv as (j & Hj & <-). auto.
Qed.

Lemma col_is_zero_iff data t j :
  col_is_zero data t j = true <->
  forall i, i < nrows data -> PrimFloat.leb (item data i j) t = true.
Proof.
  unfold col_is_zero, col_view. rewrite np_all_map. split.
  - intros H i Hi. apply H. apply in_map_iff. exists i. split; [reflexivity|].
    apply in_seq. lia.
  - intros H v Hv. apply in_map_iff in Hv. destruct Hv as (i & <- & Hi).
    apply in_seq in Hi. apply H. lia.
Qed.




(** The forward loop: starting at index [a] with count [a], it returns the
    end of the longest run of indices from [a] on that pass the test. *)
Lemma scan_edge_forward test n : forall a,
  let r := scan_edge test (fun i => i + 1) (seq a n) a in
  a <= r <= a + n /\
  (forall i, a <= i < r -> test i = true) /\
  (r < a + n -> test r = false).
Proof.
  induction n as [|n IH]; intros a; cbn.
  - repeat split; lia.
  - destruct (test a) eqn:E.
    + replace (a + 1) with (S a) by lia.
      destruct (IH (S a)) as (Hr & Hall & Hstop). cbv zeta in *.
      split; [lia|]. split.
      * intros i Hi. destruct (Nat.eq_dec i a) as [->|]; [exact E|]. apply Hall. lia.
      * intros H. apply Hstop. lia.
    + split; [lia|]. split; [intros i Hi; lia|]. intros _. exact E.
Qed.

(** The backward loop over [n-1, ..., 0] of a line of [size] indices, entered
    with count [size - n]. *)
Lemma scan_edge_backward test size n :
  n <= size ->
  let r := scan_edge test (fun i => size - i) (range_down n) (size - n) in
  size - n <= r <= size /\
  (forall i, size - r <= i < n -> test i = true) /\
  (r < size -> test (size - 1 - r) = false).
Proof.
  unfold range_down. induction n as [|n IH]; intros Hn.
  - cbn. repeat split; lia.
  - rewrite seq_S, rev_app_distr. cbn [rev app scan_edge Nat.add].
    destruct (test n) eqn:E.
    + destruct (IH ltac:(lia)) as (Hr & Hall & Hstop). cbv zeta in *.
      split; [lia|]. split.
      * intros i Hi. destruct (Nat.eq_dec i n) as [->|]; [exact E|]. apply Hall. lia.
      * exact Hstop.
    + split; [lia|]. split; [intros i Hi; lia|].
      intros _. replace (size - 1 - (size - S n)) with n by lia. exact E.
Qed.

(** The four counts of [detect_edge_patterns], in terms of the line tests. *)
Lemma detect_edge_patterns_scans data t :
  let p := detect_edge_patterns data t in
  let rows := nrows data in
  let cols := ncols data in
  (top_zero_rows p <= rows /\
   (forall i, i < top_zero_rows p -> row_is_zero data t i = true) /\
   (top_zero_rows p < rows -> row_is_zero data t (top_zero_rows p) = false)) /\
  (bottom_zero_rows p <= rows /\
   (forall i, rows - bottom_zero_rows p <= i < rows -> row_is_zero data t i = true) /\
   (bottom_zero_rows p < rows ->
    row_is_zero data t (rows - 1 - bottom_zero_rows p) = false)) /\
  (left_zero_cols p <= cols /\
   (forall j, j < left_zero_cols p -> col_is_zero data t j = true) /\
   (left_zero_cols p < cols -> col_is_zero data t (left_zero_cols p) = false)) /\
  (right_zero_cols p <= cols /\
   (forall j, cols - right_zero_cols p <= j < cols -> col_is_zero data t j = true) /\
   (right_zero_cols p < cols ->
    col_is_zero data t (cols - 1 - right_zero_cols p) = false)).
Proof.
  unfold detect_edge_patterns, nrows, ncols. destruct (shape data) as [rows cols].
  cbn [fst snd top_zero_rows bottom_zero_rows left_zero_cols right_zero_cols].
  pose proof (scan_edge_forward (row_is_zero data t) rows 0) as Ht.
  pose proof (scan_edge_backward (row_is_zero data t) rows rows (Nat.le_refl _)) as Hb.
  pose proof (scan_edge_forward (col_is_zero data t) cols 0) as Hl.
  pose proof (scan_edge_backward (col_is_zero data t) cols cols (Nat.le_refl _)) as Hr.
  cbv zeta in *. rewrite Nat.sub_diag in Hb, Hr. unfold range.
  destruct Ht as (Ht1 & Ht2 & Ht3), Hb as (Hb1 & Hb2 & Hb3),
           Hl as (Hl1 & Hl2 & Hl3), Hr as (Hr1 & Hr2 & Hr3).
  repeat split; try lia; intros; auto with zarith.
Qed.


Lemma ltb_leb x y : PrimFloat.ltb x y = true -> PrimFloat.leb x y = true.
Proof.
  rewrite ltb_iff, leb_iff. unfold Ieee.sf_lt, Ieee.sf_le. intros (? & ? & Hlt).
  repeat split; auto. revert Hlt.
  destruct (Ieee.rank (Prim2SF x)) as [[? ?] ?], (Ieee.rank (Prim2SF y)) as [[? ?] ?].
  unfold Ieee.lex_lt, Ieee.lex_le. lia.
Qed.

(** Whatever the dimensions, a stripe needs more than ten lines. *)
Lemma exceeds_min_stripe_threshold count rows cols :
  exceeds count (min_stripe_threshold rows cols) = true -> 10 < count.
Proof.
  unfold min_stripe_threshold.
  destruct (PrimFloat.ltb 10 _) eqn:E; cbn [exceeds].
  - intros H. pose proof (ltb_leb_trans _ _ _ E (ltb_leb _ _ H)) as H10.
    destruct (le_lt_dec count 10) as [L|]; [exfalso|assumption].
    do 11 (destruct count as [|count]; [vm_compute in H10; discriminate|]). lia.
  - intros H. apply Z.ltb_lt in H. lia.
Qed.



(** ** The asset pipeline *)

Lemma shape_eqb_iff s1 s2 : shape_eqb s1 s2 = true <-> s1 = s2.
Proof.
  destruct s1 as [r1 c1], s2 as [r2 c2]. unfold shape_eqb. cbn.
  rewrite andb_true_iff, !Nat.eqb_eq. split; [intros []|intros [=]]; subst; auto.
Qed.

(** C4.  When the two rasters of an asset differ in shape or in a transform
    coefficient, the pipeline never returns a record: it raises, it has
    allocated at most the two bands it read, and it has written no file.
    When the two file names denote one asset the exception is the alignment
    error, raised right after the two files were opened, before any array
    is computed. *)
Theorem process_asset_pair_rejects_misaligned `{Numpy} `{World}
    (conc_file pop_file : string) (country : option string)
    (save_exposure_tiff : bool) (output_dir : string) (s : state)
    (conc_src pop_src : raster_file) :
  rasterio_read conc_file = Some conc_src ->
  rasterio_read pop_file = Some pop_src ->
  shape (band1 conc_src) <> shape (band1 pop_src) \/
  affine_eqb (transform conc_src) (transform pop_src) = false ->
  let '(outcome, s') :=
    process_asset_pair conc_file pop_file country save_exposure_tiff output_dir s in
  ((exists e, outcome = Raise e) /\
   next s' <= next s + 2 /\
   (forall r, r < next s -> cells s' r = cells s r) /\
   (forall path, In (Written path) (io s') -> In (Written path) (io s))) /\
  (forall conc_info pop_info,
     extract_asset_info_from_filename (os_path_basename conc_file) country = Ok conc_info ->
     extract_asset_info_from_filename (os_path_basename pop_file) country = Ok pop_info ->
     info_asset_id conc_info = info_asset_id pop_info ->
     info_country conc_info = info_country pop_info ->
     outcome = Raise AlignmentError /\
     io s' = io s ++ [Opened conc_file; Opened pop_file] /\
     next s' = next s + 2 /\
     cells s' (next s) = band1 conc_src /\
     cells s' (next s + 1) = band1 pop_src).
Proof.
  intros Hcr Hpr Hdiff.
  assert (affine_eqb (transform conc_src) (transform pop_src) &&
          shape_eqb (shape (band1 conc_src)) (shape (band1 pop_src)) = false) as Hcheck.
  { apply andb_false_iff. destruct Hdiff as [Hs|Ht]; [right|left; exact Ht].
    apply not_true_is_false. rewrite shape_eqb_iff. exact Hs. }
  unfold process_asset_pair, bind, lift.
  destruct (extract_asset_info_from_filename (os_path_basename conc_file) country)
    as [conc_info|e1].
  2:{ split; [|intros ? ? [=]]. repeat split; eauto; lia. }
  destruct (extract_asset_info_from_filename (os_path_basename pop_file) country)
    as [pop_info|e2].
  2:{ split; [|intros ? ? _ [=]]. repeat split; eauto; lia. }
  destruct (String.eqb_spec (info_asset_id conc_info) (info_asset_id pop_info)) as [Hid|Hid];
    cbn [negb].
  2:{ split; [|intros ? ? [= <-] [= <-] ? ?; contradiction].
      unfold raise. repeat split; eauto; lia. }
  destruct (String.eqb_spec (info_country conc_info) (info_country pop_info)) as [Hco|Hco];
    cbn [negb].
  2:{ split; [|intros ? ? [= <-] [= <-] ? ?; contradiction].
      unfold raise. repeat split; eauto; lia. }
  unfold rasterio_open, bind. rewrite Hcr, Hpr.
  cbn [emit alloc ret bind cells next io fst snd]. rewrite Hcheck.
  cbn [negb raise cells next io].
  split; [split; [eauto|split; [lia|split]]|].
  - intros r Hr.
    replace (r =? S (next s)) with false by (symmetry; apply Nat.eqb_neq; lia).
    replace (r =? next s) with false by (symmetry; apply Nat.eqb_neq; lia).
    reflexivity.
  - intros path Hin. rewrite !in_app_iff in Hin. cbn in Hin.
    destruct Hin as [[Hin|[Hin|[]]]|[Hin|[]]]; [assumption|discriminate|discriminate].
  - intros ? ? _ _ _ _. split; [reflexivity|].
    split; [rewrite <- app_assoc; reflexivity|].
    split; [lia|].
    split; [replace (next s =? S (next s)) with false by (symmetry; apply Nat.eqb_neq; lia);
            rewrite Nat.eqb_refl; reflexivity|].
    replace (next s + 1 =? S (next s)) with true by (symmetry; apply Nat.eqb_eq; lia).
    reflexivity.
Qed.

(** ** The distribution aggregator *)

Lemma collect_exposures_from acc_max acc_total (asset_results : list asset_record) :
  fold_left
    (fun '(max_exposures, total_exposures) asset =>
       match person_exposure_stats asset with
       | Some st =>
           (max_exposures ++ [max_person_exposure st],
            total_exposures ++ [total_person_exposure st])
       | None => (max_exposures, total_exposures)
       end)
    asset_results (acc_max, acc_total) =
  (acc_max ++ max_values asset_results, acc_total ++ total_values asset_results).
Proof.
  revert acc_max acc_total. unfold max_values, total_values.
  induction asset_results as [|a l IH]; intros acc_max acc_total; cbn.
  - rewrite !app_nil_r. reflexivity.
  - destruct (person_exposure_stats a) as [st|]; [|apply IH].
    rewrite IH. cbn. rewrite <- !app_assoc. reflexivity.
Qed.

Lemma collect_exposures_values asset_results :
  collect_exposures asset_results = (max_values asset_results, total_values asset_results).
Proof. apply collect_exposures_from. Qed.

Lemma values_without_stats asset_results :
  Forall (fun a => person_exposure_stats a = None) asset_results ->
  max_values asset_results = [].
Proof.
  unfold max_values. induction 1 as [|a l Ha _ IH]; [reflexivity|].
  cbn. rewrite Ha. exact IH.
Qed.

(** C9.  With no record, or with records none of which carries a
    ['person_exposure_stats'] entry, the aggregator returns the empty
    mapping and raises nothing. *)
Theorem calculate_exposure_distribution_stats_without_records `{Numpy}
    (asset_results : list asset_record) :
  Forall (fun a => person_exposure_stats a = None) asset_results ->
  calculate_exposure_distribution_stats asset_results = Ok ∅.
Proof.
  intros Hall. unfold calculate_exposure_distribution_stats.
  rewrite collect_exposures_values, (values_without_stats _ Hall). reflexivity.
Qed.

Lemma filter_positive_all (values : list float) :
  List.Forall (fun v => PrimFloat.ltb 0 v = true)
              (List.filter (fun v => PrimFloat.ltb 0 v) values).
Proof.
  apply List.Forall_forall. intros v Hv. apply filter_In in Hv. tauto.
Qed.

(** C6.  For a non-empty collection of per-asset values the aggregator
    returns both summaries; each geometric mean is [exp(mean(log v))] taken
    over the strictly positive values only, so [log] is never applied to a
    zero, and it is exactly 0.0, which is not NaN, when no value is strictly
    positive. *)
Theorem calculate_exposure_distribution_stats_geometric_mean `{Numpy}
    (asset_results : list asset_record) :
  let positive values := List.filter (fun v => PrimFloat.ltb 0 v) values in
  let expected values :=
    match positive values with
    | [] => 0%float
    | _ :: _ => np_exp (np_mean (map np_log (positive values)))
    end in
  max_values asset_results <> [] ->
  exists stats max_stats total_stats,
    calculate_exposure_distribution_stats asset_results = Ok stats /\
    stats !! "max_person_exposure_stats" = Some max_stats /\
    stats !! "total_person_exposure_stats" = Some total_stats /\
    max_stats !! "geometric_mean" = Some (PyFloat (expected (max_values asset_results))) /\
    total_stats !! "geometric_mean" = Some (PyFloat (expected (total_values asset_results))) /\
    List.Forall (fun v => PrimFloat.ltb 0 v = true) (positive (max_values asset_results)) /\
    List.Forall (fun v => PrimFloat.ltb 0 v = true) (positive (total_values asset_results)) /\
    (positive (max_values asset_results) = [] ->
     max_stats !! "geometric_mean" = Some (PyFloat 0)) /\
    (positive (total_values asset_results) = [] ->
     total_stats !! "geometric_mean" = Some (PyFloat 0)) /\
    PrimFloat.is_nan 0 = false.
Proof.
  intros positive expected Hne.
  unfold calculate_exposure_distribution_stats. rewrite collect_exposures_values.
  assert (length (total_values asset_results) = length (max_values asset_results)) as Hlen
    by (unfold total_values, max_values; rewrite !length_map; reflexivity).
  destruct (max_values asset_results) as [|m ms] eqn:Em; [contradiction|].
  destruct (total_values asset_results) as [|t ts] eqn:Et; [discriminate|].
  unfold np_min, np_max, geometric_mean. rewrite !if_nonempty. unfold select.
  eexists _, _, _. split; [reflexivity|].
  split; [reflexivity|]. split; [reflexivity|].
  split; [reflexivity|]. split; [reflexivity|].
  split; [apply filter_positive_all|]. split; [apply filter_positive_all|].
  split; [|split; [|reflexivity]].
  - intros E. unfold positive in E. rewrite E. reflexivity.
  - intros E. unfold positive in E. rewrite E. reflexivity.
Qed.

(* ================================================================== *)
(** * The file analysis                                                *)
(* ================================================================== *)

Lemma fold_min_spec (l : list nat) : forall x,
  let m := fold_left Nat.min l x in
  (forall y, In y (x :: l) -> m <= y) /\ In m (x :: l).
Proof.
  induction l as [|z l IH]; intros x; cbn.
  - split; [intros y [<-|[]]; lia|auto].
  - destruct (IH (Nat.min x z)) as [Hle Hin]. cbv zeta in Hle, Hin. split.
    + intros y [<-|[<-|Hy]].
      * specialize (Hle (Nat.min x z) (or_introl eq_refl)). lia.
      * specialize (Hle (Nat.min x z) (or_introl eq_refl)). lia.
      * apply Hle. right. exact Hy.
    + cbn [In] in *. destruct Hin as [Hin|Hin]; [|tauto].
      revert Hin. generalize (fold_left Nat.min l (Nat.min x z)). intros m Hin.
      destruct (Nat.min_spec x z) as [[_ E]|[_ E]]; rewrite E in Hin; tauto.
Qed.

Lemma fold_max_spec (l : list nat) : forall x,
  let m := fold_left Nat.max l x in
  (forall y, In y (x :: l) -> y <= m) /\ In m (x :: l).
Proof.
  induction l as [|z l IH]; intros x; cbn.
  - split; [intros y [<-|[]]; lia|auto].
  - destruct (IH (Nat.max x z)) as [Hle Hin]. cbv zeta in Hle, Hin. split.
    + intros y [<-|[<-|Hy]].
      * specialize (Hle (Nat.max x z) (or_introl eq_refl)). lia.
      * specialize (Hle (Nat.max x z) (or_introl eq_refl)). lia.
      * apply Hle. right. exact Hy.
    + cbn [In] in *. destruct Hin as [Hin|Hin]; [|tauto].
      revert Hin. generalize (fold_left Nat.max l (Nat.max x z)). intros m Hin.
      destruct (Nat.max_spec x z) as [[_ E]|[_ E]]; rewrite E in Hin; tauto.
Qed.

Lemma np_min_index_spec (l : list nat) :
  l <> [] ->
  exists m, np_min_index l = Ok m /\ (forall y, In y l -> m <= y) /\ In m l.
Proof.
  destruct l as [|x l]; [contradiction|]. intros _. eexists. split; [reflexivity|].
  apply fold_min_spec.
Qed.

Lemma np_max_index_spec (l : list nat) :
  l <> [] ->
  exists m, np_max_index l = Ok m /\ (forall y, In y l -> y <= m) /\ In m l.
Proof.
  destruct l as [|x l]; [contradiction|]. intros _. eexists. split; [reflexivity|].
  apply fold_max_spec.
Qed.

(** The index pairs behind [np.where]: exactly the cells that pass. *)
Lemma in_where_hits (p : float -> bool) (a : ndarray) i j :
  In (i, j)
     (flat_map
        (fun i => map (fun j => (i, j))
                      (List.filter (fun j => p (item a i j)) (seq 0 (ncols a))))
        (seq 0 (nrows a))) <->
  i < nrows a /\ j < ncols a /\ p (item a i j) = true.
Proof.
  rewrite in_flat_map. split.
  - intros (i' & Hi & Hin). apply in_map_iff in Hin. destruct Hin as (j' & [= <- <-] & Hj).
    apply filter_In in Hj. rewrite !in_seq in *. intuition lia.
  - intros (Hi & Hj & Hp). exists i. split; [apply in_seq; lia|].
    apply in_map_iff. exists j. split; [reflexivity|]. apply filter_In.
    split; [apply in_seq; lia|exact Hp].
Qed.

Lemma np_where_indices_rows p a i :
  In i (fst (np_where_indices p a)) <->
  exists j, i < nrows a /\ j < ncols a /\ p (item a i j) = true.
Proof.
  unfold np_where_indices. cbn [fst]. rewrite in_map_iff. split.
  - intros ([i' j] & <- & Hin). apply in_where_hits in Hin. eauto.
  - intros (j & H). exists (i, j). split; [reflexivity|]. apply in_where_hits, H.
Qed.

Lemma np_where_indices_cols p a j :
  In j (snd (np_where_indices p a)) <->
  exists i, i < nrows a /\ j < ncols a /\ p (item a i j) = true.
Proof.
  unfold np_where_indices. cbn [snd]. rewrite in_map_iff. split.
  - intros ([i j'] & <- & Hin). apply in_where_hits in Hin. eauto.
  - intros (i & H). exists (i, j). split; [reflexivity|]. apply in_where_hits, H.
Qed.

Lemma count_cells_positive p a :
  0 < count_cells p a <-> exists i j, i < nrows a /\ j < ncols a /\ p (item a i j) = true.
Proof.
  unfold count_cells. split.
  - intros H. destruct (List.filter p (ravel a)) as [|v l] eqn:E; [cbn in H; lia|].
    assert (In v (List.filter p (ravel a))) as Hv by (rewrite E; left; reflexivity).
    apply filter_In in Hv. destruct Hv as [Hv Hp]. apply in_ravel in Hv.
    destruct Hv as (i & j & Hi & Hj & <-). eauto.
  - intros (i & j & Hi & Hj & Hp).
    assert (In (item a i j) (List.filter p (ravel a))) as Hin.
    { apply filter_In. split; [apply in_ravel; eauto|exact Hp]. }
    destruct (List.filter p (ravel a)); [destruct Hin|cbn; lia].
Qed.


(** One run on a readable file: the record, field by field.  The four
    reductions are guarded by [positive_pixels > 0], so they never see an
    empty index array. *)
Lemma analyze_concentration_file_run `{World}
    (file_path country asset_id : string) (s : state) (src : raster_file) :
  rasterio_read file_path = Some src ->
  let data := band1 src in
  let positive := fun v => PrimFloat.ltb 0 v in
  exists box reach s',
    analyze_concentration_file file_path country asset_id s =
    (Ok (Analysed
           {| analysis_country := country;
              analysis_asset_id := asset_id;
              analysis_file_path := file_path;
              analysis_shape := shape data;
              analysis_total_pixels := nrows data * ncols data;
              zero_pixels := count_cells (fun v => PrimFloat.eqb v 0) data;
              positive_pixels := count_cells positive data;
              zero_percentage :=
                PrimFloat.mul
                  (PrimFloat.div (float_of_nat (count_cells (fun v => PrimFloat.eqb v 0) data))
                                 (float_of_nat (nrows data * ncols data))) 100;
              data_extent := box;
              reaches_edges := reach;
              edge_patterns := detect_edge_patterns data 0%float;
              analysis_suspicious_patterns :=
                suspicious_patterns (detect_edge_patterns data 0%float) |}), s') /\
    io s' = io s ++ [Opened file_path] /\
    (forall r, r < next s -> cells s' r = cells s r) /\
    ((count_cells positive data = 0 /\
      box = {| min_row := -1; max_row := -1; min_col := -1; max_col := -1 |} /\
      reach = {| reaches_top := false; reaches_bottom := false;
                 reaches_left := false; reaches_right := false |}) \/
     (0 < count_cells positive data /\
      exists r0 r1 c0 c1,
        box = {| min_row := Z.of_nat r0; max_row := Z.of_nat r1;
                 min_col := Z.of_nat c0; max_col := Z.of_nat c1 |} /\
        reach = {| reaches_top := (Z.of_nat r0 =? 0)%Z;
                   reaches_bottom := (Z.of_nat r1 =? Z.of_nat (nrows data) - 1)%Z;
                   reaches_left := (Z.of_nat c0 =? 0)%Z;
                   reaches_right := (Z.of_nat c1 =? Z.of_nat (ncols data) - 1)%Z |} /\
        (forall i j, i < nrows data -> j < ncols data -> positive (item data i j) = true ->
           r0 <= i <= r1 /\ c0 <= j <= c1) /\
        (exists j, r0 < nrows data /\ j < ncols data /\ positive (item data r0 j) = true) /\
        (exists j, r1 < nrows data /\ j < ncols data /\ positive (item data r1 j) = true) /\
        (exists i, i < nrows data /\ c0 < ncols data /\ positive (item data i c0) = true) /\
        (exists i, i < nrows data /\ c1 < ncols data /\ positive (item data i c1) = true))).
Proof.
  intros Hread data positive.
  unfold analyze_concentration_file, try_except, bind, rasterio_open. rewrite Hread.
  unfold bind, emit, alloc, load, ret, lift. cbn [cells next io fst snd].
  rewrite Nat.eqb_refl. fold data. rewrite !np_sum_bool_map.
  fold (count_cells (fun v => PrimFloat.eqb v 0) data). fold positive.
  fold (count_cells positive data).
  destruct (Nat.ltb_spec 0 (count_cells positive data)) as [Hpos|Hnone].
  - pose proof (proj1 (count_cells_positive positive data) Hpos) as (i & j & Hi & Hj & Hp).
    assert (fst (np_where_indices positive data) <> []) as Hrows.
    { intros E. assert (In i (fst (np_where_indices positive data))) as Hin
        by (apply np_where_indices_rows; eauto). rewrite E in Hin. destruct Hin. }
    assert (snd (np_where_indices positive data) <> []) as Hcols.
    { intros E. assert (In j (snd (np_where_indices positive data))) as Hin
        by (apply np_where_indices_cols; eauto). rewrite E in Hin. destruct Hin. }
    destruct (np_min_index_spec _ Hrows) as (r0 & E0 & L0 & I0).
    destruct (np_max_index_spec _ Hrows) as (r1 & E1 & L1 & I1).
    destruct (np_min_index_spec _ Hcols) as (c0 & F0 & M0 & J0).
    destruct (np_max_index_spec _ Hcols) as (c1 & F1 & M1 & J1).
    assert (forall i j, i < nrows data -> j < ncols data -> positive (item data i j) = true ->
              r0 <= i <= r1 /\ c0 <= j <= c1) as Hin.
    { intros i' j' Hi' Hj' Hp'.
      assert (In i' (fst (np_where_indices positive data))) by (apply np_where_indices_rows; eauto).
      assert (In j' (snd (np_where_indices positive data))) by (apply np_where_indices_cols; eauto).
      repeat split; auto. }
    apply np_where_indices_rows in I0, I1. apply np_where_indices_cols in J0, J1.
    destruct (np_where_indices positive data) as [rows cols] eqn:Ew.
    cbn [fst snd] in *. rewrite E0, E1, F0, F1. cbn [min_row max_row min_col max_col].
    eexists _, _, _. split; [reflexivity|]. cbn [io cells].
    split; [reflexivity|]. split.
    + intros r Hr. replace (r =? next s) with false by (symmetry; apply Nat.eqb_neq; lia).
      reflexivity.
    + right. split; [exact Hpos|]. exists r0, r1, c0, c1.
      split; [reflexivity|]. split; [reflexivity|]. split; [exact Hin|].
      destruct I0 as (j0 & ?), I1 as (j1 & ?), J0 as (i0 & ?), J1 as (i1 & ?).
      split; [exists j0; tauto|]. split; [exists j1; tauto|].
      split; [exists i0; tauto|]. exists i1; tauto.
  - eexists _, _, _. split; [reflexivity|]. cbn [io cells].
    split; [reflexivity|]. split.
    + intros r Hr. replace (r =? next s) with false by (symmetry; apply Nat.eqb_neq; lia).
      reflexivity.
    + left. repeat split. lia.
Qed.

(** X1.  [analyze_concentration_file] never raises.  A file that cannot be
    opened gives the record with the ['error'] entry and leaves the store and
    the effect log as they were; a file that can be opened gives an analysis
    of its band, whatever the band holds. *)
Theorem analyze_concentration_file_never_raises `{World}
    (file_path country asset_id : string) (s : state) :
  exists outcome s',
    analyze_concentration_file file_path country asset_id s = (Ok outcome, s') /\
    match rasterio_read file_path with
    | None =>
        outcome = AnalysisFailed country asset_id file_path (RasterioIOError file_path) /\
        s' = s
    | Some src =>
        exists record,
          outcome = Analysed record /\
          analysis_shape record = shape (band1 src) /\
          analysis_total_pixels record = nrows (band1 src) * ncols (band1 src) /\
          edge_patterns record = detect_edge_patterns (band1 src) 0%float /\
          io s' = io s ++ [Opened file_path]
    end.
Proof.
  destruct (rasterio_read file_path) as [src|] eqn:Hread.
  - destruct (analyze_concentration_file_run file_path country asset_id s src Hread)
      as (box & reach & s' & Hrun & Hio & _).
    eexists _, s'. split; [exact Hrun|]. eexists. repeat split. exact Hio.
  - exists (AnalysisFailed country asset_id file_path (RasterioIOError file_path)), s.
    split; [|split; reflexivity].
    unfold analyze_concentration_file, try_except, bind, rasterio_open.
    rewrite Hread. reflexivity.
Qed.

(** X2.  The data extent is the tight bounding box of the strictly positive
    cells: every positive cell lies inside it, each of its four sides holds a
    positive cell, and a reach flag is set exactly when that side is the
    raster's edge.  Without a positive cell the extent is the sentinel -1 on
    all four sides and no reach flag is set. *)
Theorem analyze_concentration_file_data_extent `{World}
    (file_path country asset_id : string) (s : state) (src : raster_file) :
  rasterio_read file_path = Some src ->
  let data := band1 src in
  let rows := nrows data in
  let cols := ncols data in
  let positive i j := i < rows /\ j < cols /\ PrimFloat.ltb 0 (item data i j) = true in
  exists record s',
    analyze_concentration_file file_path country asset_id s = (Ok (Analysed record), s') /\
    ((forall i j, ~ positive i j) ->
     positive_pixels record = 0 /\
     data_extent record = {| min_row := -1; max_row := -1; min_col := -1; max_col := -1 |} /\
     reaches_edges record = {| reaches_top := false; reaches_bottom := false;
                               reaches_left := false; reaches_right := false |}) /\
    ((exists i j, positive i j) ->
     exists r0 r1 c0 c1,
       data_extent record = {| min_row := Z.of_nat r0; max_row := Z.of_nat r1;
                               min_col := Z.of_nat c0; max_col := Z.of_nat c1 |} /\
       r0 <= r1 < rows /\ c0 <= c1 < cols /\
       (forall i j, positive i j -> r0 <= i <= r1 /\ c0 <= j <= c1) /\
       (exists j, positive r0 j) /\ (exists j, positive r1 j) /\
       (exists i, positive i c0) /\ (exists i, positive i c1) /\
       (reaches_top (reaches_edges record) = true <-> r0 = 0) /\
       (reaches_bottom (reaches_edges record) = true <-> r1 = rows - 1) /\
       (reaches_left (reaches_edges record) = true <-> c0 = 0) /\
       (reaches_right (reaches_edges record) = true <-> c1 = cols - 1)).
Proof.
  intros Hread data rows cols positive.
  destruct (analyze_concentration_file_run file_path country asset_id s src Hread)
    as (box & reach & s' & Hrun & _ & _ & Hbox).
  fold data in Hrun, Hbox.
  eexists _, s'. split; [exact Hrun|].
  cbn [positive_pixels data_extent reaches_edges].
  assert (0 < count_cells (fun v => PrimFloat.ltb 0 v) data <-> exists i j, positive i j)
    as Hcount by apply count_cells_positive.
  split.
  - intros Hnone. destruct Hbox as [(Hz & -> & ->)|(Hpos & _)].
    + auto.
    + apply Hcount in Hpos. destruct Hpos as (i & j & Hp). destruct (Hnone i j Hp).
  - intros Hsome.
    destruct Hbox as [(Hz & _)|(_ & r0 & r1 & c0 & c1 & -> & -> & Hin & P0 & P1 & Q0 & Q1)].
    { apply Hcount in Hsome. lia. }
    fold rows cols in Hin, P0, P1, Q0, Q1.
    destruct P0 as (j0 & P0), P1 as (j1 & P1), Q0 as (i0 & Q0), Q1 as (i1 & Q1).
    destruct (Hin r0 j0 ltac:(tauto) ltac:(tauto) ltac:(tauto)).
    destruct (Hin i0 c0 ltac:(tauto) ltac:(tauto) ltac:(tauto)).
    exists r0, r1, c0, c1. cbn [reaches_top reaches_bottom reaches_left reaches_right].
    rewrite !Z.eqb_eq.
    split; [reflexivity|]. split; [lia|]. split; [lia|].
    split; [intros i j (? & ? & ?); auto|].
    split; [exists j0; unfold positive; tauto|]. split; [exists j1; unfold positive; tauto|].
    split; [exists i0; unfold positive; tauto|]. split; [exists i1; unfold positive; tauto|].
    repeat split; lia.
Qed.

Lemma detect_edge_patterns_flags data t :
  let p := detect_edge_patterns data t in
  let limit := min_stripe_threshold (nrows data) (ncols data) in
  top_zero_stripe p = exceeds (top_zero_rows p) limit /\
  bottom_zero_stripe p = exceeds (bottom_zero_rows p) limit /\
  left_zero_stripe p = exceeds (left_zero_cols p) limit /\
  right_zero_stripe p = exceeds (right_zero_cols p) limit.
Proof.
  unfold detect_edge_patterns, nrows, ncols. destruct (shape data). repeat split.
Qed.

Lemma no_stripe_without_lines rows cols : exceeds 0 (min_stripe_threshold rows cols) = false.
Proof.
  destruct (exceeds 0 _) eqn:E; [|reflexivity].
  apply exceeds_min_stripe_threshold in E. lia.
Qed.


Lemma sign_exactly_once v :
  let b (p : bool) := if p then 1 else 0 in
  b (PrimFloat.eqb v 0) + b (PrimFloat.ltb 0 v) +
  b (PrimFloat.ltb v 0 || PrimFloat.is_nan v) = 1.
Proof.
  intros b. destruct (PrimFloat.is_nan v) eqn:Hn.
  - assert (PrimFloat.eqb v 0 = false) as ->.
    { rewrite eqb_leb. destruct (PrimFloat.leb v 0) eqn:E; [|reflexivity].
      apply leb_not_nan in E. destruct E; congruence. }
    assert (PrimFloat.ltb 0 v = false) as ->.
    { destruct (PrimFloat.ltb 0 v) eqn:E; [|reflexivity].
      apply ltb_not_nan in E. destruct E; congruence. }
    rewrite orb_true_r. reflexivity.
  - rewrite eqb_leb, (ltb_negb_leb 0 v eq_refl Hn), (ltb_negb_leb v 0 Hn eq_refl), orb_false_r.
    destruct (PrimFloat.leb v 0) eqn:E1, (PrimFloat.leb 0 v) eqn:E2; try reflexivity.
    assert (PrimFloat.ltb 0 v = true) as H by (rewrite (ltb_negb_leb 0 v eq_refl Hn), E1; reflexivity).
    apply ltb_leb in H. congruence.
Qed.

(** X4.  Every cell is counted once: the zero cells, the strictly positive
    cells and the cells that are negative or NaN add up to [total_pixels];
    so [zero_pixels + positive_pixels] falls short of the total by exactly
    the negative and NaN cells. *)
Theorem analyze_concentration_file_pixel_counts `{World}
    (file_path country asset_id : string) (s : state) (src : raster_file) :
  rasterio_read file_path = Some src ->
  exists record s',
    analyze_concentration_file file_path country asset_id s = (Ok (Analysed record), s') /\
    zero_pixels record + positive_pixels record +
    count_cells (fun v => PrimFloat.ltb v 0 || PrimFloat.is_nan v) (band1 src) =
    analysis_total_pixels record /\
    zero_pixels record = count_cells (fun v => PrimFloat.eqb v 0) (band1 src) /\
    positive_pixels record = count_cells (fun v => PrimFloat.ltb 0 v) (band1 src).
Proof.
  intros Hread.
  destruct (analyze_concentration_file_run file_path country asset_id s src Hread)
    as (box & reach & s' & Hrun & _).
  eexists _, s'. split; [exact Hrun|].
  cbn [zero_pixels positive_pixels analysis_total_pixels].
  split; [|split; reflexivity].
  rewrite <- length_ravel. unfold count_cells.
  induction (ravel (band1 src)) as [|v l IH]; [reflexivity|].
  rewrite !length_filter_cons. cbn [length].
  pose proof (sign_exactly_once v) as Hv. cbv zeta in Hv. lia.
Qed.

(** X5.  With a positive cell in the raster, the zero lines counted from an
    edge never reach into the data extent: each count is at most the margin
    between its edge and the bounding box; an edge that the data reaches has
    count 0 and no stripe flag; and when no cell is NaN each count is exactly
    that margin. *)
Theorem analyze_concentration_file_margins `{World}
    (file_path country asset_id : string) (s : state) (src : raster_file) :
  rasterio_read file_path = Some src ->
  let data := band1 src in
  let rows := nrows data in
  let cols := ncols data in
  (exists i j, i < rows /\ j < cols /\ PrimFloat.ltb 0 (item data i j) = true) ->
  exists record s',
    analyze_concentration_file file_path country asset_id s = (Ok (Analysed record), s') /\
    let found := edge_patterns record in
    let box := data_extent record in
    let reach := reaches_edges record in
    (Z.of_nat (top_zero_rows found) <= min_row box /\
     Z.of_nat (bottom_zero_rows found) <= Z.of_nat rows - 1 - max_row box /\
     Z.of_nat (left_zero_cols found) <= min_col box /\
     Z.of_nat (right_zero_cols found) <= Z.of_nat cols - 1 - max_col box)%Z /\
    (reaches_top reach = true -> top_zero_rows found = 0 /\ top_zero_stripe found = false) /\
    (reaches_bottom reach = true ->
     bottom_zero_rows found = 0 /\ bottom_zero_stripe found = false) /\
    (reaches_left reach = true -> left_zero_cols found = 0 /\ left_zero_stripe found = false) /\
    (reaches_right reach = true ->
     right_zero_cols found = 0 /\ right_zero_stripe found = false) /\
    ((forall i j, i < rows -> j < cols -> PrimFloat.is_nan (item data i j) = false) ->
     (Z.of_nat (top_zero_rows found) = min_row box /\
      Z.of_nat (bottom_zero_rows found) = Z.of_nat rows - 1 - max_row box /\
      Z.of_nat (left_zero_cols found) = min_col box /\
      Z.of_nat (right_zero_cols found) = Z.of_nat cols - 1 - max_col box)%Z).
Proof.
  intros Hread data rows cols Hsome.
  destruct (analyze_concentration_file_run file_path country asset_id s src Hread)
    as (box & reach & s' & Hrun & _ & _ & Hbox).
  fold data in Hrun, Hbox.
  eexists _, s'. split; [exact Hrun|].
  cbn [edge_patterns data_extent reaches_edges].
  destruct Hbox as [(Hz & _)|(_ & r0 & r1 & c0 & c1 & -> & -> & Hin & P0 & P1 & Q0 & Q1)].
  { apply (proj2 (count_cells_positive (fun v => PrimFloat.ltb 0 v) data)) in Hsome. lia. }
  fold rows cols in Hin, P0, P1, Q0, Q1.
  destruct (detect_edge_patterns_scans data 0%float)
    as ((Ht1 & Ht2 & Ht3) & (Hb1 & Hb2 & Hb3) & (Hl1 & Hl2 & Hl3) & (Hr1 & Hr2 & Hr3)).
  destruct (detect_edge_patterns_flags data 0%float) as (Ft & Fb & Fl & Fr).
  set (found := detect_edge_patterns data 0%float) in *. fold rows cols in Ht1, Ht2, Ht3, Hb1, Hb2, Hb3, Hl1, Hl2, Hl3, Hr1, Hr2, Hr3.
  assert (forall i j, i < rows -> j < cols -> PrimFloat.ltb 0 (item data i j) = true ->
            row_is_zero data 0 i = false /\ col_is_zero data 0 j = false) as Hbreak.
  { intros i j Hi Hj Hp. apply ltb_leb_false in Hp. split; apply not_true_is_false; intros Hz.
    - rewrite row_is_zero_iff in Hz. rewrite (Hz j Hj) in Hp. discriminate.
    - rewrite col_is_zero_iff in Hz. rewrite (Hz i Hi) in Hp. discriminate. }
  destruct P0 as (j0 & Pr0 & Pj0 & P0), P1 as (j1 & Pr1 & Pj1 & P1),
           Q0 as (i0 & Qi0 & Qc0 & Q0), Q1 as (i1 & Qi1 & Qc1 & Q1).
  destruct (Hbreak r0 j0 Pr0 Pj0 P0) as [Br0 _], (Hbreak r1 j1 Pr1 Pj1 P1) as [Br1 _],
           (Hbreak i0 c0 Qi0 Qc0 Q0) as [_ Bc0], (Hbreak i1 c1 Qi1 Qc1 Q1) as [_ Bc1].
  assert (top_zero_rows found <= r0) as Lt.
  { destruct (le_lt_dec (top_zero_rows found) r0) as [|L]; [assumption|].
    rewrite (Ht2 r0 L) in Br0. discriminate. }
  assert (bottom_zero_rows found <= rows - 1 - r1) as Lb.
  { destruct (le_lt_dec (rows - bottom_zero_rows found) r1) as [L|]; [|lia].
    rewrite (Hb2 r1 (conj L Pr1)) in Br1. discriminate. }
  assert (left_zero_cols found <= c0) as Ll.
  { destruct (le_lt_dec (left_zero_cols found) c0) as [|L]; [assumption|].
    rewrite (Hl2 c0 L) in Bc0. discriminate. }
  assert (right_zero_cols found <= cols - 1 - c1) as Lr.
  { destruct (le_lt_dec (cols - right_zero_cols found) c1) as [L|]; [|lia].
    rewrite (Hr2 c1 (conj L Qc1)) in Bc1. discriminate. }
  cbn [min_row max_row min_col max_col reaches_top reaches_bottom reaches_left reaches_right].
  split; [lia|].
  split; [intros E; apply Z.eqb_eq in E;
          assert (top_zero_rows found = 0) as E0 by lia;
          split; [exact E0|rewrite Ft, E0; apply no_stripe_without_lines]|].
  split; [intros E; apply Z.eqb_eq in E;
          assert (bottom_zero_rows found = 0) as E0 by lia;
          split; [exact E0|rewrite Fb, E0; apply no_stripe_without_lines]|].
  split; [intros E; apply Z.eqb_eq in E;
          assert (left_zero_cols found = 0) as E0 by lia;
          split; [exact E0|rewrite Fl, E0; apply no_stripe_without_lines]|].
  split; [intros E; apply Z.eqb_eq in E;
          assert (right_zero_cols found = 0) as E0 by lia;
          split; [exact E0|rewrite Fr, E0; apply no_stripe_without_lines]|].
  intros Hnan.
  assert (forall i j, i < rows -> j < cols -> PrimFloat.ltb 0 (item data i j) = false ->
            PrimFloat.leb (item data i j) 0 = true) as Hle.
  { intros i j Hi Hj Hp. rewrite (ltb_negb_leb 0 _ eq_refl (Hnan i j Hi Hj)) in Hp.
    apply negb_false_iff in Hp. exact Hp. }
  assert (forall i, i < rows -> (i < r0 \/ r1 < i) -> row_is_zero data 0 i = true) as Zr.
  { intros i Hi Hout. apply row_is_zero_iff. intros j Hj. apply Hle; auto.
    destruct (PrimFloat.ltb 0 (item data i j)) eqn:E; [|reflexivity].
    destruct (Hin i j Hi Hj E). lia. }
  assert (forall j, j < cols -> (j < c0 \/ c1 < j) -> col_is_zero data 0 j = true) as Zc.
  { intros j Hj Hout. apply col_is_zero_iff. intros i Hi. apply Hle; auto.
    destruct (PrimFloat.ltb 0 (item data i j)) eqn:E; [|reflexivity].
    destruct (Hin i j Hi Hj E). lia. }
  assert (top_zero_rows found = r0).
  { destruct (Nat.eq_dec (top_zero_rows found) r0) as [|Hne]; [assumption|].
    rewrite Zr in Ht3; [discriminate Ht3|..]; lia. }
  assert (bottom_zero_rows found = rows - 1 - r1).
  { destruct (Nat.eq_dec (bottom_zero_rows found) (rows - 1 - r1)) as [|Hne]; [assumption|].
    rewrite Zr in Hb3; [discriminate Hb3|..]; lia. }
  assert (left_zero_cols found = c0).
  { destruct (Nat.eq_dec (left_zero_cols found) c0) as [|Hne]; [assumption|].
    rewrite Zc in Hl3; [discriminate Hl3|..]; lia. }
  assert (right_zero_cols found = cols - 1 - c1).
  { destruct (Nat.eq_dec (right_zero_cols found) (cols - 1 - c1)) as [|Hne]; [assumption|].
    rewrite Zc in Hr3; [discriminate Hr3|..]; lia. }
  lia.
Qed.

(** A zero line stays a zero line under a larger threshold. *)
Lemma row_is_zero_mono data t1 t2 i :
  PrimFloat.leb t1 t2 = true ->
  row_is_zero data t1 i = true -> row_is_zero data t2 i = true.
Proof.
  intros Ht. rewrite !row_is_zero_iff. intros Hz j Hj.
  apply (leb_trans _ t1); [apply Hz, Hj|exact Ht].
Qed.

Lemma col_is_zero_mono data t1 t2 j :
  PrimFloat.leb t1 t2 = true ->
  col_is_zero data t1 j = true -> col_is_zero data t2 j = true.
Proof.
  intros Ht. rewrite !col_is_zero_iff. intros Hz i Hi.
  apply (leb_trans _ t1); [apply Hz, Hi|exact Ht].
Qed.

(** X6.  The counts grow with the threshold: under a threshold that is at
    least as large, no edge has fewer zero lines. *)
Theorem detect_edge_patterns_monotone (data : ndarray) (low high : float) :
  PrimFloat.leb low high = true ->
  let p := detect_edge_patterns data low in
  let q := detect_edge_patterns data high in
  top_zero_rows p <= top_zero_rows q /\
  bottom_zero_rows p <= bottom_zero_rows q /\
  left_zero_cols p <= left_zero_cols q /\
  right_zero_cols p <= right_zero_cols q.
Proof.
  intros Hle p q.
  destruct (detect_edge_patterns_scans data low)
    as ((Ht1 & Ht2 & _) & (Hb1 & Hb2 & _) & (Hl1 & Hl2 & _) & (Hr1 & Hr2 & _)).
  destruct (detect_edge_patterns_scans data high)
    as ((Ht1' & _ & Ht3) & (Hb1' & _ & Hb3) & (Hl1' & _ & Hl3) & (Hr1' & _ & Hr3)).
  fold p in Ht1, Ht2, Hb1, Hb2, Hl1, Hl2, Hr1, Hr2.
  fold q in Ht1', Ht3, Hb1', Hb3, Hl1', Hl3, Hr1', Hr3.
  repeat split.
  - destruct (le_lt_dec (top_zero_rows p) (top_zero_rows q)) as [|Hlt]; [assumption|].
    rewrite (row_is_zero_mono data low high _ Hle) in Ht3;
      [discriminate Ht3; lia|apply Ht2; lia].
  - destruct (le_lt_dec (bottom_zero_rows p) (bottom_zero_rows q)) as [|Hlt]; [assumption|].
    rewrite (row_is_zero_mono data low high _ Hle) in Hb3;
      [discriminate Hb3; lia|apply Hb2; lia].
  - destruct (le_lt_dec (left_zero_cols p) (left_zero_cols q)) as [|Hlt]; [assumption|].
    rewrite (col_is_zero_mono data low high _ Hle) in Hl3;
      [discriminate Hl3; lia|apply Hl2; lia].
  - destruct (le_lt_dec (right_zero_cols p) (right_zero_cols q)) as [|Hlt]; [assumption|].
    rewrite (col_is_zero_mono data low high _ Hle) in Hr3;
      [discriminate Hr3; lia|apply Hr2; lia].
Qed.

(* ================================================================== *)
(** * The exposure raster and the pipeline on an aligned pair          *)
(* ================================================================== *)

Lemma rank_zero_is_zero x :
  x <> S754_nan -> Ieee.rank x = (0, 0, 0)%Z -> exists s, x = S754_zero s.
Proof.
  destruct x as [s|[]| |[] m e]; cbn; try congruence; try discriminate; eauto.
Qed.

Lemma eqb_zero_iff v :
  PrimFloat.eqb v 0 = true <-> exists s, Prim2SF v = S754_zero s.
Proof.
  rewrite eqb_iff. change (Prim2SF 0) with (S754_zero false). cbn [Ieee.rank]. split.
  - intros (Hn & _ & Hr). apply rank_zero_is_zero; assumption.
  - intros (s & ->). repeat split; discriminate.
Qed.

(** A zero times a finite non-negative value is a zero. *)
Lemma mul_zero_l x y :
  PrimFloat.eqb x 0 = true -> Ieee.nonneg_finite (Prim2SF y) ->
  PrimFloat.eqb (PrimFloat.mul x y) 0 = true.
Proof.
  rewrite !eqb_zero_iff, FloatAxioms.mul_spec. intros (s & ->) Hy.
  destruct (Prim2SF y) as [sy|sy| |[] my ey]; cbn in *; try tauto; eauto.
Qed.

Lemma mul_zero_r x y :
  Ieee.nonneg_finite (Prim2SF x) -> PrimFloat.eqb y 0 = true ->
  PrimFloat.eqb (PrimFloat.mul x y) 0 = true.
Proof.
  rewrite !eqb_zero_iff, FloatAxioms.mul_spec. intros Hx (s & ->).
  destruct (Prim2SF x) as [sx|sx| |[] mx ex]; cbn in *; try tauto; eauto.
Qed.

(** A cleaned cell is zero unless the source cell is valid and positive. *)
Lemma cleaned_zero v :
  is_valid v && PrimFloat.ltb 0 v = false ->
  PrimFloat.eqb (if is_valid v then v else 0%float) 0 = true.
Proof.
  destruct (is_valid v) eqn:Hv; [cbn|reflexivity]. intros Hp.
  pose proof (is_valid_not_nan v Hv) as Hn.
  unfold is_valid in Hv. apply andb_true_iff in Hv. destruct Hv as [_ Hle].
  rewrite eqb_leb, Hle, andb_true_r.
  rewrite (ltb_negb_leb 0 v eq_refl Hn) in Hp. apply negb_false_iff in Hp. exact Hp.
Qed.

(** Counting cells of two arrays of one shape: a test that implies another,
    cell by cell, counts fewer cells. *)
Lemma count_cells_le (p q : float -> bool) (a b : ndarray) :
  shape a = shape b ->
  (forall i j, i < nrows a -> j < ncols a -> p (item a i j) = true -> q (item b i j) = true) ->
  count_cells p a <= count_cells q b.
Proof.
  intros Hs Himp. unfold count_cells, ravel, row_view, nrows, ncols in *. rewrite <- Hs.
  assert (forall L1 L2,
            (forall i, In i L1 -> i < fst (shape a)) ->
            (forall j, In j L2 -> j < snd (shape a)) ->
            length (List.filter p (flat_map (fun i => map (item a i) L2) L1)) <=
            length (List.filter q (flat_map (fun i => map (item b i) L2) L1))) as Hgen.
  { induction L1 as [|i L1 IH]; intros L2 H1 H2; [reflexivity|].
    cbn [flat_map]. rewrite !List.filter_app, !length_app.
    apply Nat.add_le_mono; [|apply IH; auto; intros; apply H1; right; assumption].
    assert (i < fst (shape a)) as Hi by (apply H1; left; reflexivity).
    clear IH H1. induction L2 as [|j L2 IH2]; [reflexivity|].
    cbn [map List.filter].
    assert (j < snd (shape a)) as Hj by (apply H2; left; reflexivity).
    specialize (IH2 (fun j' H' => H2 j' (or_intror H'))).
    destruct (p (item a i j)) eqn:E.
    - rewrite (Himp i j Hi Hj E). cbn. lia.
    - destruct (q (item b i j)); cbn; lia. }
  apply Hgen; intros k Hk; apply in_seq in Hk; lia.
Qed.

(** X7.  On an equal-shaped pair with at least one cell, an exposure cell is
    strictly positive only where both source cells are finite and strictly
    positive; wherever a source cell is zero, negative or non-finite the
    exposure cell equals zero. *)
Theorem compute_person_exposure_raster_zero_cells `{Numpy}
    (s : state) (conc_data pop_data : nat) :
  let conc := cells s conc_data in
  let pop := cells s pop_data in
  let usable v := is_valid v && PrimFloat.ltb 0 v in
  conc_data < next s -> pop_data < next s ->
  shape conc = shape pop ->
  0 < nrows conc -> 0 < ncols conc ->
  exists raster stats s',
    compute_person_exposure_raster conc_data pop_data s = (Ok (raster, stats), s') /\
    (forall i j, i < nrows conc -> j < ncols conc ->
       usable (item conc i j) && usable (item pop i j) = false ->
       PrimFloat.eqb (item (cells s' raster) i j) 0 = true) /\
    (forall i j, i < nrows conc -> j < ncols conc ->
       PrimFloat.ltb 0 (item (cells s' raster) i j) = true ->
       usable (item conc i j) = true /\ usable (item pop i j) = true) /\
    non_zero_pixels stats <= count_cells (fun v => PrimFloat.ltb 0 v) conc /\
    non_zero_pixels stats <= count_cells (fun v => PrimFloat.ltb 0 v) pop.
Proof.
  intros conc pop usable Hc Hp Hs Hr Hcol.
  destruct (np_multiply_same_shape
              (np_where is_valid conc 0%float) (np_where is_valid pop 0%float) Hs)
    as (product & Hmul & Hshape & Hitem).
  destruct (compute_person_exposure_raster_run s conc_data pop_data product Hc Hp Hmul)
    as (s' & _ & Hout & _ & Hrun).
  change (shape (np_where is_valid conc 0%float)) with (shape conc) in Hshape.
  change (nrows (np_where is_valid conc 0%float)) with (nrows conc) in Hitem.
  change (ncols (np_where is_valid conc 0%float)) with (ncols conc) in Hitem.
  assert (nrows product = nrows conc /\ ncols product = ncols conc) as [Hnr Hnc]
    by (unfold nrows, ncols; rewrite Hshape; auto).
  assert (forall i j, i < nrows conc -> j < ncols conc ->
            usable (item conc i j) && usable (item pop i j) = false ->
            PrimFloat.eqb (item product i j) 0 = true) as Hzero.
  { intros i j Hi Hj Hu. rewrite (Hitem i j Hi Hj). cbn [np_where item].
    apply andb_false_iff in Hu. destruct Hu as [Hu|Hu].
    - apply mul_zero_l; [apply cleaned_zero, Hu|apply cleaned_nonneg_finite].
    - apply mul_zero_r; [apply cleaned_nonneg_finite|apply cleaned_zero, Hu]. }
  assert (forall i j, i < nrows conc -> j < ncols conc ->
            PrimFloat.ltb 0 (item product i j) = true ->
            usable (item conc i j) = true /\ usable (item pop i j) = true) as Hpos.
  { intros i j Hi Hj Hgt. apply positive_not_zero in Hgt.
    destruct (usable (item conc i j) && usable (item pop i j)) eqn:E.
    - apply andb_true_iff in E. exact E.
    - rewrite (Hzero i j Hi Hj E) in Hgt. discriminate. }
  destruct (ravel product) as [|v0 rest] eqn:E.
  { exfalso. apply (ravel_nonempty product); [lia|lia|exact E]. }
  eexists _, _, s'. split; [exact Hrun|]. rewrite Hout.
  split; [exact Hzero|]. split; [exact Hpos|].
  cbn [non_zero_pixels]. rewrite <- E.
  split.
  - apply (count_cells_le (fun v => PrimFloat.ltb 0 v) (fun v => PrimFloat.ltb 0 v) product conc Hshape).
    intros i j Hi Hj Hgt. rewrite Hnr in Hi. rewrite Hnc in Hj.
    destruct (Hpos i j Hi Hj Hgt) as [Hu _]. unfold usable in Hu.
    apply andb_true_iff in Hu. tauto.
  - apply (count_cells_le (fun v => PrimFloat.ltb 0 v) (fun v => PrimFloat.ltb 0 v) product pop
             (eq_trans Hshape Hs)).
    intros i j Hi Hj Hgt. rewrite Hnr in Hi. rewrite Hnc in Hj.
    destruct (Hpos i j Hi Hj Hgt) as [_ Hu]. unfold usable in Hu.
    apply andb_true_iff in Hu. tauto.
Qed.

(** Whatever it returns, the exposure engine performs no file-system effect
    and leaves every existing array as it was. *)
Lemma compute_person_exposure_raster_effects `{Numpy} (s : state) (conc_data pop_data : nat) :
  io (snd (compute_person_exposure_raster conc_data pop_data s)) = io s /\
  forall r, r < next s ->
    cells (snd (compute_person_exposure_raster conc_data pop_data s)) r = cells s r.
Proof.
  unfold compute_person_exposure_raster, bind, load, alloc, lift, ret.
  cbn [cells next io fst snd].
  assert (forall (a b c : ndarray) r, r < next s ->
            (if r =? S (S (next s)) then a
             else if r =? S (next s) then b
             else if r =? next s then c else cells s r) = cells s r) as Hframe.
  { intros a b c r Hr.
    repeat match goal with
           | |- context [r =? ?k] => replace (r =? k) with false by (symmetry; apply Nat.eqb_neq; lia)
           end.
    reflexivity. }
  destruct (np_multiply _ _) as [product|e]; cbn [cells next io fst snd].
  - destruct (np_max _) as [maximum|e]; cbn [cells next io fst snd];
      [destruct (np_min _) as [minimum|e]; cbn [cells next io fst snd]|];
      (split; [reflexivity|intros r Hr; apply Hframe, Hr]).
  - split; [reflexivity|]. intros r Hr.
    repeat match goal with
           | |- context [r =? ?k] => replace (r =? k) with false by (symmetry; apply Nat.eqb_neq; lia)
           end.
    reflexivity.
Qed.

(** The shape of a product, when there is one. *)
Lemma np_multiply_ok a b product :
  np_multiply a b = Ok product ->
  broadcast_dim (nrows a) (nrows b) = Some (nrows product) /\
  broadcast_dim (ncols a) (ncols b) = Some (ncols product).
Proof.
  unfold np_multiply.
  destruct (broadcast_dim (nrows a) (nrows b)) as [r|]; [|discriminate].
  destruct (broadcast_dim (ncols a) (ncols b)) as [c|]; [|discriminate].
  intros [= <-]. split; reflexivity.
Qed.

(** X8.  The exposure engine fails in two ways only, both before any
    statistic is returned: the shapes do not broadcast, and the product is
    never formed; or they broadcast to a raster without cells, on which
    [np.max] raises.  In every other case it returns.  Whatever happens, no
    file-system effect is performed and the arrays that existed before the
    call are unchanged. *)
Theorem compute_person_exposure_raster_failures `{Numpy}
    (s : state) (conc_data pop_data : nat) :
  let conc := cells s conc_data in
  let pop := cells s pop_data in
  let rows := broadcast_dim (nrows conc) (nrows pop) in
  let cols := broadcast_dim (ncols conc) (ncols pop) in
  conc_data < next s -> pop_data < next s ->
  let '(outcome, s') := compute_person_exposure_raster conc_data pop_data s in
  (outcome = Raise (ValueError "operands could not be broadcast together") <->
   rows = None \/ cols = None) /\
  (outcome =
   Raise (ValueError "zero-size array to reduction operation maximum which has no identity") <->
   exists r c, rows = Some r /\ cols = Some c /\ r * c = 0) /\
  ((exists raster stats, outcome = Ok (raster, stats)) <->
   exists r c, rows = Some r /\ cols = Some c /\ 0 < r * c) /\
  io s' = io s /\
  (forall r, r < next s -> cells s' r = cells s r).
Proof.
  intros conc pop rows cols Hc Hp.
  pose proof (compute_person_exposure_raster_effects s conc_data pop_data) as [Hio Hframe].
  destruct (np_multiply (np_where is_valid conc 0%float) (np_where is_valid pop 0%float))
    as [product|e] eqn:Hmul.
  - destruct (compute_person_exposure_raster_run s conc_data pop_data product Hc Hp Hmul)
      as (s' & _ & _ & _ & Hrun).
    rewrite Hrun in Hio, Hframe |- *. cbn [snd] in Hio, Hframe.
    apply np_multiply_ok in Hmul. destruct Hmul as [Hr Hcol].
    change (nrows (np_where is_valid conc 0%float)) with (nrows conc) in Hr.
    change (nrows (np_where is_valid pop 0%float)) with (nrows pop) in Hr.
    change (ncols (np_where is_valid conc 0%float)) with (ncols conc) in Hcol.
    change (ncols (np_where is_valid pop 0%float)) with (ncols pop) in Hcol.
    fold rows in Hr. fold cols in Hcol. rewrite Hr, Hcol.
    pose proof (length_ravel product) as Hlen.
    destruct (ravel product) as [|v0 rest]; cbn [length] in Hlen.
    + split; [split; [discriminate|intros [|]; discriminate]|].
      split; [split; [intros _; eauto|reflexivity]|].
      split; [|split; assumption].
      split; [intros (? & ? & [=])|intros (r & c & [= <-] & [= <-] & Hpos); lia].
    + split; [split; [discriminate|intros [|]; discriminate]|].
      split; [split; [discriminate|intros (r & c & [= <-] & [= <-] & Hz); lia]|].
      split; [|split; assumption].
      split; [intros _; exists (nrows product), (ncols product); repeat split; lia|eauto].
  - assert (rows = None \/ cols = None) as Hnone.
    { unfold np_multiply in Hmul.
      change (nrows (np_where is_valid conc 0%float)) with (nrows conc) in Hmul.
      change (nrows (np_where is_valid pop 0%float)) with (nrows pop) in Hmul.
      change (ncols (np_where is_valid conc 0%float)) with (ncols conc) in Hmul.
      change (ncols (np_where is_valid pop 0%float)) with (ncols pop) in Hmul.
      fold rows cols in Hmul.
      destruct rows; [|left; reflexivity]. destruct cols; [discriminate|right; reflexivity]. }
    assert (e = ValueError "operands could not be broadcast together") as ->.
    { unfold np_multiply in Hmul.
      destruct (broadcast_dim _ _); [destruct (broadcast_dim _ _)|]; congruence. }
    assert (fst (compute_person_exposure_raster conc_data pop_data s) =
            Raise (ValueError "operands could not be broadcast together")) as Hrun.
    { unfold compute_person_exposure_raster, bind, load, alloc, lift, ret.
      cbn [cells next io fst snd].
      assert ((pop_data =? next s) = false) as -> by (apply Nat.eqb_neq; lia).
      assert ((next s =? S (next s)) = false) as -> by (apply Nat.eqb_neq; lia).
      rewrite !Nat.eqb_refl. fold conc pop. rewrite Hmul. reflexivity. }
    destruct (compute_person_exposure_raster conc_data pop_data s) as [outcome s'].
    cbn [fst snd] in *. subst outcome.
    split; [split; [intros _; exact Hnone|reflexivity]|].
    split; [split; [discriminate|]|].
    { intros (r & c & Hr & Hcol & _). destruct Hnone; congruence. }
    split; [|split; assumption].
    split; [intros (? & ? & [=])|].
    intros (r & c & Hr & Hcol & _). destruct Hnone; congruence.
Qed.

(** ** The pipeline on one pair *)

(** A zero is a valid cell. *)
Lemma zero_is_valid v : PrimFloat.eqb v 0 = true -> is_valid v = true.
Proof.
  intros Hz. pose proof Hz as Hs. apply eqb_zero_iff in Hs. destruct Hs as (sg & Hs).
  unfold is_valid. apply andb_true_iff. split.
  - unfold PrimFloat.is_finite, PrimFloat.is_infinity, PrimFloat.is_nan.
    apply negb_true_iff, orb_false_iff. split.
    + apply negb_false_iff, eqb_iff. rewrite Hs. repeat split; discriminate.
    + apply not_true_is_false. rewrite eqb_iff, abs_spec, Hs. cbn. intros (_ & _ & [=]).
  - rewrite eqb_leb in Hz. apply andb_true_iff in Hz. tauto.
Qed.

(** In an array without NaN and without negative cells, every cell is either
    a zero of the ["0"] bucket or strictly positive. *)
Lemma zero_bucket_complement (values : list float) :
  Forall (fun v => PrimFloat.is_nan v = false /\ PrimFloat.ltb v 0 = false) values ->
  length (List.filter (fun v => is_valid v && PrimFloat.eqb v 0) values) +
  length (List.filter (fun v => PrimFloat.ltb 0 v) values) = length values.
Proof.
  induction 1 as [|v l [Hn Hneg] _ IH]; [reflexivity|].
  rewrite !length_filter_cons. cbn [length].
  pose proof (sign_exactly_once v) as Hv. cbv zeta in Hv. rewrite Hn, Hneg in Hv. cbn [orb] in Hv.
  destruct (PrimFloat.eqb v 0) eqn:Hz.
  - rewrite (zero_is_valid v Hz). cbn [andb]. lia.
  - rewrite andb_false_r. lia.
Qed.

(** Every existing array survives the two reads. *)
Lemma rasterio_open_run `{World} (path : string) (src : raster_file) (s : state) :
  rasterio_read path = Some src ->
  rasterio_open path s =
  (Ok (next s, src),
   {| cells := fun r => if r =? next s then band1 src else cells s r;
      next := S (next s);
      io := io s ++ [Opened path] |}).
Proof. intros Hread. unfold rasterio_open. rewrite Hread. reflexivity. Qed.

(** X9.  The pipeline touches the file system in one order only: it opens
    the concentration file, then the population file, and, when asked to
    save, calls [os.makedirs] and then writes the exposure GeoTIFF as its
    very last steps.  A run that returns has completed all of them.  A run
    that raises has recorded no write; it has completed [os.makedirs] only
    when the exception is the one of the write itself; in every other case
    (a name that does not parse, an unreadable file, misaligned rasters, an
    empty raster, a failing [os.makedirs]) it has at most opened the input
    files.  In every case the arrays that existed before the call are
    unchanged. *)
Theorem process_asset_pair_effects `{Numpy} `{World}
    (conc_file pop_file : string) (country_code : option string)
    (save_exposure_tiff : bool) (output_dir : string) (s : state) :
  let '(outcome, s') :=
    process_asset_pair conc_file pop_file country_code save_exposure_tiff output_dir s in
  (forall r, r < next s -> cells s' r = cells s r) /\
  match outcome with
  | Ok record =>
      let name :=
        String.append (country record)
          (String.append "_" (String.append (asset_id record) "_person_exposure.tiff")) in
      io s' = io s ++ [Opened conc_file; Opened pop_file] ++
              (if save_exposure_tiff
               then [MadeDirs output_dir; Written (os_path_join output_dir name)]
               else []) /\
      file_person_exposure (files record) = (if save_exposure_tiff then Some name else None)
  | Raise e =>
      io s' = io s \/ io s' = io s ++ [Opened conc_file] \/
      io s' = io s ++ [Opened conc_file; Opened pop_file] \/
      (save_exposure_tiff = true /\ os_makedirs output_dir = Ok tt /\
       (exists name data, rasterio_write (os_path_join output_dir name) data = Raise e) /\
       io s' = io s ++ [Opened conc_file; Opened pop_file; MadeDirs output_dir])
  end.
Proof.
  unfold process_asset_pair, bind, lift.
  destruct (extract_asset_info_from_filename (os_path_basename conc_file) country_code)
    as [conc_info|e1]; [|split; auto].
  destruct (extract_asset_info_from_filename (os_path_basename pop_file) country_code)
    as [pop_info|e2]; [|split; auto].
  destruct (negb (info_asset_id conc_info =? info_asset_id pop_info)%string);
    [unfold raise; split; auto|].
  destruct (negb (info_country conc_info =? info_country pop_info)%string);
    [unfold raise; split; auto|].
  destruct (rasterio_read conc_file) as [conc_src|] eqn:Hcr.
  2:{ unfold rasterio_open. rewrite Hcr. unfold raise. split; auto. }
  rewrite (rasterio_open_run conc_file conc_src s Hcr).
  destruct (rasterio_read pop_file) as [pop_src|] eqn:Hpr.
  2:{ unfold rasterio_open. rewrite Hpr. unfold raise. cbn [cells next io]. split; [|auto].
      intros r Hr. replace (r =? next s) with false by (symmetry; apply Nat.eqb_neq; lia).
      reflexivity. }
  rewrite (rasterio_open_run pop_file pop_src _ Hpr). cbn [cells next io].
  set (s2 := {| cells := _; next := S (S (next s)); io := _ |}).
  assert (forall r, r < next s -> cells s2 r = cells s r) as Hframe2.
  { intros r Hr. unfold s2. cbn [cells].
    replace (r =? S (next s)) with false by (symmetry; apply Nat.eqb_neq; lia).
    replace (r =? next s) with false by (symmetry; apply Nat.eqb_neq; lia).
    reflexivity. }
  assert (io s2 = io s ++ [Opened conc_file; Opened pop_file]) as Hio2
    by (unfold s2; cbn [io]; rewrite <- app_assoc; reflexivity).
  destruct (negb _); [unfold raise; split; auto|].
  destruct (get_asset_centerpoint _ _) as [lon lat].
  pose proof (compute_person_exposure_raster_effects s2 (next s) (S (next s))) as [Hio3 Hframe3].
  destruct (compute_person_exposure_raster (next s) (S (next s)) s2) as [[[raster stats]|e] s3];
    cbn [snd] in Hio3, Hframe3.
  2:{ split; [|right; right; left; congruence].
      intros r Hr. rewrite Hframe3 by (unfold s2; cbn; lia). apply Hframe2, Hr. }
  assert (forall r, r < next s -> cells s3 r = cells s r) as Hframe
    by (intros r Hr; rewrite Hframe3 by (unfold s2; cbn; lia); apply Hframe2, Hr).
  unfold load. cbn [fst snd].
  destruct save_exposure_tiff.
  - unfold save_person_exposure_geotiff, bind, lift, load, emit, ret.
    destruct (os_makedirs output_dir) as [[]|e] eqn:Hmk.
    2:{ split; [exact Hframe|]. right; right; left. congruence. }
    cbn [cells next io fst snd].
    destruct (rasterio_write _ (cells s3 raster)) as [[]|e] eqn:Hw;
      cbn [cells next io files file_person_exposure country asset_id].
    + split; [exact Hframe|]. split; [|reflexivity].
      rewrite Hio3, Hio2, <- !app_assoc. reflexivity.
    + split; [exact Hframe|]. right; right; right.
      split; [reflexivity|]. split; [reflexivity|]. split; [eauto|].
      rewrite Hio3, Hio2, <- !app_assoc. reflexivity.
  - unfold ret. cbn [cells next io files file_person_exposure country asset_id].
    split; [exact Hframe|].
    split; [|reflexivity]. rewrite Hio3, Hio2, app_nil_r. reflexivity.
Qed.

(** X10.  On a pair of float64 rasters that names one asset, whose two
    files can be read, agree in transform and shape and have at least one
    cell, and for which, when asked to save, [os.makedirs] and the write of
    the exposure raster succeed, the pipeline returns a record: identity and
    size come from the concentration file, the three histograms classify the
    two bands as read and the exposure raster, the exposure raster is the
    cell-by-cell product of the two cleaned bands, and the ["0"] bucket of
    the exposure histogram and [non_zero_pixels] split the raster: together
    they count every pixel once.  The two bands in the store are the ones
    read.  (On bands of another dtype numpy computes in that dtype: the
    product of int32 bands wraps around and float32 bands are compared and
    multiplied in float32; the statement does not cover them.) *)
Theorem process_asset_pair_record `{Numpy} `{World}
    (conc_file pop_file : string) (country_code : option string)
    (save_exposure_tiff : bool) (output_dir : string) (s : state)
    (conc_info pop_info : asset_info) (conc_src pop_src : raster_file) :
  let conc := band1 conc_src in
  let pop := band1 pop_src in
  let clean v := if is_valid v then v else 0%float in
  let name :=
    String.append (info_country conc_info)
      (String.append "_" (String.append (info_asset_id conc_info) "_person_exposure.tiff")) in
  extract_asset_info_from_filename (os_path_basename conc_file) country_code = Ok conc_info ->
  extract_asset_info_from_filename (os_path_basename pop_file) country_code = Ok pop_info ->
  info_asset_id conc_info = info_asset_id pop_info ->
  info_country conc_info = info_country pop_info ->
  rasterio_read conc_file = Some conc_src ->
  rasterio_read pop_file = Some pop_src ->
  band_dtype conc_src = "float64" -> band_dtype pop_src = "float64" ->
  affine_eqb (transform conc_src) (transform pop_src) = true ->
  shape conc = shape pop ->
  0 < nrows conc -> 0 < ncols conc ->
  (save_exposure_tiff = true ->
   os_makedirs output_dir = Ok tt /\
   forall product,
     np_multiply (np_where is_valid conc 0%float) (np_where is_valid pop 0%float) = Ok product ->
     rasterio_write (os_path_join output_dir name) product = Ok tt) ->
  exists record stats zeros s',
    process_asset_pair conc_file pop_file country_code save_exposure_tiff output_dir s =
      (Ok record, s') /\
    let exposure := cells s' (next s + 4) in
    asset_id record = info_asset_id conc_info /\
    country record = info_country conc_info /\
    total_pixels record = nrows conc * ncols conc /\
    (center_lon record, center_lat record) =
      rasterio_transform_xy (transform conc_src) (nrows conc / 2) (ncols conc / 2) /\
    asset_crs record = crs conc_src /\
    asset_bounds record = bounds conc_src /\
    script_version record = "1.1.0" /\
    file_concentration (files record) = os_path_basename conc_file /\
    file_population (files record) = os_path_basename pop_file /\
    concentration_pixel_counts record = count_pixels_by_order_of_magnitude conc /\
    population_pixel_counts record = count_pixels_by_order_of_magnitude pop /\
    person_exposure_pixel_counts record = count_pixels_by_order_of_magnitude exposure /\
    shape exposure = shape conc /\
    (forall i j, i < nrows conc -> j < ncols conc ->
       item exposure i j = PrimFloat.mul (clean (item conc i j)) (clean (item pop i j))) /\
    person_exposure_stats record = Some stats /\
    non_zero_pixels stats = count_cells (fun v => PrimFloat.ltb 0 v) exposure /\
    person_exposure_pixel_counts record !! "0" = Some zeros /\
    zeros + non_zero_pixels stats = total_pixels record /\
    cells s' (next s) = conc /\
    cells s' (next s + 1) = pop.
Proof.
  intros conc pop clean name Hci Hpi Hid Hco Hcr Hpr _ _ Haff Hshape Hrows Hcols Hsave.
  subst name. rewrite Hid, Hco in Hsave.
  unfold process_asset_pair, bind, lift. rewrite Hci, Hpi.
  rewrite Hid, Hco, !String.eqb_refl. cbn [negb].
  rewrite (rasterio_open_run conc_file conc_src s Hcr).
  rewrite (rasterio_open_run pop_file pop_src _ Hpr). cbn [cells next io].
  set (s2 := {| cells := _; next := S (S (next s)); io := _ |}).
  assert (cells s2 (next s) = conc) as Hc2.
  { unfold s2. cbn [cells].
    replace (next s =? S (next s)) with false by (symmetry; apply Nat.eqb_neq; lia).
    rewrite Nat.eqb_refl. reflexivity. }
  assert (cells s2 (S (next s)) = pop) as Hp2
    by (unfold s2; cbn [cells]; rewrite Nat.eqb_refl; reflexivity).
  rewrite Haff. fold conc pop. rewrite (proj2 (shape_eqb_iff _ _) Hshape). cbn [andb negb].
  unfold get_asset_centerpoint.
  destruct (shape conc) as [rows cols] eqn:Eshape.
  destruct (rasterio_transform_xy (transform conc_src) (rows / 2) (cols / 2)) as [lon lat] eqn:Exy.
  destruct (np_multiply_same_shape
              (np_where is_valid conc 0%float) (np_where is_valid pop 0%float))
    as (product & Hmul & Hshp & Hitem).
  { cbn [np_where shape]. congruence. }
  destruct (compute_person_exposure_raster_run s2 (next s) (S (next s)) product)
    as (s3 & Hframe3 & Hout3 & Hio3 & Hrun3).
  { unfold s2. cbn [next]. lia. }
  { unfold s2. cbn [next]. lia. }
  { rewrite Hc2, Hp2. exact Hmul. }
  change (shape (np_where is_valid conc 0%float)) with (shape conc) in Hshp.
  change (nrows (np_where is_valid conc 0%float)) with (nrows conc) in Hitem.
  change (ncols (np_where is_valid conc 0%float)) with (ncols conc) in Hitem.
  assert (nrows product = nrows conc /\ ncols product = ncols conc) as [Hnr Hnc]
    by (unfold nrows, ncols; rewrite Hshp; auto).
  destruct (ravel product) as [|v0 rest] eqn:Eravel.
  { exfalso. apply (ravel_nonempty product); [lia|lia|exact Eravel]. }
  rewrite Hrun3. rewrite <- Eravel in *. clear Eravel v0 rest.
  replace (next s2 + 2) with (next s + 4) in * by (unfold s2; cbn [next]; lia).
  assert (forall r, r < S (S (next s)) -> cells s3 r = cells s2 r) as Hkeep
    by (intros r Hr; apply Hframe3; unfold s2; cbn [next]; lia).
  unfold load. cbn [fst snd].
  rewrite (Hkeep (next s)), (Hkeep (S (next s))), Hc2, Hp2, Hout3 by lia.
  assert (Forall (fun v => PrimFloat.is_nan v = false /\ PrimFloat.ltb v 0 = false)
                 (ravel product)) as Hsound.
  { apply List.Forall_forall. intros v Hv. apply in_ravel in Hv.
    destruct Hv as (i & j & Hi & Hj & <-). rewrite Hitem by lia.
    apply cleaned_product_sound. }
  pose proof (zero_bucket_complement (ravel product) Hsound) as Hsplit.
  rewrite length_ravel, Hnr, Hnc in Hsplit.
  destruct save_exposure_tiff;
    [destruct (Hsave eq_refl) as [Hmk Hw];
     unfold save_person_exposure_geotiff, bind, lift, load, emit, ret;
     rewrite Hmk; cbn [fst snd cells next io]; rewrite Hout3, (Hw product Hmul)
    |unfold ret];
    cbn [fst snd cells next io];
    (eexists _, _, (count_cells (fun v => is_valid v && PrimFloat.eqb v 0) product), _;
     split; [reflexivity|]; cbv zeta;
     cbn [asset_id country total_pixels center_lon center_lat asset_crs asset_bounds
          script_version files file_concentration file_population
          concentration_pixel_counts population_pixel_counts person_exposure_pixel_counts
          person_exposure_stats non_zero_pixels cells];
     rewrite Hout3, (Hkeep (next s)) by lia;
     replace (next s + 1) with (S (next s)) by lia;
     rewrite (Hkeep (S (next s))), Hc2, Hp2 by lia;
     unfold nrows, ncols in *; rewrite Eshape in *; cbn [fst snd] in *;
     rewrite ?Exy;
     repeat (split; [reflexivity|]);
     split; [exact Hshp|]; split; [exact Hitem|];
     split; [reflexivity|]; split; [reflexivity|];
     split; [rewrite count_pixels_unfold; cbv zeta; reflexivity|];
     split; [exact Hsplit|]; split; reflexivity).
Qed.

(** X11.  The pipeline returns a record exactly for a pair whose two file
    names parse to the same identifier and country, whose two files can be
    read, whose transforms and shapes are equal, whose raster has at least
    one cell and for which, when it is asked to save, [os.makedirs] and the
    write of the exposure raster succeed; every other call ends in an
    exception. *)
Theorem process_asset_pair_returns_iff `{Numpy} `{World}
    (conc_file pop_file : string) (country_code : option string)
    (save_exposure_tiff : bool) (output_dir : string) (s : state) :
  (exists record,
     fst (process_asset_pair conc_file pop_file country_code save_exposure_tiff output_dir s) =
     Ok record) <->
  (exists conc_info pop_info conc_src pop_src,
     extract_asset_info_from_filename (os_path_basename conc_file) country_code = Ok conc_info /\
     extract_asset_info_from_filename (os_path_basename pop_file) country_code = Ok pop_info /\
     info_asset_id conc_info = info_asset_id pop_info /\
     info_country conc_info = info_country pop_info /\
     rasterio_read conc_file = Some conc_src /\
     rasterio_read pop_file = Some pop_src /\
     affine_eqb (transform conc_src) (transform pop_src) = true /\
     shape (band1 conc_src) = shape (band1 pop_src) /\
     0 < nrows (band1 conc_src) /\ 0 < ncols (band1 conc_src) /\
     (save_exposure_tiff = true ->
      os_makedirs output_dir = Ok tt /\
      forall product,
        np_multiply (np_where is_valid (band1 conc_src) 0%float)
                    (np_where is_valid (band1 pop_src) 0%float) = Ok product ->
        rasterio_write
          (os_path_join output_dir
             (String.append (info_country conc_info)
                (String.append "_"
                   (String.append (info_asset_id conc_info) "_person_exposure.tiff"))))
          product = Ok tt)).
Proof.
  unfold process_asset_pair, bind, lift.
  destruct (extract_asset_info_from_filename (os_path_basename conc_file) country_code)
    as [conc_info|e1].
  2:{ split; [intros (? & [=])|intros (? & ? & ? & ? & [=] & _)]. }
  destruct (extract_asset_info_from_filename (os_path_basename pop_file) country_code)
    as [pop_info|e2].
  2:{ split; [intros (? & [=])|intros (? & ? & ? & ? & _ & [=] & _)]. }
  destruct (String.eqb_spec (info_asset_id conc_info) (info_asset_id pop_info)) as [Hid|Hid];
    cbn [negb].
  2:{ split; [intros (? & [=])|intros (? & ? & ? & ? & [= <-] & [= <-] & ? & _); contradiction]. }
  destruct (String.eqb_spec (info_country conc_info) (info_country pop_info)) as [Hco|Hco];
    cbn [negb].
  2:{ split; [intros (? & [=])|].
      intros (? & ? & ? & ? & [= <-] & [= <-] & _ & ? & _); contradiction. }
  destruct (rasterio_read conc_file) as [conc_src|] eqn:Hcr.
  2:{ unfold rasterio_open. rewrite Hcr.
      split; [intros (? & [=])|intros (? & ? & ? & ? & _ & _ & _ & _ & [=] & _)]. }
  rewrite (rasterio_open_run conc_file conc_src s Hcr).
  destruct (rasterio_read pop_file) as [pop_src|] eqn:Hpr.
  2:{ unfold rasterio_open. rewrite Hpr.
      split; [intros (? & [=])|intros (? & ? & ? & ? & _ & _ & _ & _ & _ & [=] & _)]. }
  rewrite (rasterio_open_run pop_file pop_src _ Hpr). cbn [cells next io].
  set (s2 := {| cells := _; next := S (S (next s)); io := _ |}).
  assert (cells s2 (next s) = band1 conc_src) as Hc2.
  { unfold s2. cbn [cells].
    replace (next s =? S (next s)) with false by (symmetry; apply Nat.eqb_neq; lia).
    rewrite Nat.eqb_refl. reflexivity. }
  assert (cells s2 (S (next s)) = band1 pop_src) as Hp2
    by (unfold s2; cbn [cells]; rewrite Nat.eqb_refl; reflexivity).
  destruct (affine_eqb (transform conc_src) (transform pop_src)) eqn:Haff; cbn [andb negb].
  2:{ split; [intros (? & [=])|].
      intros (? & ? & ? & ? & _ & _ & _ & _ & [= <-] & [= <-] & ? & _); congruence. }
  destruct (shape_eqb (shape (band1 conc_src)) (shape (band1 pop_src))) eqn:Hshape;
    cbn [negb].
  2:{ split; [intros (? & [=])|].
      intros (? & ? & ? & ? & _ & _ & _ & _ & [= <-] & [= <-] & _ & Hs & _).
      apply shape_eqb_iff in Hs. congruence. }
  apply shape_eqb_iff in Hshape.
  destruct (get_asset_centerpoint _ _) as [lon lat].
  destruct (np_multiply_same_shape
              (np_where is_valid (band1 conc_src) 0%float)
              (np_where is_valid (band1 pop_src) 0%float) Hshape)
    as (product & Hmul & Hshp & _).
  destruct (compute_person_exposure_raster_run s2 (next s) (S (next s)) product)
    as (s3 & _ & Hout3 & _ & Hrun3).
  { unfold s2. cbn [next]. lia. }
  { unfold s2. cbn [next]. lia. }
  { rewrite Hc2, Hp2. exact Hmul. }
  change (shape (np_where is_valid (band1 conc_src) 0%float))
    with (shape (band1 conc_src)) in Hshp.
  pose proof (length_ravel product) as Hlen.
  unfold nrows, ncols in *. rewrite Hshp in Hlen.
  rewrite Hrun3. destruct (ravel product) as [|v0 rest]; cbn [length] in Hlen.
  { split; [intros (? & [=])|].
    intros (? & ? & ? & ? & _ & _ & _ & _ & [= <-] & _ & _ & _ & Hr & Hcol & _). nia. }
  unfold load. cbn [fst snd].
  destruct save_exposure_tiff.
  2:{ unfold ret. cbn [fst snd]. split.
      - intros _. exists conc_info, pop_info, conc_src, pop_src.
        repeat (split; [first [reflexivity|assumption]|]).
        split; [nia|]. split; [nia|]. discriminate.
      - intros _. eexists; reflexivity. }
  unfold save_person_exposure_geotiff, bind, lift, load, emit, ret.
  destruct (os_makedirs output_dir) as [[]|e] eqn:Hmk.
  2:{ split; [intros (? & [=])|].
      intros (? & ? & ? & ? & _ & _ & _ & _ & _ & _ & _ & _ & _ & _ & Hsave).
      destruct (Hsave eq_refl) as [Hmk' _]. discriminate. }
  cbn [fst snd cells next io]. rewrite Hout3.
  destruct (rasterio_write _ product) as [[]|e] eqn:Hw.
  - split; [|intros _; eexists; reflexivity].
    intros _. exists conc_info, pop_info, conc_src, pop_src.
    repeat (split; [first [reflexivity|assumption]|]).
    split; [nia|]. split; [nia|]. intros _. split; [reflexivity|].
    intros product' Hmul'. rewrite Hmul in Hmul'. injection Hmul' as <-. exact Hw.
  - split; [intros (? & [=])|].
    intros (? & ? & ? & ? & [= <-] & _ & _ & _ & [= <-] & [= <-] & _ & _ & _ & _ & Hsave).
    destruct (Hsave eq_refl) as [_ Hw']. rewrite (Hw' product Hmul) in Hw. discriminate.
Qed.

(* ================================================================== *)
(** * The catalogue                                                    *)
(* ================================================================== *)

(** ** The aggregator on complete records *)

(** On complete records the aggregator returns: the empty mapping when no
    record carries statistics, and otherwise the two summaries, built from
    the collected values. *)
Lemma calculate_exposure_distribution_stats_run `{Numpy} (asset_results : list asset_record) :
  exists stats,
    calculate_exposure_distribution_stats asset_results = Ok stats /\
    (max_values asset_results = [] -> stats = ∅) /\
    (max_values asset_results <> [] ->
     exists max_stats total_stats : gmap string pynum,
       stats = <["max_person_exposure_stats" := max_stats]>
                 (<["total_person_exposure_stats" := total_stats]> ∅) /\
       max_stats !! "count" = Some (PyInt (Z.of_nat (length (max_values asset_results)))) /\
       total_stats !! "count" = Some (PyInt (Z.of_nat (length (max_values asset_results)))) /\
       max_stats !! "min" = Some (PyFloat (np_amin (max_values asset_results))) /\
       max_stats !! "max" = Some (PyFloat (np_amax (max_values asset_results))) /\
       total_stats !! "min" = Some (PyFloat (np_amin (total_values asset_results))) /\
       total_stats !! "max" = Some (PyFloat (np_amax (total_values asset_results))) /\
       total_stats !! "sum_all_assets" = Some (PyFloat (np_sum (total_values asset_results))) /\
       max_stats !! "sum_all_assets" = None /\
       total_stats !! "percentile_90" = None).
Proof.
  unfold calculate_exposure_distribution_stats. rewrite collect_exposures_values.
  assert (length (total_values asset_results) = length (max_values asset_results)) as Hlen
    by (unfold total_values, max_values; rewrite !length_map; reflexivity).
  destruct (max_values asset_results) as [|m ms] eqn:Em.
  - eexists. split; [reflexivity|]. split; [reflexivity|]. intros []. reflexivity.
  - destruct (total_values asset_results) as [|t ts] eqn:Et; [discriminate|].
    unfold np_min, np_max. eexists. split; [reflexivity|]. split; [discriminate|].
    intros _. eexists _, _. split; [reflexivity|].
    rewrite Hlen. repeat split.
Qed.

(** X12.  On a list of complete records, each either without a
    ['person_exposure_stats'] entry or with one that carries its numbers,
    the aggregator returns: the guard on the collected values keeps
    [np.min] and [np.max] away from an empty array.  The result is the empty
    mapping when no record carries statistics and otherwise exactly the two
    summaries; every summary counts the records that carry statistics,
    whatever their values, and only the summary of the totals has the sum
    over all assets.  (A record whose statistics are [null] or lack a key
    makes the code raise; such records are outside the statement.) *)
Theorem calculate_exposure_distribution_stats_summaries `{Numpy}
    (asset_results : list asset_record) :
  let counted := length (omap person_exposure_stats asset_results) in
  exists stats,
    calculate_exposure_distribution_stats asset_results = Ok stats /\
    dom stats =
      (if counted =? 0 then ∅
       else {[ "max_person_exposure_stats"; "total_person_exposure_stats" ]} : gset string) /\
    (forall name summary, stats !! name = Some summary ->
       summary !! "count" = Some (PyInt (Z.of_nat counted)) /\
       counted <= length asset_results /\
       (summary !! "sum_all_assets" <> None <-> name = "total_person_exposure_stats") /\
       (name = "total_person_exposure_stats" ->
        summary !! "sum_all_assets" =
        Some (PyFloat (np_sum (map total_person_exposure
                                   (omap person_exposure_stats asset_results)))))).
Proof.
  intros counted.
  destruct (calculate_exposure_distribution_stats_run asset_results)
    as (stats & Hrun & Hnone & Hsome).
  assert (length (max_values asset_results) = counted) as Hlen
    by (unfold max_values; apply length_map).
  assert (counted <= length asset_results) as Hle.
  { unfold counted. clear. induction asset_results as [|a l IH]; [reflexivity|].
    cbn. destruct (person_exposure_stats a); cbn; lia. }
  exists stats. split; [exact Hrun|].
  destruct (max_values asset_results) as [|m ms] eqn:Em.
  - rewrite (Hnone eq_refl). cbn in Hlen. rewrite <- Hlen. cbn [Nat.eqb].
    split; [apply dom_empty_L|]. intros name summary Hin.
    rewrite lookup_empty in Hin. discriminate.
  - destruct (Hsome ltac:(discriminate))
      as (max_stats & total_stats & -> & Hc1 & Hc2 & _ & _ & _ & _ & Hsum & Hnosum & _).
    rewrite <- Hlen in Hle |- *. cbn [length Nat.eqb] in Hle |- *. split.
    + rewrite !dom_insert_L, dom_empty_L. set_solver.
    + intros name summary Hin.
      destruct (decide (name = "max_person_exposure_stats")) as [->|Hn1].
      { rewrite fin_maps.lookup_insert_eq in Hin. injection Hin as <-.
        split; [exact Hc1|]. split; [exact Hle|].
        split; [|discriminate]. rewrite Hnosum. split; [congruence|discriminate]. }
      rewrite fin_maps.lookup_insert_ne in Hin by congruence.
      destruct (decide (name = "total_person_exposure_stats")) as [->|Hn2].
      { rewrite fin_maps.lookup_insert_eq in Hin. injection Hin as <-.
        split; [exact Hc2|]. split; [exact Hle|].
        split; [rewrite Hsum; split; [reflexivity|discriminate]|].
        intros _. exact Hsum. }
      rewrite fin_maps.lookup_insert_ne, lookup_empty in Hin by congruence. discriminate.
Qed.

(** ** The catalogue document *)

(** Two different strings in order are in strict order. *)
Lemma string_le_lt (a b : string) : String.le a b -> a <> b -> String.ltb a b = true.
Proof.
  unfold String.le, String.leb, String.ltb. intros Hle Hne.
  destruct (String.compare a b) eqn:E; [|reflexivity|destruct Hle].
  apply String.compare_eq_iff in E. contradiction.
Qed.

(** [sorted(list(set(names)))] lists every name once, in strictly increasing
    order. *)
Lemma sorted_set_spec (names : list string) :
  (forall name, In name (sorted_set names) <-> In name names) /\
  StronglySorted (fun a b => String.ltb a b = true) (sorted_set names) /\
  List.NoDup (sorted_set names).
Proof.
  unfold sorted_set.
  set (listed := elements (list_to_set names : gset string)).
  assert (base.NoDup listed) as Hnd by apply NoDup_elements.
  assert (forall name, name ∈ listed <-> In name names) as Hin.
  { intros name. unfold listed. rewrite elem_of_elements, elem_of_list_to_set.
    apply list_elem_of_In. }
  pose proof (merge_sort_Permutation String.le listed) as Hperm.
  assert (base.NoDup (merge_sort String.le listed)) as Hnd' by (rewrite Hperm; exact Hnd).
  split; [|split].
  - intros name. rewrite <- Hin, <- list_elem_of_In, Hperm. reflexivity.
  - pose proof (StronglySorted_merge_sort String.le listed) as Hs.
    clear Hperm. induction Hs as [|a l Hs IH Hall]; [constructor|].
    apply NoDup_cons in Hnd'. destruct Hnd' as [Ha Hl].
    constructor; [apply IH, Hl|].
    apply List.Forall_forall. intros b Hb.
    apply string_le_lt.
    + rewrite List.Forall_forall in Hall. apply Hall, Hb.
    + intros ->. apply Ha, list_elem_of_In, Hb.
  - apply NoDup_ListNoDup, Hnd'.
Qed.

(** X13.  For a list of complete records, each with its ['country'] and
    with statistics that are absent or carry their numbers, the catalogue
    document carries the records unchanged, their number, the countries that
    occur, each once and in strictly increasing order, the data and script
    versions, and the summaries of the aggregator under their own two names;
    the update with the summaries replaces none of the five entries.  (A
    record without ['country'] makes the code raise [KeyError]; such records
    are outside the statement.) *)
Theorem create_assets_json_metadata `{Numpy} `{World} (asset_results : list asset_record) :
  exists document countries exposure_stats,
    create_assets_json asset_results = Ok document /\
    calculate_exposure_distribution_stats asset_results = Ok exposure_stats /\
    assets document = asset_results /\
    metadata document !! "total_assets" =
      Some (MetaInt (Z.of_nat (length asset_results))) /\
    metadata document !! "countries" = Some (MetaStrings countries) /\
    (forall c, In c countries <-> exists a, In a asset_results /\ country a = c) /\
    StronglySorted (fun a b => String.ltb a b = true) countries /\
    length countries <= length asset_results /\
    metadata document !! "data_version" = Some (MetaStr "v2") /\
    metadata document !! "script_version" = Some (MetaStr "1.1.0") /\
    metadata document !! "processed_date" =
      Some (MetaStr (String.append utcnow_isoformat "Z")) /\
    metadata document !! "max_person_exposure_stats" =
      MetaStats <$> exposure_stats !! "max_person_exposure_stats" /\
    metadata document !! "total_person_exposure_stats" =
      MetaStats <$> exposure_stats !! "total_person_exposure_stats" /\
    dom (metadata document) =
      {[ "processed_date"; "total_assets"; "countries"; "data_version"; "script_version" ]}
      ∪ dom exposure_stats.
Proof.
  destruct (calculate_exposure_distribution_stats_run asset_results)
    as (stats & Hrun & Hnone & Hsome).
  destruct (sorted_set_spec (map country asset_results)) as (Hin & Hsorted & Hnodup).
  unfold create_assets_json. rewrite Hrun.
  eexists _, (sorted_set (map country asset_results)), stats.
  split; [reflexivity|]. split; [reflexivity|]. cbn [assets metadata].
  assert (length (sorted_set (map country asset_results)) <= length asset_results) as Hlen.
  { rewrite <- (length_map country asset_results).
    apply List.NoDup_incl_length; [exact Hnodup|]. intros c Hc. apply Hin, Hc. }
  assert (forall c, In c (sorted_set (map country asset_results)) <->
                    exists a, In a asset_results /\ country a = c) as Hc.
  { intros c. rewrite Hin, in_map_iff. split; intros (a & H1 & H2); eauto. }
  unfold dict_update.
  destruct (max_values asset_results) as [|m ms].
  - rewrite (Hnone eq_refl), fmap_empty, (left_id_L ∅ (∪)).
    repeat (split; [first [reflexivity|assumption]|]).
    rewrite dom_empty_L, (right_id_L ∅ (∪)).
    cbn [list_to_map foldr uncurry]. rewrite !dom_insert_L, dom_empty_L. set_solver.
  - destruct (Hsome ltac:(discriminate)) as (max_stats & total_stats & -> & _).
    rewrite !fmap_insert, fmap_empty.
    repeat (split; [first [reflexivity|assumption]|]).
    cbn [list_to_map foldr uncurry].
    rewrite dom_union_L, !dom_insert_L, !dom_empty_L. set_solver.
Qed.

(** ** The incremental check *)

Lemma eq_str_true v s : eq_str v s = true <-> v = JStr s.
Proof.
  destruct v; cbn; try (split; [discriminate|intros [=]]).
  rewrite String.eqb_eq. split; [intros ->; reflexivity|intros [=]; assumption].
Qed.

Lemma eq_str_false v s : eq_str v s = false <-> v <> JStr s.
Proof.
  rewrite <- eq_str_true. destruct (eq_str v s); split; congruence.
Qed.

(** The loop stops at the first entry that names the asset. *)
Lemma find_existing_asset_found country asset_id existing_assets entry :
  find_existing_asset country asset_id existing_assets = Returns (Some entry) ->
  exists before d after,
    existing_assets = before ++ JDict d :: after /\
    entry = JDict d /\
    d !! "asset_id" = Some (JStr asset_id) /\
    d !! "country" = Some (JStr country).
Proof.
  induction existing_assets as [|asset rest IH]; [discriminate|].
  cbn [find_existing_asset]. unfold mbind, fallible_bind, subscript.
  destruct asset as [| | | | |d]; try discriminate.
  destruct (d !! "asset_id") as [id|] eqn:Eid; [|discriminate].
  assert (find_existing_asset country asset_id rest = Returns (Some entry) ->
          exists before d0 after,
            JDict d :: rest = before ++ JDict d0 :: after /\ entry = JDict d0 /\
            d0 !! "asset_id" = Some (JStr asset_id) /\
            d0 !! "country" = Some (JStr country)) as Hrest.
  { intros Hfind. destruct (IH Hfind) as (before & d0 & after & -> & Hrest).
    exists (JDict d :: before), d0, after. split; [reflexivity|exact Hrest]. }
  destruct (eq_str id asset_id) eqn:Ea; [|exact Hrest].
  destruct (d !! "country") as [c|] eqn:Ec; [|discriminate].
  destruct (eq_str c country) eqn:Ecc; [|exact Hrest].
  intros [= <-]. apply eq_str_true in Ea, Ecc. subst.
  exists [], d, rest. repeat split; assumption.
Qed.

(** The entries in front of the asset's own are passed over. *)
Lemma find_existing_asset_app country asset_id before rest :
  Forall (fun entry =>
            exists d id, entry = JDict d /\ d !! "asset_id" = Some id /\
              (id <> JStr asset_id \/
               exists c, d !! "country" = Some c /\ c <> JStr country)) before ->
  find_existing_asset country asset_id (before ++ rest) =
  find_existing_asset country asset_id rest.
Proof.
  induction 1 as [|entry before (d & id & -> & Hid & Hother) _ IH]; [reflexivity|].
  cbn [app find_existing_asset]. unfold mbind, fallible_bind, subscript. rewrite Hid.
  destruct Hother as [Hne|(c & Hc & Hne)].
  - apply eq_str_false in Hne. rewrite Hne. exact IH.
  - rewrite Hc. apply eq_str_false in Hne. rewrite Hne.
    destruct (eq_str id asset_id); exact IH.
Qed.

Lemma find_existing_asset_here country asset_id d after :
  d !! "asset_id" = Some (JStr asset_id) ->
  d !! "country" = Some (JStr country) ->
  find_existing_asset country asset_id (JDict d :: after) = Returns (Some (JDict d)).
Proof.
  intros Hid Hc. cbn [find_existing_asset]. unfold mbind, fallible_bind, subscript.
  rewrite Hid, Hc. cbn [eq_str]. rewrite !String.eqb_refl. reflexivity.
Qed.

(** A dictionary with an entry is truthy. *)
Lemma truthy_dict d key (v : json) : d !! key = Some v -> truthy (JDict d) = true.
Proof.
  intros Hk. cbn. apply negb_true_iff, bool_decide_eq_false. intros ->.
  rewrite lookup_empty in Hk. discriminate.
Qed.

(** X14.  An asset is skipped only if the catalogue has it: when the check
    answers False, some entry names the asset; that entry records a script
    version, a string that is not below "1.1.0"; and if it records a
    non-empty exposure file name, that file exists under ['processed']. *)
Theorem needs_processing_false `{World} `{FileSystem}
    (country asset_id : string) (existing_assets : list json) :
  needs_processing country asset_id existing_assets = Returns false ->
  exists before d after version,
    existing_assets = before ++ JDict d :: after /\
    d !! "asset_id" = Some (JStr asset_id) /\
    d !! "country" = Some (JStr country) /\
    d !! "script_version" = Some (JStr version) /\
    String.ltb version "1.1.0" = false /\
    (forall recorded name,
       d !! "files" = Some (JDict recorded) ->
       recorded !! "person_exposure" = Some (JStr name) ->
       name <> "" ->
       os_path_exists (os_path_join "processed" name) = true).
Proof.
  unfold needs_processing. unfold mbind at 1. unfold fallible_bind at 1.
  destruct (find_existing_asset country asset_id existing_assets) as [[entry|]|e] eqn:Efind;
    [|discriminate|discriminate].
  destruct (find_existing_asset_found _ _ _ _ Efind) as (before & d & after & -> & -> & Hid & Hc).
  rewrite (truthy_dict d _ _ Hid). cbn [negb].
  unfold mbind, fallible_bind, mret, fallible_ret, dict_get, lt_str.
  destruct (d !! "script_version") as [v|] eqn:Ev; cbn [default from_option id].
  2:{ change (String.ltb "1.0.0" SCRIPT_VERSION) with true. cbv iota. discriminate. }
  destruct v as [| | |version| |]; try discriminate.
  destruct (String.ltb version SCRIPT_VERSION) eqn:Eolder; cbv iota; [discriminate|].
  intros Hrun. exists before, d, after, version.
  repeat (split; [first [reflexivity|assumption]|]).
  intros recorded name Hfiles Hname Hne.
  rewrite Hfiles in Hrun. cbn [default from_option id] in Hrun. rewrite Hname in Hrun. cbn [default from_option id truthy] in Hrun.
  apply String.eqb_neq in Hne. rewrite Hne in Hrun. cbn [negb] in Hrun.
  destruct (os_path_exists (os_path_join "processed" name)); [reflexivity|discriminate].
Qed.

(** X15.  An asset that no entry of the catalogue names is processed: when
    every entry is a dictionary with an ['asset_id'] that differs from the
    asset's, or with the asset's identifier and a ['country'] that differs,
    the check answers True.  The empty catalogue is the first case. *)
Theorem needs_processing_new_asset `{World} `{FileSystem}
    (country asset_id : string) (existing_assets : list json) :
  Forall (fun entry =>
            exists d id, entry = JDict d /\ d !! "asset_id" = Some id /\
              (id <> JStr asset_id \/
               exists c, d !! "country" = Some c /\ c <> JStr country))
         existing_assets ->
  needs_processing country asset_id existing_assets = Returns true.
Proof.
  intros Hothers. unfold needs_processing.
  rewrite <- (app_nil_r existing_assets), (find_existing_asset_app _ _ _ [] Hothers).
  reflexivity.
Qed.

(** X16.  The first entry that names the asset decides, and the entries
    behind it are never looked at.  The asset is processed again when that
    entry has no ['script_version'] (it counts as "1.0.0") or one that is
    below "1.1.0" as a string; a version that is not a string is a
    [TypeError].  With a current version the asset is skipped when the entry
    records no exposure file (no ['files'], no name, [null] or an empty
    name); when it records one, the asset is skipped exactly if that file
    exists under ['processed']. *)
Theorem needs_processing_recorded_asset `{World} `{FileSystem}
    (country asset_id : string) (before after : list json) (d : gmap string json) :
  Forall (fun entry =>
            exists d id, entry = JDict d /\ d !! "asset_id" = Some id /\
              (id <> JStr asset_id \/
               exists c, d !! "country" = Some c /\ c <> JStr country))
         before ->
  d !! "asset_id" = Some (JStr asset_id) ->
  d !! "country" = Some (JStr country) ->
  let answer := needs_processing country asset_id (before ++ JDict d :: after) in
  (d !! "script_version" = None -> answer = Returns true) /\
  (forall version, d !! "script_version" = Some (JStr version) ->
     String.ltb version "1.1.0" = true -> answer = Returns true) /\
  (forall v, d !! "script_version" = Some v -> (forall version, v <> JStr version) ->
     answer = Throws TypeError) /\
  (forall version, d !! "script_version" = Some (JStr version) ->
     String.ltb version "1.1.0" = false ->
     (d !! "files" = None -> answer = Returns false) /\
     (forall recorded, d !! "files" = Some (JDict recorded) ->
        (recorded !! "person_exposure" = None \/
         recorded !! "person_exposure" = Some JNull \/
         recorded !! "person_exposure" = Some (JStr "") -> answer = Returns false) /\
        (forall name, recorded !! "person_exposure" = Some (JStr name) -> name <> "" ->
           answer = Returns (negb (os_path_exists (os_path_join "processed" name)))))).
Proof.
  intros Hothers Hid Hc answer.
  assert (answer =
          (existing_version ← dict_get (JDict d) "script_version" (JStr "1.0.0");
           older ← lt_str existing_version SCRIPT_VERSION;
           if older : bool then mret true
           else
             files ← dict_get (JDict d) "files" (JDict ∅);
             exposure_file ← dict_get files "person_exposure" JNull;
             if truthy exposure_file then
               match exposure_file with
               | JStr name =>
                   if negb (os_path_exists (os_path_join "processed" name))
                   then mret true else mret false
               | _ => Throws TypeError
               end
             else mret false)) as ->.
  { unfold answer, needs_processing.
    rewrite (find_existing_asset_app _ _ _ _ Hothers),
            (find_existing_asset_here _ _ _ _ Hid Hc).
    unfold mbind at 1. unfold fallible_bind at 1.
    rewrite (truthy_dict d _ _ Hid). reflexivity. }
  unfold mbind, fallible_bind, mret, fallible_ret, dict_get, lt_str.
  change SCRIPT_VERSION with "1.1.0".
  split; [|split; [|split]].
  - intros ->. reflexivity.
  - intros version -> Holder. cbn [default from_option id]. rewrite Holder. reflexivity.
  - intros v -> Hv. cbn [default from_option id].
    destruct v; try reflexivity. exfalso. eapply Hv. reflexivity.
  - intros version -> Holder. cbn [default from_option id]. rewrite Holder. split.
    + intros ->. reflexivity.
    + intros recorded ->. cbn [default from_option id]. split.
      * intros [-> | [-> | ->]]; reflexivity.
      * intros name -> Hne. cbn [default from_option id truthy].
        apply String.eqb_neq in Hne. rewrite Hne. cbn [negb].
        destruct (os_path_exists _); reflexivity.
Qed.

(* ================================================================== *)
(** * The model on concrete inputs                                     *)
(* ================================================================== *)

#[local] Existing Instance Example.numpy.

(** The scenario of the exposure engine: concentration [[10,0],[0,5]] and
    population [[2,3],[4,0]] give the exposure [[20,0],[0,0]]. *)
Example exposure_scenario :
  let '(outcome, s') :=
    compute_person_exposure_raster 0 1 (Example.store Example.concentration Example.population) in
  exists raster stats,
    outcome = Ok (raster, stats) /\
    ravel (cells s' raster) = [20; 0; 0; 0]%float /\
    total_person_exposure stats = 20%float /\
    max_person_exposure stats = 20%float /\
    non_zero_pixels stats = 1 /\
    non_zero_mean stats = 20%float /\
    cells s' 0 = Example.concentration /\ cells s' 1 = Example.population.
Proof. vm_compute. eexists _, _. repeat split. Qed.

(** C1 as stated fails on a pair of equal-shaped arrays without cells: the
    call does not return the product, [np.max] raises on the empty raster. *)
Lemma compute_person_exposure_raster_raises_on_empty_pair :
  shape Example.no_rows = shape Example.no_rows /\
  fst (compute_person_exposure_raster 0 1 (Example.store Example.no_rows Example.no_rows)) =
  Raise (ValueError "zero-size array to reduction operation maximum which has no identity").
Proof. split; reflexivity. Qed.

Lemma compute_person_exposure_raster_product_witness :
  let s := Example.store Example.concentration Example.population in
  let conc := cells s 0 in
  let pop := cells s 1 in
  let clean v :=
    if negb (PrimFloat.is_finite v) || PrimFloat.ltb v 0 then 0%float else v in
  (0 < next s /\ 1 < next s /\ shape conc = shape pop /\ 0 < nrows conc /\ 0 < ncols conc) /\
  exists raster stats s',
    compute_person_exposure_raster 0 1 s = (Ok (raster, stats), s') /\
    (forall r, r < next s -> cells s' r = cells s r) /\
    next s <= raster /\
    shape (cells s' raster) = shape conc /\
    (forall i j, i < nrows conc -> j < ncols conc ->
       item (cells s' raster) i j =
         PrimFloat.mul (clean (item conc i j)) (clean (item pop i j)) /\
       PrimFloat.is_nan (item (cells s' raster) i j) = false /\
       PrimFloat.ltb (item (cells s' raster) i j) 0 = false) /\
    total_person_exposure stats = np_sum (ravel (cells s' raster)) /\
    Forall (fun v => PrimFloat.is_nan v = false /\ PrimFloat.ltb v 0 = false)
           (ravel (cells s' raster)).
Proof.
  cbv zeta. split; [cbn; repeat split; lia|].
  apply (compute_person_exposure_raster_product
           (Example.store Example.concentration Example.population) 0 1);
    cbn; first [lia | reflexivity].
Defined.

(** C5 as stated fails on a pair without cells: the empty reduction raises
    before any statistics are returned. *)
Lemma compute_person_exposure_raster_no_stats_without_cells :
  shape Example.no_columns = (2, 0) /\
  fst (compute_person_exposure_raster 0 1 (Example.store Example.no_columns Example.no_columns)) =
  Raise (ValueError "zero-size array to reduction operation maximum which has no identity").
Proof. split; reflexivity. Qed.

Lemma compute_person_exposure_raster_stats_witness :
  let s := Example.store Example.concentration Example.population in
  let conc := cells s 0 in
  let pop := cells s 1 in
  (0 < next s /\ 1 < next s /\
   broadcast_dim (nrows conc) (nrows pop) = Some 2 /\
   broadcast_dim (ncols conc) (ncols pop) = Some 2) /\
  exists raster stats s',
    compute_person_exposure_raster 0 1 s = (Ok (raster, stats), s') /\
    let values := ravel (cells s' raster) in
    let positive := List.filter (fun v => PrimFloat.ltb 0 v) values in
    shape (cells s' raster) = (2, 2) /\
    length values = 2 * 2 /\
    total_person_exposure stats = np_sum values /\
    mean_person_exposure stats = np_mean values /\
    std_person_exposure stats = np_std values /\
    max_person_exposure stats = np_amax values /\
    min_person_exposure stats = np_amin values /\
    non_zero_pixels stats = length positive /\
    (positive = [] -> non_zero_mean stats = 0%float) /\
    (positive <> [] -> non_zero_mean stats = np_mean positive).
Proof.
  cbv zeta. split; [cbn; repeat split; lia|].
  apply (compute_person_exposure_raster_stats
           (Example.store Example.concentration Example.population) 0 1 2 2);
    cbn; first [lia | reflexivity].
Defined.

(** C2 as stated fails on a float32 array: the cell [float32(0.01)] is
    finite and positive and lies in [0.001, 0.01), the range of the label
    "0.001-0.01", yet the classifier compares it with the bounds converted
    to float32 and counts it under "0.01-0.1". *)
Lemma count_pixels_by_order_of_magnitude_float32_bound :
  let v := item Example.float32_cell 0 0 in
  let counts := count_pixels_by_order_of_magnitude_as Float32 Example.float32_cell in
  v = round_to 24 128 0.01 /\
  round_to 24 128 v = v /\
  is_valid v = true /\
  PrimFloat.leb 0.001 v && PrimFloat.ltb v 0.01 = true /\
  counts !! "0.001-0.01" = Some 0 /\
  counts !! "0.01-0.1" = Some 1.
Proof. vm_compute. repeat split. Qed.



Lemma process_asset_pair_rejects_misaligned_witness :
  let W := Example.world Example.shifted_pop_tiff in
  let conc_file := "BRA/1566447-v2.tiff" in
  let pop_file := "BRA/1566447-pop-v2.tiff" in
  let s := Example.empty_store in
  (@rasterio_read W conc_file = Some Example.conc_tiff /\
   @rasterio_read W pop_file = Some Example.shifted_pop_tiff /\
   affine_eqb (transform Example.conc_tiff) (transform Example.shifted_pop_tiff) = false) /\
  let '(outcome, s') :=
    @process_asset_pair Example.numpy W conc_file pop_file (Some "BRA") true "processed" s in
  ((exists e, outcome = Raise e) /\
   next s' <= next s + 2 /\
   (forall r, r < next s -> cells s' r = cells s r) /\
   (forall path, In (Written path) (io s') -> In (Written path) (io s))) /\
  outcome = Raise AlignmentError /\
  io s' = io s ++ [Opened conc_file; Opened pop_file] /\
  next s' = next s + 2 /\
  cells s' (next s) = band1 Example.conc_tiff /\
  cells s' (next s + 1) = band1 Example.shifted_pop_tiff.
Proof.
  cbv zeta. split; [repeat split|].
  pose proof (@process_asset_pair_rejects_misaligned
                Example.numpy (Example.world Example.shifted_pop_tiff)
                "BRA/1566447-v2.tiff" "BRA/1566447-pop-v2.tiff" (Some "BRA") true "processed"
                Example.empty_store Example.conc_tiff Example.shifted_pop_tiff
                eq_refl eq_refl (or_intror eq_refl)) as Hrun.
  destruct (@process_asset_pair _ _ _ _ _ _ _ _) as [outcome s'].
  destruct Hrun as [Hnever Hnamed].
  split; [exact Hnever|].
  exact (Hnamed
           {| info_asset_id := "1566447"; info_country := "BRA"; info_suffix := "concentration" |}
           {| info_asset_id := "1566447"; info_country := "BRA"; info_suffix := "pop" |}
           eq_refl eq_refl eq_refl eq_refl).
Defined.

(** The same pair on one grid goes through: the exposure raster is written. *)
Example process_asset_pair_aligned :
  let '(outcome, s') :=
    @process_asset_pair Example.numpy (Example.world Example.pop_tiff)
      "BRA/1566447-v2.tiff" "BRA/1566447-pop-v2.tiff" (Some "BRA") true "processed"
      Example.empty_store in
  (exists record, outcome = Ok record /\
     person_exposure_pixel_counts record !! "10-100" = Some 1 /\
     person_exposure_pixel_counts record !! "0" = Some 3) /\
  io s' = [Opened "BRA/1566447-v2.tiff"; Opened "BRA/1566447-pop-v2.tiff";
           MadeDirs "processed";
           Written "processed/BRA_1566447_person_exposure.tiff"].
Proof. vm_compute. split; [eexists; repeat split|reflexivity]. Qed.

(** Where the GeoTIFF cannot be written the pair ends in the exception of
    the write: the directory call has completed, no write is recorded. *)
Example process_asset_pair_cannot_write :
  let '(outcome, s') :=
    @process_asset_pair Example.numpy (Example.read_only_world Example.pop_tiff)
      "BRA/1566447-v2.tiff" "BRA/1566447-pop-v2.tiff" (Some "BRA") true "processed"
      Example.empty_store in
  outcome = Raise (RasterioIOError "processed/BRA_1566447_person_exposure.tiff") /\
  io s' = [Opened "BRA/1566447-v2.tiff"; Opened "BRA/1566447-pop-v2.tiff";
           MadeDirs "processed"].
Proof. vm_compute. split; reflexivity. Qed.

(** C7 as stated fails on a cell inside the gap: it is finite and
    non-negative, and no bucket counts it. *)
Lemma histogram_total_misses_gap_cell :
  histogram_total (count_pixels_by_order_of_magnitude Example.gap_cell) = 0 /\
  count_cells is_valid Example.gap_cell = 1.
Proof. split; vm_compute; reflexivity. Qed.

(** C8 as stated fails: four of the five values are counted, not three. *)
Lemma magnitudes_total_is_not_three :
  histogram_total (count_pixels_by_order_of_magnitude Example.magnitudes) = 4 /\
  histogram_total (count_pixels_by_order_of_magnitude Example.magnitudes) <> 3.
Proof. split; vm_compute; [reflexivity|discriminate]. Qed.

(** C8, amended.  Classifying [0, 0.0005, 0.005, 50, 50000] counts 0 in
    ["0"], 0.005 in ["0.001-0.01"], 50 in ["10-100"] and 50000 in
    ["10000+"]; 0.0005 is in no bucket; the nine counts add up to 4, three
    of them in the ranges above zero. *)
Theorem magnitudes_classified :
  let counts := count_pixels_by_order_of_magnitude Example.magnitudes in
  ravel Example.magnitudes = [0; 0.0005; 0.005; 50; 50000]%float /\
  counts !! "0" = Some 1 /\
  counts !! "0.001-0.01" = Some 1 /\
  counts !! "0.01-0.1" = Some 0 /\
  counts !! "0.1-1" = Some 0 /\
  counts !! "1-10" = Some 0 /\
  counts !! "10-100" = Some 1 /\
  counts !! "100-1000" = Some 0 /\
  counts !! "1000-10000" = Some 0 /\
  counts !! "10000+" = Some 1 /\
  histogram_total counts = 4 /\
  histogram_total (delete "0" counts) = 3 /\
  histogram_total (count_pixels_by_order_of_magnitude Example.gap_cell) = 0 /\
  count_pixels_by_order_of_magnitude (of_rows 1 [[0.005]]%float) !! "0.001-0.01" = Some 1 /\
  count_pixels_by_order_of_magnitude (of_rows 1 [[50]]%float) !! "10-100" = Some 1 /\
  count_pixels_by_order_of_magnitude (of_rows 1 [[50000]]%float) !! "10000+" = Some 1.
Proof. vm_compute. repeat split. Qed.

Lemma calculate_exposure_distribution_stats_without_records_witness :
  let asset_results := [Example.asset None; Example.asset None] in
  Forall (fun a => person_exposure_stats a = None) asset_results /\
  calculate_exposure_distribution_stats asset_results = Ok ∅ /\
  calculate_exposure_distribution_stats [] = Ok ∅.
Proof.
  cbv zeta.
  assert (Forall (fun a => person_exposure_stats a = None)
                 [Example.asset None; Example.asset None]) as Hall
    by (repeat constructor).
  split; [exact Hall|]. split.
  - exact (calculate_exposure_distribution_stats_without_records _ Hall).
  - exact (calculate_exposure_distribution_stats_without_records [] (List.Forall_nil _)).
Defined.

Lemma calculate_exposure_distribution_stats_geometric_mean_witness :
  let asset_results :=
    [Example.asset (Some (Example.stats_of 0 0)); Example.asset None;
     Example.asset (Some (Example.stats_of 4 9))] in
  let positive values := List.filter (fun v => PrimFloat.ltb 0 v) values in
  let expected values :=
    match positive values with
    | [] => 0%float
    | _ :: _ => np_exp (np_mean (map np_log (positive values)))
    end in
  max_values asset_results <> [] /\
  exists stats max_stats total_stats,
    calculate_exposure_distribution_stats asset_results = Ok stats /\
    stats !! "max_person_exposure_stats" = Some max_stats /\
    stats !! "total_person_exposure_stats" = Some total_stats /\
    max_stats !! "geometric_mean" = Some (PyFloat (expected (max_values asset_results))) /\
    total_stats !! "geometric_mean" = Some (PyFloat (expected (total_values asset_results))) /\
    List.Forall (fun v => PrimFloat.ltb 0 v = true) (positive (max_values asset_results)) /\
    List.Forall (fun v => PrimFloat.ltb 0 v = true) (positive (total_values asset_results)) /\
    (positive (max_values asset_results) = [] ->
     max_stats !! "geometric_mean" = Some (PyFloat 0)) /\
    (positive (total_values asset_results) = [] ->
     total_stats !! "geometric_mean" = Some (PyFloat 0)) /\
    PrimFloat.is_nan 0 = false.
Proof.
  cbv zeta. split; [discriminate|].
  apply (calculate_exposure_distribution_stats_geometric_mean
           [Example.asset (Some (Example.stats_of 0 0)); Example.asset None;
            Example.asset (Some (Example.stats_of 4 9))]).
  discriminate.
Defined.

(** Only zeros: the geometric mean is 0.0. *)
Example geometric_mean_of_zeros :
  match calculate_exposure_distribution_stats
          [Example.asset (Some (Example.stats_of 0 0));
           Example.asset (Some (Example.stats_of 0 0))] with
  | Ok stats =>
      (stats !! "max_person_exposure_stats" ≫= lookup "geometric_mean") = Some (PyFloat 0) /\
      (stats !! "total_person_exposure_stats" ≫= lookup "geometric_mean") = Some (PyFloat 0) /\
      (stats !! "max_person_exposure_stats" ≫= lookup "count") = Some (PyInt 2)
  | Raise _ => False
  end.
Proof. vm_compute. repeat split. Qed.

(** ** The analyser and the catalogue on the example files *)

Lemma analyze_concentration_file_data_extent_witness :
  let W := Example.world Example.pop_tiff in
  let file_path := "BRA/1566447-v2.tiff" in
  let data := band1 Example.conc_tiff in
  let rows := nrows data in
  let cols := ncols data in
  let positive i j := i < rows /\ j < cols /\ PrimFloat.ltb 0 (item data i j) = true in
  @rasterio_read W file_path = Some Example.conc_tiff /\
  exists record s',
    @analyze_concentration_file W file_path "BRA" "1566447" Example.empty_store =
      (Ok (Analysed record), s') /\
    ((forall i j, ~ positive i j) ->
     positive_pixels record = 0 /\
     data_extent record = {| min_row := -1; max_row := -1; min_col := -1; max_col := -1 |} /\
     reaches_edges record = {| reaches_top := false; reaches_bottom := false;
                               reaches_left := false; reaches_right := false |}) /\
    ((exists i j, positive i j) ->
     exists r0 r1 c0 c1,
       data_extent record = {| min_row := Z.of_nat r0; max_row := Z.of_nat r1;
                               min_col := Z.of_nat c0; max_col := Z.of_nat c1 |} /\
       r0 <= r1 < rows /\ c0 <= c1 < cols /\
       (forall i j, positive i j -> r0 <= i <= r1 /\ c0 <= j <= c1) /\
       (exists j, positive r0 j) /\ (exists j, positive r1 j) /\
       (exists i, positive i c0) /\ (exists i, positive i c1) /\
       (reaches_top (reaches_edges record) = true <-> r0 = 0) /\
       (reaches_bottom (reaches_edges record) = true <-> r1 = rows - 1) /\
       (reaches_left (reaches_edges record) = true <-> c0 = 0) /\
       (reaches_right (reaches_edges record) = true <-> c1 = cols - 1)).
Proof.
  cbv zeta. split; [reflexivity|].
  exact (@analyze_concentration_file_data_extent (Example.world Example.pop_tiff)
           "BRA/1566447-v2.tiff" "BRA" "1566447" Example.empty_store Example.conc_tiff eq_refl).
Defined.

Lemma analyze_concentration_file_pixel_counts_witness :
  let W := Example.world Example.pop_tiff in
  let file_path := "BRA/1566447-v2.tiff" in
  @rasterio_read W file_path = Some Example.conc_tiff /\
  exists record s',
    @analyze_concentration_file W file_path "BRA" "1566447" Example.empty_store =
      (Ok (Analysed record), s') /\
    zero_pixels record + positive_pixels record +
    count_cells (fun v => PrimFloat.ltb v 0 || PrimFloat.is_nan v) (band1 Example.conc_tiff) =
    analysis_total_pixels record /\
    zero_pixels record = count_cells (fun v => PrimFloat.eqb v 0) (band1 Example.conc_tiff) /\
    positive_pixels record = count_cells (fun v => PrimFloat.ltb 0 v) (band1 Example.conc_tiff).
Proof.
  cbv zeta. split; [reflexivity|].
  exact (@analyze_concentration_file_pixel_counts (Example.world Example.pop_tiff)
           "BRA/1566447-v2.tiff" "BRA" "1566447" Example.empty_store Example.conc_tiff eq_refl).
Defined.

Lemma analyze_concentration_file_margins_witness :
  let W := Example.world Example.pop_tiff in
  let file_path := "BRA/1566447-v2.tiff" in
  let data := band1 Example.conc_tiff in
  let rows := nrows data in
  let cols := ncols data in
  (@rasterio_read W file_path = Some Example.conc_tiff /\
   exists i j, i < rows /\ j < cols /\ PrimFloat.ltb 0 (item data i j) = true) /\
  exists record s',
    @analyze_concentration_file W file_path "BRA" "1566447" Example.empty_store =
      (Ok (Analysed record), s') /\
    let found := edge_patterns record in
    let box := data_extent record in
    let reach := reaches_edges record in
    (Z.of_nat (top_zero_rows found) <= min_row box /\
     Z.of_nat (bottom_zero_rows found) <= Z.of_nat rows - 1 - max_row box /\
     Z.of_nat (left_zero_cols found) <= min_col box /\
     Z.of_nat (right_zero_cols found) <= Z.of_nat cols - 1 - max_col box)%Z /\
    (reaches_top reach = true -> top_zero_rows found = 0 /\ top_zero_stripe found = false) /\
    (reaches_bottom reach = true ->
     bottom_zero_rows found = 0 /\ bottom_zero_stripe found = false) /\
    (reaches_left reach = true -> left_zero_cols found = 0 /\ left_zero_stripe found = false) /\
    (reaches_right reach = true ->
     right_zero_cols found = 0 /\ right_zero_stripe found = false) /\
    ((forall i j, i < rows -> j < cols -> PrimFloat.is_nan (item data i j) = false) ->
     (Z.of_nat (top_zero_rows found) = min_row box /\
      Z.of_nat (bottom_zero_rows found) = Z.of_nat rows - 1 - max_row box /\
      Z.of_nat (left_zero_cols found) = min_col box /\
      Z.of_nat (right_zero_cols found) = Z.of_nat cols - 1 - max_col box)%Z).
Proof.
  cbv zeta.
  assert (exists i j, i < nrows (band1 Example.conc_tiff) /\ j < ncols (band1 Example.conc_tiff) /\
                      PrimFloat.ltb 0 (item (band1 Example.conc_tiff) i j) = true) as Hcell
    by (exists 0, 0; cbn; repeat split; lia).
  split; [split; [reflexivity|exact Hcell]|].
  exact (@analyze_concentration_file_margins (Example.world Example.pop_tiff)
           "BRA/1566447-v2.tiff" "BRA" "1566447" Example.empty_store Example.conc_tiff
           eq_refl Hcell).
Defined.

Lemma detect_edge_patterns_monotone_witness :
  let p := detect_edge_patterns Example.concentration 0%float in
  let q := detect_edge_patterns Example.concentration 10%float in
  PrimFloat.leb 0 10 = true /\
  top_zero_rows p <= top_zero_rows q /\
  bottom_zero_rows p <= bottom_zero_rows q /\
  left_zero_cols p <= left_zero_cols q /\
  right_zero_cols p <= right_zero_cols q.
Proof.
  cbv zeta. split; [reflexivity|].
  exact (detect_edge_patterns_monotone Example.concentration 0%float 10%float eq_refl).
Defined.

Lemma compute_person_exposure_raster_zero_cells_witness :
  let s := Example.store Example.concentration Example.population in
  let conc := cells s 0 in
  let pop := cells s 1 in
  let usable v := is_valid v && PrimFloat.ltb 0 v in
  (0 < next s /\ 1 < next s /\ shape conc = shape pop /\ 0 < nrows conc /\ 0 < ncols conc) /\
  exists raster stats s',
    compute_person_exposure_raster 0 1 s = (Ok (raster, stats), s') /\
    (forall i j, i < nrows conc -> j < ncols conc ->
       usable (item conc i j) && usable (item pop i j) = false ->
       PrimFloat.eqb (item (cells s' raster) i j) 0 = true) /\
    (forall i j, i < nrows conc -> j < ncols conc ->
       PrimFloat.ltb 0 (item (cells s' raster) i j) = true ->
       usable (item conc i j) = true /\ usable (item pop i j) = true) /\
    non_zero_pixels stats <= count_cells (fun v => PrimFloat.ltb 0 v) conc /\
    non_zero_pixels stats <= count_cells (fun v => PrimFloat.ltb 0 v) pop.
Proof.
  cbv zeta. split; [cbn; repeat split; lia|].
  apply (compute_person_exposure_raster_zero_cells
           (Example.store Example.concentration Example.population) 0 1);
    cbn; first [lia | reflexivity].
Defined.

Lemma compute_person_exposure_raster_failures_witness :
  let s := Example.store Example.concentration Example.no_rows in
  let conc := cells s 0 in
  let pop := cells s 1 in
  let rows := broadcast_dim (nrows conc) (nrows pop) in
  let cols := broadcast_dim (ncols conc) (ncols pop) in
  (0 < next s /\ 1 < next s) /\
  let '(outcome, s') := compute_person_exposure_raster 0 1 s in
  (outcome = Raise (ValueError "operands could not be broadcast together") <->
   rows = None \/ cols = None) /\
  (outcome =
   Raise (ValueError "zero-size array to reduction operation maximum which has no identity") <->
   exists r c, rows = Some r /\ cols = Some c /\ r * c = 0) /\
  ((exists raster stats, outcome = Ok (raster, stats)) <->
   exists r c, rows = Some r /\ cols = Some c /\ 0 < r * c) /\
  io s' = io s /\
  (forall r, r < next s -> cells s' r = cells s r).
Proof.
  cbv zeta. split; [cbn; split; lia|].
  apply (compute_person_exposure_raster_failures
           (Example.store Example.concentration Example.no_rows) 0 1); cbn; lia.
Defined.

Lemma process_asset_pair_record_witness :
  let W := Example.world Example.pop_tiff in
  let conc_file := "BRA/1566447-v2.tiff" in
  let pop_file := "BRA/1566447-pop-v2.tiff" in
  let s := Example.empty_store in
  let conc_info :=
    {| info_asset_id := "1566447"; info_country := "BRA"; info_suffix := "concentration" |} in
  let pop_info :=
    {| info_asset_id := "1566447"; info_country := "BRA"; info_suffix := "pop" |} in
  let conc := band1 Example.conc_tiff in
  let pop := band1 Example.pop_tiff in
  let clean v := if is_valid v then v else 0%float in
  (@extract_asset_info_from_filename W (@os_path_basename W conc_file) (Some "BRA") = Ok conc_info /\
   @extract_asset_info_from_filename W (@os_path_basename W pop_file) (Some "BRA") = Ok pop_info /\
   @rasterio_read W conc_file = Some Example.conc_tiff /\
   @rasterio_read W pop_file = Some Example.pop_tiff /\
   band_dtype Example.conc_tiff = "float64" /\ band_dtype Example.pop_tiff = "float64" /\
   affine_eqb (transform Example.conc_tiff) (transform Example.pop_tiff) = true /\
   shape conc = shape pop /\ 0 < nrows conc /\ 0 < ncols conc /\
   @os_makedirs W "processed" = Ok tt /\
   forall product,
     np_multiply (np_where is_valid conc 0%float) (np_where is_valid pop 0%float) = Ok product ->
     @rasterio_write W
       (@os_path_join W "processed" "BRA_1566447_person_exposure.tiff") product = Ok tt) /\
  exists record stats zeros s',
    @process_asset_pair Example.numpy W conc_file pop_file (Some "BRA") true "processed" s =
      (Ok record, s') /\
    let exposure := cells s' (next s + 4) in
    asset_id record = info_asset_id conc_info /\
    country record = info_country conc_info /\
    total_pixels record = nrows conc * ncols conc /\
    (center_lon record, center_lat record) =
      @rasterio_transform_xy W (transform Example.conc_tiff) (nrows conc / 2) (ncols conc / 2) /\
    asset_crs record = crs Example.conc_tiff /\
    asset_bounds record = bounds Example.conc_tiff /\
    script_version record = "1.1.0" /\
    file_concentration (files record) = @os_path_basename W conc_file /\
    file_population (files record) = @os_path_basename W pop_file /\
    concentration_pixel_counts record = count_pixels_by_order_of_magnitude conc /\
    population_pixel_counts record = count_pixels_by_order_of_magnitude pop /\
    person_exposure_pixel_counts record = count_pixels_by_order_of_magnitude exposure /\
    shape exposure = shape conc /\
    (forall i j, i < nrows conc -> j < ncols conc ->
       item exposure i j = PrimFloat.mul (clean (item conc i j)) (clean (item pop i j))) /\
    person_exposure_stats record = Some stats /\
    non_zero_pixels stats = count_cells (fun v => PrimFloat.ltb 0 v) exposure /\
    person_exposure_pixel_counts record !! "0" = Some zeros /\
    zeros + non_zero_pixels stats = total_pixels record /\
    cells s' (next s) = conc /\
    cells s' (next s + 1) = pop.
Proof.
  cbv zeta. split; [cbn; repeat split; lia|].
  apply (@process_asset_pair_record Example.numpy (Example.world Example.pop_tiff)
           "BRA/1566447-v2.tiff" "BRA/1566447-pop-v2.tiff" (Some "BRA") true "processed"
           Example.empty_store
           {| info_asset_id := "1566447"; info_country := "BRA"; info_suffix := "concentration" |}
           {| info_asset_id := "1566447"; info_country := "BRA"; info_suffix := "pop" |}
           Example.conc_tiff Example.pop_tiff);
    first [reflexivity | cbn; lia | intros _; split; [reflexivity|intros ? _; reflexivity]].
Defined.

Lemma needs_processing_false_witness :
  let W := Example.world Example.pop_tiff in
  let F := ExampleCatalogue.file_system in
  let existing_assets := ExampleCatalogue.catalogue in
  @needs_processing W F "BRA" "1566447" existing_assets = Returns false /\
  exists before d after version,
    existing_assets = before ++ JDict d :: after /\
    d !! "asset_id" = Some (JStr "1566447") /\
    d !! "country" = Some (JStr "BRA") /\
    d !! "script_version" = Some (JStr version) /\
    String.ltb version "1.1.0" = false /\
    (forall recorded name,
       d !! "files" = Some (JDict recorded) ->
       recorded !! "person_exposure" = Some (JStr name) ->
       name <> "" ->
       @os_path_exists F (@os_path_join W "processed" name) = true).
Proof.
  cbv zeta.
  assert (@needs_processing (Example.world Example.pop_tiff) ExampleCatalogue.file_system
            "BRA" "1566447" ExampleCatalogue.catalogue = Returns false) as Hrun
    by (vm_compute; reflexivity).
  split; [exact Hrun|].
  exact (@needs_processing_false (Example.world Example.pop_tiff) ExampleCatalogue.file_system
           "BRA" "1566447" ExampleCatalogue.catalogue Hrun).
Defined.

Lemma needs_processing_new_asset_witness :
  let W := Example.world Example.pop_tiff in
  let F := ExampleCatalogue.file_system in
  let existing_assets :=
    [ ExampleCatalogue.entry "1566447" "ARG" "1.0.0" JNull;
      ExampleCatalogue.entry "2200113" "CHL" "1.1.0" JNull ] in
  Forall (fun entry =>
            exists d id, entry = JDict d /\ d !! "asset_id" = Some id /\
              (id <> JStr "1566447" \/
               exists c, d !! "country" = Some c /\ c <> JStr "CHL"))
         existing_assets /\
  @needs_processing W F "CHL" "1566447" existing_assets = Returns true.
Proof.
  cbv zeta.
  assert (Forall (fun entry =>
            exists d id, entry = JDict d /\ d !! "asset_id" = Some id /\
              (id <> JStr "1566447" \/
               exists c, d !! "country" = Some c /\ c <> JStr "CHL"))
            [ ExampleCatalogue.entry "1566447" "ARG" "1.0.0" JNull;
              ExampleCatalogue.entry "2200113" "CHL" "1.1.0" JNull ]) as Hothers.
  { constructor; [|constructor; [|constructor]].
    - eexists _, _. split; [reflexivity|]. split; [reflexivity|].
      right. eexists. split; [reflexivity|discriminate].
    - eexists _, _. split; [reflexivity|]. split; [reflexivity|].
      left. discriminate. }
  split; [exact Hothers|].
  exact (@needs_processing_new_asset (Example.world Example.pop_tiff)
           ExampleCatalogue.file_system "CHL" "1566447" _ Hothers).
Defined.

Lemma needs_processing_recorded_asset_witness :
  let W := Example.world Example.pop_tiff in
  let F := ExampleCatalogue.file_system in
  let before := [ExampleCatalogue.entry "1566447" "ARG" "1.0.0" JNull] in
  let d :=
    ExampleCatalogue.fields "1566447" "BRA" "1.1.0" (JStr "BRA_1566447_person_exposure.tiff") in
  let after := [JNull] in
  let answer := @needs_processing W F "BRA" "1566447" (before ++ JDict d :: after) in
  (Forall (fun entry =>
             exists d id, entry = JDict d /\ d !! "asset_id" = Some id /\
               (id <> JStr "1566447" \/
                exists c, d !! "country" = Some c /\ c <> JStr "BRA"))
          before /\
   d !! "asset_id" = Some (JStr "1566447") /\
   d !! "country" = Some (JStr "BRA")) /\
  (d !! "script_version" = None -> answer = Returns true) /\
  (forall version, d !! "script_version" = Some (JStr version) ->
     String.ltb version "1.1.0" = true -> answer = Returns true) /\
  (forall v, d !! "script_version" = Some v -> (forall version, v <> JStr version) ->
     answer = Throws TypeError) /\
  (forall version, d !! "script_version" = Some (JStr version) ->
     String.ltb version "1.1.0" = false ->
     (d !! "files" = None -> answer = Returns false) /\
     (forall recorded, d !! "files" = Some (JDict recorded) ->
        (recorded !! "person_exposure" = None \/
         recorded !! "person_exposure" = Some JNull \/
         recorded !! "person_exposure" = Some (JStr "") -> answer = Returns false) /\
        (forall name, recorded !! "person_exposure" = Some (JStr name) -> name <> "" ->
           answer = Returns (negb (@os_path_exists F (@os_path_join W "processed" name)))))).
Proof.
  cbv zeta.
  assert (Forall (fun entry =>
             exists d id, entry = JDict d /\ d !! "asset_id" = Some id /\
               (id <> JStr "1566447" \/
                exists c, d !! "country" = Some c /\ c <> JStr "BRA"))
            [ExampleCatalogue.entry "1566447" "ARG" "1.0.0" JNull]) as Hothers.
  { constructor; [|constructor].
    eexists _, _. split; [reflexivity|]. split; [reflexivity|].
    right. eexists. split; [reflexivity|discriminate]. }
  split; [split; [exact Hothers|split; reflexivity]|].
  exact (@needs_processing_recorded_asset (Example.world Example.pop_tiff)
           ExampleCatalogue.file_system "BRA" "1566447"
           [ExampleCatalogue.entry "1566447" "ARG" "1.0.0" JNull] [JNull]
           (ExampleCatalogue.fields "1566447" "BRA" "1.1.0"
              (JStr "BRA_1566447_person_exposure.tiff"))
           Hothers eq_refl eq_refl).
Defined.
